(** * Multi-step intake wizard: file validation, step validators, step
      controller and draft persistence.

    A shallow embedding of the TypeScript sources
    - [src/types/form.ts]                             (the data model),
    - [src/components/FileUpload.tsx]                 (module [FileUpload]),
    - [src/components/BasicDetailsForm.tsx]           (module [BasicDetailsForm]),
    - [src/components/ProfessionalDetailsForm.tsx]    (module [ProfessionalDetailsForm]),
    - [src/components/ExperienceForm.tsx]             (module [ExperienceForm]),
    - [src/components/IdentityVerificationForm.tsx]   (module [IdentityVerificationForm]),
    - [src/components/MultiStepForm.tsx]              (module [MultiStepForm]).

    React state hooks become record fields that are passed explicitly; the
    browser (localStorage, the toast collaborator, the console) is an
    explicit record; what the platform provides ([JSON.parse], the text of
    [JSON.stringify], zod's email pattern, [URL.createObjectURL]) is an
    interface, the class [Platform], over which every definition and
    theorem is generic. The module [Reference] is an executable instance
    of it and the module [Sample] holds the inputs at which the statements
    are run. *)

From Stdlib Require Import ZArith Ascii String List Lia Decimal DecimalString DecimalNat.
From stdpp Require Import base option strings list gmap.

Local Open Scope string_scope.

(** ** The data model, [src/types/form.ts] *)

(** A DOM [File]: the handle is opaque to the wizard, which only reads its
    name, its declared MIME type and its size in bytes. *)
Module File.
Record t := mk { name : string; type : string; size : Z }.
End File.

(** [interface FormFile { file: File | null; preview: string | null }] *)
Module FormFile.
Record t := mk { file : option File.t; preview : option string }.
End FormFile.

Module QualificationData.
Record t := mk {
  degreeType : string;
  institutionName : string;
  graduationYear : string;
  document : FormFile.t
}.
End QualificationData.

Module CertificationData.
Record t := mk {
  name : string;
  issuingBody : string;
  date : string;
  document : FormFile.t
}.
End CertificationData.

Module BarRegistrationData.
Record t := mk {
  association : string;
  licenseNumber : string;
  jurisdiction : string;
  completionYear : string;
  document : FormFile.t
}.
End BarRegistrationData.

Module ProfessionalDetailsData.
Record t := mk {
  qualifications : QualificationData.t;
  certifications : list CertificationData.t;
  barRegistration : BarRegistrationData.t
}.
End ProfessionalDetailsData.

Module WorkExperiencePosition.
Record t := mk {
  title : string;
  company : string;
  startDate : string;
  endDate : string;
  current : bool;
  description : string
}.
End WorkExperiencePosition.

Module ExperienceData.
Record t := mk { positions : list WorkExperiencePosition.t }.
End ExperienceData.

Module IdentityVerificationData.
Record t := mk {
  idType : string;
  idNumber : string;
  expiryDate : string;
  document : FormFile.t
}.
End IdentityVerificationData.

(** The anonymous object type of [FormData.basicDetails]. *)
Module BasicDetails.
Record t := mk { firstName : string; lastName : string; email : string }.
End BasicDetails.

Module FormData.
Record t := mk {
  basicDetails : BasicDetails.t;
  professionalDetails : ProfessionalDetailsData.t;
  experience : ExperienceData.t;
  identityVerification : IdentityVerificationData.t
}.
End FormData.

(** [type FormSteps = 'basicDetails' | ... | 'verificationStatus'] *)
Inductive FormSteps :=
  | basicDetails
  | professionalDetails
  | experience
  | identityVerification
  | verificationStatus.

#[global] Instance FormSteps_eq_dec : EqDecision FormSteps.
Proof. solve_decision. Defined.

(** ** JavaScript values *)

(** The values that the draft code handles dynamically: what [JSON.parse]
    returns, and the form data as [JSON.stringify] walks it ([JSFile] is a
    [File] object met during the walk; it never comes out of [JSON.parse]).
    The form holds no numeric field: integers stand for the numbers. *)
#[local] Unset Elimination Schemes.
Inductive JSValue :=
  | JSNull
  | JSBool (b : bool)
  | JSNumber (n : Z)
  | JSString (s : string)
  | JSFile (f : File.t)
  | JSArray (items : list JSValue)
  | JSObject (props : list (string * JSValue)).
#[local] Set Elimination Schemes.

(** The outcome of an expression that may throw. *)
Inductive Completion (A : Type) :=
  | Normal (a : A)
  | Throw (error : string).
Arguments Normal {A} a.
Arguments Throw {A} error.

(** ** The platform *)

Class Platform := {
(** [emailRegex.test(s)] of zod's [z.string().email()] *)
isEmail : string -> bool;
(** the text that [JSON.stringify] writes for a tree (after the replacer
    has been applied) *)
JSON_text : JSValue -> string;
(** [JSON.parse]; [None] when it throws a [SyntaxError] *)
JSON_parse : string -> option JSValue;
(** [URL.createObjectURL] *)
createObjectURL : File.t -> string
}.

(** ** Notifications *)

Module Toast.
Record t := mk {
  title : string;
  description : option string;
  variant : option string
}.
End Toast.

(** ** [src/components/FileUpload.tsx] *)

Module FileUpload.

Record Validation := mkValidation { valid : bool; message : option string }.

Definition validTypes : list string :=
  ["application/pdf"; "image/jpeg"; "image/png"; "image/jpg"].

Definition maxSize : Z := 5 * 1024 * 1024.

(** [Array.prototype.includes] on strings: strict equality. *)
Definition includes (l : list string) (s : string) : bool :=
  existsb (String.eqb s) l.

Definition validateFile (file : File.t) : Validation :=
  if negb (includes validTypes (File.type file)) then
    {| valid := false;
       message := Some "Only PDF, JPG, and PNG files are allowed" |}
  else if (File.size file >? maxSize)%Z then
    {| valid := false; message := Some "File size must be less than 5MB" |}
  else {| valid := true; message := None |}.

(** What one run of an event handler of the component does: the calls of
    [setIsDragging], of the [onChange] prop and of [toast]. *)
Record Handled := mkHandled {
  setIsDragging : option bool;
  onChange : option FormFile.t;
  toast : list Toast.t
}.

(** The toast of a rejected file. *)
Definition invalidFile (message : option string) : Toast.t :=
  {| Toast.title := "Invalid file";
     Toast.description := message;
     Toast.variant := Some "destructive" |}.

Section Handlers.
Context `{Platform}.

(** The body shared by [handleDrop] and [handleFileChange], from the
    test on the file list onwards. [files] is [e.dataTransfer.files],
    respectively [e.target.files]. *)
Definition select (dragging : option bool) (files : list File.t) : Handled :=
  match files with
  | file :: _ =>
      let validation := validateFile file in
      if negb (valid validation) then
        {| setIsDragging := dragging;
           onChange := None;
           toast := [ invalidFile (message validation) ] |}
      else
        {| setIsDragging := dragging;
           onChange := Some {| FormFile.file := Some file;
                               FormFile.preview := Some (createObjectURL file) |};
           toast := [] |}
  | [] => {| setIsDragging := dragging; onChange := None; toast := [] |}
  end.

Definition handleDrop (files : list File.t) : Handled :=
  select (Some false) files.

Definition handleFileChange (files : list File.t) : Handled :=
  select None files.
End Handlers.

End FileUpload.

(** ** The part of zod that the step forms use *)

(** A path segment of a zod issue: an object key or an array index. *)
Inductive PathSegment :=
  | Key (key : string)
  | Index (index : nat).

Module ZodIssue.
Record t := mk { path : list PathSegment; message : string }.
End ZodIssue.

(** [String(n)] for an array index. *)
Definition Number_toString (n : nat) : string :=
  NilEmpty.string_of_uint (Nat.to_uint n).

Definition segment_toString (seg : PathSegment) : string :=
  match seg with
  | Key key => key
  | Index index => Number_toString index
  end.

(** [path.join('.')] *)
Fixpoint join (path : list PathSegment) : string :=
  match path with
  | [] => ""
  | [seg] => segment_toString seg
  | seg :: rest => segment_toString seg ++ "." ++ join rest
  end.

(** zod is a dependency of the repository: what follows is the behaviour of
    the combinators that the four schemas are written with. A schema is a
    function from a value of its TypeScript type to the issues that
    [schema.parse] collects, in the order in which zod adds them: an object
    visits its keys in the order of the shape, an array checks its length
    and then visits its items. A value of the right type raises no type
    issue, so that a schema without a check ([z.boolean()],
    [z.string().optional()], [z.string().nullable()],
    [z.instanceof(File).nullable()]) collects nothing. [parse] throws a
    [ZodError] whose [errors] are these issues when there is one, and
    returns otherwise. *)
Module z.

Definition Schema (A : Type) : Type := A -> list ZodIssue.t.

Definition issue (message : string) : list ZodIssue.t :=
  [ {| ZodIssue.path := []; ZodIssue.message := message |} ].

(** The issues of a child, seen from its parent. *)
Definition under (seg : PathSegment) (issues : list ZodIssue.t) : list ZodIssue.t :=
  map (fun i => {| ZodIssue.path := seg :: ZodIssue.path i;
                   ZodIssue.message := ZodIssue.message i |}) issues.

(** A schema that only checks the type. *)
Definition typed {A : Type} : Schema A := fun _ => [].

(** [z.string().min(n, { message })]. The forms use it with [n = 1], where
    the length in bytes and the length in UTF-16 units agree: both are
    below 1 on the empty string only. *)
Definition string_min (n : nat) (message : string) : Schema string :=
  fun s => if Nat.ltb (String.length s) n then issue message else [].

(** [z.string().email({ message })] *)
Definition string_email `{Platform} (message : string) : Schema string :=
  fun s => if isEmail s then [] else issue message.

(** [schema.refine(check, { message })]: the check runs when the inner
    schema has not failed. *)
Definition refine {A : Type} (schema : Schema A) (check : A -> bool)
    (message : string) : Schema A :=
  fun a =>
    match schema a with
    | [] => if check a then [] else issue message
    | issues => issues
    end.

(** One entry [key: schema] of the shape of [z.object]. *)
Definition field {A B : Type} (key : string) (get : A -> B)
    (schema : Schema B) : Schema A :=
  fun a => under (Key key) (schema (get a)).

(** [z.object({ ... })] *)
Definition object {A : Type} (shape : list (Schema A)) : Schema A :=
  fun a => concat (map (fun entry => entry a) shape).

(** [z.array(item)] *)
Definition array {A : Type} (item : Schema A) : Schema (list A) :=
  fun l => concat (imap (fun i x => under (Index i) (item x)) l).

(** [z.array(item).min(n, { message })] *)
Definition array_min {A : Type} (item : Schema A) (n : nat)
    (message : string) : Schema (list A) :=
  fun l => ((if Nat.ltb (length l) n then issue message else []) ++ array item l)%list.

(** The message of zod's error map for an array that is too short. *)
Definition array_too_small (n : nat) : string :=
  "Array must contain at least " ++ Number_toString n ++ " element(s)".

End z.

(** [Record<string, string>], keyed by the joined path. *)
Abbreviation ErrorMap := (gmap string string).

(** The [catch] branch shared by the four [validateForm]:
    [error.errors.forEach(err => formattedErrors[err.path.join('.')] = err.message)]. *)
Definition formattedErrors (errors : list ZodIssue.t) : ErrorMap :=
  foldl (fun formatted err =>
           <[ join (ZodIssue.path err) := ZodIssue.message err ]> formatted)
        ∅ errors.

(** [validateForm] of a step form: the Boolean it returns and the argument
    of its call of [setErrors]. *)
Definition validateWith {A : Type} (schema : z.Schema A) (data : A) : bool * ErrorMap :=
  match schema data with
  | [] => (true, ∅)
  | errors => (false, formattedErrors errors)
  end.

(** [handleSubmit] of a step form: the argument of [setErrors], and whether
    [onNext] is called. *)
Record Submitted := mkSubmitted { setErrors : ErrorMap; onNext : bool }.

Definition submitWith {A : Type} (validateForm : A -> bool * ErrorMap) (data : A) : Submitted :=
  let '(isValid, errors) := validateForm data in
  {| setErrors := errors; onNext := isValid |}.

(** [l.map((x, i) => f(first + i, x))] *)
Section MapFrom.
Context {A B : Type} (f : nat -> A -> B).

Fixpoint mapFrom (first : nat) (l : list A) : list B :=
  match l with
  | [] => []
  | x :: rest => f first x :: mapFrom (S first) rest
  end.
End MapFrom.

(** What a validator says about a required document: with no file it
    fails and reports the document at [key]; with a file it reports nothing
    at [key]. *)
Definition documentRequired (validated : bool * ErrorMap) (key : string)
    (file : option File.t) : Prop :=
  (file = None ->
     fst validated = false /\ snd validated !! key = Some "Document is required")
  /\ (file <> None -> snd validated !! key = None).

(** [Array.prototype.splice(start, deleteCount)] with no item to insert:
    the array that it leaves. A negative [start] counts from the end. *)
Definition splice {A : Type} (start deleteCount : Z) (l : list A) : list A :=
  let len := Z.of_nat (length l) in
  let actualStart :=
    if (start <? 0)%Z then Z.max (len + start) 0 else Z.min start len in
  let actualDeleteCount := Z.min (Z.max deleteCount 0) (len - actualStart) in
  (take (Z.to_nat actualStart) l
   ++ drop (Z.to_nat (actualStart + actualDeleteCount)) l)%list.

(** [file => file !== null] *)
Definition notNull (file : option File.t) : bool :=
  match file with Some _ => true | None => false end.

(** ** [src/components/BasicDetailsForm.tsx] *)

Module BasicDetailsForm.

(** The [field] argument of [handleChange]. *)
Inductive Field := firstName | lastName | email.

(** [onChange({ ...data, [field]: value })] *)
Definition handleChange (field : Field) (value : string) (data : BasicDetails.t)
    : option BasicDetails.t :=
  Some match field with
       | firstName =>
           BasicDetails.mk value (BasicDetails.lastName data) (BasicDetails.email data)
       | lastName =>
           BasicDetails.mk (BasicDetails.firstName data) value (BasicDetails.email data)
       | email =>
           BasicDetails.mk (BasicDetails.firstName data) (BasicDetails.lastName data) value
       end.

Section Form.
Context `{Platform}.

Definition basicDetailsSchema : z.Schema BasicDetails.t :=
  z.object [
    z.field "firstName" BasicDetails.firstName
      (z.string_min 1 "First name is required");
    z.field "lastName" BasicDetails.lastName
      (z.string_min 1 "Last name is required");
    z.field "email" BasicDetails.email
      (z.string_email "Invalid email address")
  ].

Definition validateForm (data : BasicDetails.t) : bool * ErrorMap :=
  validateWith basicDetailsSchema data.

Definition handleSubmit (data : BasicDetails.t) : Submitted :=
  submitWith validateForm data.
End Form.
End BasicDetailsForm.

(** ** [src/components/ProfessionalDetailsForm.tsx] *)

Module ProfessionalDetailsForm.

(** [generateYears], with the year of [new Date()] as [currentYear]. The
    loop [for (year = currentYear; year >= 1950; year--)] runs
    [currentYear - 1949] times, or not at all; [fuel] counts its rounds.
    [year.toString()] is read on a year that is 1950 or more. *)
Fixpoint generateYearsFrom (fuel : nat) (year : Z) : list string :=
  match fuel with
  | O => []
  | S fuel' =>
      if (year >=? 1950)%Z
      then (Number_toString (Z.to_nat year) :: generateYearsFrom fuel' (year - 1)%Z)%list
      else []
  end.

Definition generateYears (currentYear : Z) : list string :=
  generateYearsFrom (Z.to_nat (currentYear - 1949)) currentYear.

Definition fileSchema : z.Schema FormFile.t :=
  z.object [
    z.field "file" FormFile.file
      (z.refine z.typed notNull "Document is required");
    z.field "preview" FormFile.preview z.typed
  ].

Definition qualificationSchema : z.Schema QualificationData.t :=
  z.object [
    z.field "degreeType" QualificationData.degreeType
      (z.string_min 1 "Degree type is required");
    z.field "institutionName" QualificationData.institutionName
      (z.string_min 1 "Institution name is required");
    z.field "graduationYear" QualificationData.graduationYear
      (z.string_min 1 "Graduation year is required");
    z.field "document" QualificationData.document fileSchema
  ].

Definition certificationSchema : z.Schema CertificationData.t :=
  z.object [
    z.field "name" CertificationData.name
      (z.string_min 1 "Certification name is required");
    z.field "issuingBody" CertificationData.issuingBody
      (z.string_min 1 "Issuing body is required");
    z.field "date" CertificationData.date
      (z.string_min 1 "Date is required");
    z.field "document" CertificationData.document fileSchema
  ].

Definition barRegistrationSchema : z.Schema BarRegistrationData.t :=
  z.object [
    z.field "association" BarRegistrationData.association
      (z.string_min 1 "Bar association is required");
    z.field "licenseNumber" BarRegistrationData.licenseNumber
      (z.string_min 1 "License number is required");
    z.field "jurisdiction" BarRegistrationData.jurisdiction
      (z.string_min 1 "Jurisdiction is required");
    z.field "completionYear" BarRegistrationData.completionYear
      (z.string_min 1 "Completion year is required");
    z.field "document" BarRegistrationData.document fileSchema
  ].

Definition professionalDetailsSchema : z.Schema ProfessionalDetailsData.t :=
  z.object [
    z.field "qualifications" ProfessionalDetailsData.qualifications
      qualificationSchema;
    z.field "certifications" ProfessionalDetailsData.certifications
      (z.array_min certificationSchema 1
         "At least one certification is required");
    z.field "barRegistration" ProfessionalDetailsData.barRegistration
      barRegistrationSchema
  ].

(** The handlers below give the argument of their call of the [onChange]
    prop, [None] when they return without calling it. *)

Definition handleAddCertification (data : ProfessionalDetailsData.t)
    : option ProfessionalDetailsData.t :=
  let newCertification :=
    {| CertificationData.name := "";
       CertificationData.issuingBody := "";
       CertificationData.date := "";
       CertificationData.document :=
         {| FormFile.file := None; FormFile.preview := None |} |} in
  Some {| ProfessionalDetailsData.qualifications :=
            ProfessionalDetailsData.qualifications data;
          ProfessionalDetailsData.certifications :=
            (ProfessionalDetailsData.certifications data ++ [newCertification])%list;
          ProfessionalDetailsData.barRegistration :=
            ProfessionalDetailsData.barRegistration data |}.

Definition handleRemoveCertification (index : Z) (data : ProfessionalDetailsData.t)
    : option ProfessionalDetailsData.t :=
  if (length (ProfessionalDetailsData.certifications data) <=? 1)%nat then None
  else
    let updatedCertifications :=
      splice index 1 (ProfessionalDetailsData.certifications data) in
    Some {| ProfessionalDetailsData.qualifications :=
              ProfessionalDetailsData.qualifications data;
            ProfessionalDetailsData.certifications := updatedCertifications;
            ProfessionalDetailsData.barRegistration :=
              ProfessionalDetailsData.barRegistration data |}.

(** [field: keyof CertificationData] with its [value]. *)
Inductive CertificationField :=
  | name (value : string)
  | issuingBody (value : string)
  | date (value : string)
  | document (value : FormFile.t).

(** [{ ...certification, [field]: value }] *)
Definition withField (certification : CertificationData.t)
    (field : CertificationField) : CertificationData.t :=
  match field with
  | name value =>
      CertificationData.mk value
        (CertificationData.issuingBody certification)
        (CertificationData.date certification)
        (CertificationData.document certification)
  | issuingBody value =>
      CertificationData.mk (CertificationData.name certification) value
        (CertificationData.date certification)
        (CertificationData.document certification)
  | date value =>
      CertificationData.mk (CertificationData.name certification)
        (CertificationData.issuingBody certification) value
        (CertificationData.document certification)
  | document value =>
      CertificationData.mk (CertificationData.name certification)
        (CertificationData.issuingBody certification)
        (CertificationData.date certification) value
  end.

(** The form calls it with an [index] of [data.certifications.map], which
    is in range. Out of range the source would store an object that has
    the edited field only, which is no [CertificationData]: the model
    has no value for that array and makes no call. *)
Definition handleCertificationChange (index : nat) (field : CertificationField)
    (data : ProfessionalDetailsData.t) : option ProfessionalDetailsData.t :=
  match ProfessionalDetailsData.certifications data !! index with
  | Some certification =>
      Some {| ProfessionalDetailsData.qualifications :=
                ProfessionalDetailsData.qualifications data;
              ProfessionalDetailsData.certifications :=
                <[ index := withField certification field ]>
                  (ProfessionalDetailsData.certifications data);
              ProfessionalDetailsData.barRegistration :=
                ProfessionalDetailsData.barRegistration data |}
  | None => None
  end.

(** The inline handlers of the three fields of the qualification:
    [onChange({ ...data, qualifications: { ...data.qualifications, [field]: value } })]. *)
Inductive QualificationField := degreeType | institutionName | graduationYear.

Definition onQualificationChange (field : QualificationField) (value : string)
    (data : ProfessionalDetailsData.t) : option ProfessionalDetailsData.t :=
  let q := ProfessionalDetailsData.qualifications data in
  Some {| ProfessionalDetailsData.qualifications :=
            match field with
            | degreeType =>
                QualificationData.mk value (QualificationData.institutionName q)
                  (QualificationData.graduationYear q) (QualificationData.document q)
            | institutionName =>
                QualificationData.mk (QualificationData.degreeType q) value
                  (QualificationData.graduationYear q) (QualificationData.document q)
            | graduationYear =>
                QualificationData.mk (QualificationData.degreeType q)
                  (QualificationData.institutionName q) value
                  (QualificationData.document q)
            end;
          ProfessionalDetailsData.certifications :=
            ProfessionalDetailsData.certifications data;
          ProfessionalDetailsData.barRegistration :=
            ProfessionalDetailsData.barRegistration data |}.

(** The inline handlers of the four fields of the bar registration. *)
Inductive BarRegistrationField :=
  | association | licenseNumber | jurisdiction | completionYear.

Definition onBarRegistrationChange (field : BarRegistrationField) (value : string)
    (data : ProfessionalDetailsData.t) : option ProfessionalDetailsData.t :=
  let b := ProfessionalDetailsData.barRegistration data in
  Some {| ProfessionalDetailsData.qualifications :=
            ProfessionalDetailsData.qualifications data;
          ProfessionalDetailsData.certifications :=
            ProfessionalDetailsData.certifications data;
          ProfessionalDetailsData.barRegistration :=
            match field with
            | association =>
                BarRegistrationData.mk value (BarRegistrationData.licenseNumber b)
                  (BarRegistrationData.jurisdiction b)
                  (BarRegistrationData.completionYear b) (BarRegistrationData.document b)
            | licenseNumber =>
                BarRegistrationData.mk (BarRegistrationData.association b) value
                  (BarRegistrationData.jurisdiction b)
                  (BarRegistrationData.completionYear b) (BarRegistrationData.document b)
            | jurisdiction =>
                BarRegistrationData.mk (BarRegistrationData.association b)
                  (BarRegistrationData.licenseNumber b) value
                  (BarRegistrationData.completionYear b) (BarRegistrationData.document b)
            | completionYear =>
                BarRegistrationData.mk (BarRegistrationData.association b)
                  (BarRegistrationData.licenseNumber b)
                  (BarRegistrationData.jurisdiction b) value
                  (BarRegistrationData.document b)
            end |}.

(** [onChange] of the upload of the degree document. *)
Definition onDegreeDocumentChange (file : FormFile.t)
    (data : ProfessionalDetailsData.t) : option ProfessionalDetailsData.t :=
  let q := ProfessionalDetailsData.qualifications data in
  Some {| ProfessionalDetailsData.qualifications :=
            {| QualificationData.degreeType := QualificationData.degreeType q;
               QualificationData.institutionName := QualificationData.institutionName q;
               QualificationData.graduationYear := QualificationData.graduationYear q;
               QualificationData.document := file |};
          ProfessionalDetailsData.certifications :=
            ProfessionalDetailsData.certifications data;
          ProfessionalDetailsData.barRegistration :=
            ProfessionalDetailsData.barRegistration data |}.

(** [onChange] of the upload of the bar registration proof. *)
Definition onBarProofDocumentChange (file : FormFile.t)
    (data : ProfessionalDetailsData.t) : option ProfessionalDetailsData.t :=
  let b := ProfessionalDetailsData.barRegistration data in
  Some {| ProfessionalDetailsData.qualifications :=
            ProfessionalDetailsData.qualifications data;
          ProfessionalDetailsData.certifications :=
            ProfessionalDetailsData.certifications data;
          ProfessionalDetailsData.barRegistration :=
            {| BarRegistrationData.association := BarRegistrationData.association b;
               BarRegistrationData.licenseNumber := BarRegistrationData.licenseNumber b;
               BarRegistrationData.jurisdiction := BarRegistrationData.jurisdiction b;
               BarRegistrationData.completionYear := BarRegistrationData.completionYear b;
               BarRegistrationData.document := file |} |}.

Definition validateForm (data : ProfessionalDetailsData.t) : bool * ErrorMap :=
  validateWith professionalDetailsSchema data.

Definition handleSubmit (data : ProfessionalDetailsData.t) : Submitted :=
  submitWith validateForm data.

End ProfessionalDetailsForm.

(** ** [src/components/ExperienceForm.tsx] *)

Module ExperienceForm.

Definition workExperienceSchema : z.Schema WorkExperiencePosition.t :=
  z.object [
    z.field "title" WorkExperiencePosition.title
      (z.string_min 1 "Job title is required");
    z.field "company" WorkExperiencePosition.company
      (z.string_min 1 "Company name is required");
    z.field "startDate" WorkExperiencePosition.startDate
      (z.string_min 1 "Start date is required");
    z.field "endDate" WorkExperiencePosition.endDate z.typed;
    z.field "current" WorkExperiencePosition.current z.typed;
    z.field "description" WorkExperiencePosition.description
      (z.string_min 1 "Job description is required")
  ].

Definition experienceSchema : z.Schema ExperienceData.t :=
  z.object [
    z.field "positions" ExperienceData.positions
      (z.array_min workExperienceSchema 1 (z.array_too_small 1))
  ].

Definition emptyPosition : WorkExperiencePosition.t :=
  {| WorkExperiencePosition.title := "";
     WorkExperiencePosition.company := "";
     WorkExperiencePosition.startDate := "";
     WorkExperiencePosition.endDate := "";
     WorkExperiencePosition.current := false;
     WorkExperiencePosition.description := "" |}.

Definition handleAddPosition (data : ExperienceData.t) : option ExperienceData.t :=
  Some {| ExperienceData.positions :=
            (ExperienceData.positions data ++ [emptyPosition])%list |}.

Definition handleRemovePosition (index : Z) (data : ExperienceData.t)
    : option ExperienceData.t :=
  if (1 <? length (ExperienceData.positions data))%nat then
    let updatedPositions := splice index 1 (ExperienceData.positions data) in
    Some {| ExperienceData.positions := updatedPositions |}
  else None.

(** [field: keyof WorkExperiencePosition] with its [value]. *)
Inductive PositionField :=
  | title (value : string)
  | company (value : string)
  | startDate (value : string)
  | endDate (value : string)
  | current (value : bool)
  | description (value : string).

(** [{ ...position, [field]: value }], and for [current] set to [true]
    also [endDate: ''], which the source writes after the field. *)
Definition withField (position : WorkExperiencePosition.t) (field : PositionField)
    : WorkExperiencePosition.t :=
  let p := position in
  match field with
  | title value =>
      WorkExperiencePosition.mk value (WorkExperiencePosition.company p)
        (WorkExperiencePosition.startDate p) (WorkExperiencePosition.endDate p)
        (WorkExperiencePosition.current p) (WorkExperiencePosition.description p)
  | company value =>
      WorkExperiencePosition.mk (WorkExperiencePosition.title p) value
        (WorkExperiencePosition.startDate p) (WorkExperiencePosition.endDate p)
        (WorkExperiencePosition.current p) (WorkExperiencePosition.description p)
  | startDate value =>
      WorkExperiencePosition.mk (WorkExperiencePosition.title p)
        (WorkExperiencePosition.company p) value (WorkExperiencePosition.endDate p)
        (WorkExperiencePosition.current p) (WorkExperiencePosition.description p)
  | endDate value =>
      WorkExperiencePosition.mk (WorkExperiencePosition.title p)
        (WorkExperiencePosition.company p) (WorkExperiencePosition.startDate p) value
        (WorkExperiencePosition.current p) (WorkExperiencePosition.description p)
  | current value =>
      WorkExperiencePosition.mk (WorkExperiencePosition.title p)
        (WorkExperiencePosition.company p) (WorkExperiencePosition.startDate p)
        (if value then "" else WorkExperiencePosition.endDate p)
        value (WorkExperiencePosition.description p)
  | description value =>
      WorkExperiencePosition.mk (WorkExperiencePosition.title p)
        (WorkExperiencePosition.company p) (WorkExperiencePosition.startDate p)
        (WorkExperiencePosition.endDate p) (WorkExperiencePosition.current p) value
  end.

(** Called with an [index] of [data.positions.map], which is in range;
    out of range the source would store an object that has the edited
    field only, for which the model has no value and makes no call. *)
Definition handlePositionChange (index : nat) (field : PositionField)
    (data : ExperienceData.t) : option ExperienceData.t :=
  match ExperienceData.positions data !! index with
  | Some position =>
      Some {| ExperienceData.positions :=
                <[ index := withField position field ]> (ExperienceData.positions data) |}
  | None => None
  end.

Definition validateForm (data : ExperienceData.t) : bool * ErrorMap :=
  validateWith experienceSchema data.

Definition handleSubmit (data : ExperienceData.t) : Submitted :=
  submitWith validateForm data.

End ExperienceForm.

(** ** [src/components/IdentityVerificationForm.tsx] *)

Module IdentityVerificationForm.

Definition fileSchema : z.Schema FormFile.t :=
  z.object [
    z.field "file" FormFile.file
      (z.refine z.typed notNull "Document is required");
    z.field "preview" FormFile.preview z.typed
  ].

Definition identityVerificationSchema : z.Schema IdentityVerificationData.t :=
  z.object [
    z.field "idType" IdentityVerificationData.idType
      (z.string_min 1 "ID type is required");
    z.field "idNumber" IdentityVerificationData.idNumber
      (z.string_min 1 "ID number is required");
    z.field "expiryDate" IdentityVerificationData.expiryDate
      (z.string_min 1 "Expiry date is required");
    z.field "document" IdentityVerificationData.document fileSchema
  ].

(** The inline handlers of the three fields:
    [onChange({ ...data, [field]: value })]. *)
Inductive Field := idType | idNumber | expiryDate.

Definition onFieldChange (field : Field) (value : string)
    (data : IdentityVerificationData.t) : option IdentityVerificationData.t :=
  Some match field with
       | idType =>
           IdentityVerificationData.mk value (IdentityVerificationData.idNumber data)
             (IdentityVerificationData.expiryDate data)
             (IdentityVerificationData.document data)
       | idNumber =>
           IdentityVerificationData.mk (IdentityVerificationData.idType data) value
             (IdentityVerificationData.expiryDate data)
             (IdentityVerificationData.document data)
       | expiryDate =>
           IdentityVerificationData.mk (IdentityVerificationData.idType data)
             (IdentityVerificationData.idNumber data) value
             (IdentityVerificationData.document data)
       end.

(** [onChange] of the upload of the identity document. *)
Definition onIdentityDocumentChange (file : FormFile.t)
    (data : IdentityVerificationData.t) : option IdentityVerificationData.t :=
  Some {| IdentityVerificationData.idType := IdentityVerificationData.idType data;
          IdentityVerificationData.idNumber := IdentityVerificationData.idNumber data;
          IdentityVerificationData.expiryDate := IdentityVerificationData.expiryDate data;
          IdentityVerificationData.document := file |}.

Definition validateForm (data : IdentityVerificationData.t) : bool * ErrorMap :=
  validateWith identityVerificationSchema data.

Definition handleSubmit (data : IdentityVerificationData.t) : Submitted :=
  submitWith validateForm data.

End IdentityVerificationForm.

(** ** The form data as JavaScript values *)

(** The object graph of a [FormData], keys in the order in which the source
    creates them (a spread keeps the order of the keys). *)
Module ToJS.

Definition nullable {A : Type} (f : A -> JSValue) (o : option A) : JSValue :=
  match o with Some a => f a | None => JSNull end.

Definition formFile (d : FormFile.t) : JSValue :=
  JSObject [ ("file", nullable JSFile (FormFile.file d));
             ("preview", nullable JSString (FormFile.preview d)) ].

Definition qualification (d : QualificationData.t) : JSValue :=
  JSObject [ ("degreeType", JSString (QualificationData.degreeType d));
             ("institutionName", JSString (QualificationData.institutionName d));
             ("graduationYear", JSString (QualificationData.graduationYear d));
             ("document", formFile (QualificationData.document d)) ].

Definition certification (d : CertificationData.t) : JSValue :=
  JSObject [ ("name", JSString (CertificationData.name d));
             ("issuingBody", JSString (CertificationData.issuingBody d));
             ("date", JSString (CertificationData.date d));
             ("document", formFile (CertificationData.document d)) ].

Definition barRegistration (d : BarRegistrationData.t) : JSValue :=
  JSObject [ ("association", JSString (BarRegistrationData.association d));
             ("licenseNumber", JSString (BarRegistrationData.licenseNumber d));
             ("jurisdiction", JSString (BarRegistrationData.jurisdiction d));
             ("completionYear", JSString (BarRegistrationData.completionYear d));
             ("document", formFile (BarRegistrationData.document d)) ].

Definition professionalDetails (d : ProfessionalDetailsData.t) : JSValue :=
  JSObject [ ("qualifications", qualification (ProfessionalDetailsData.qualifications d));
             ("certifications",
               JSArray (map certification (ProfessionalDetailsData.certifications d)));
             ("barRegistration", barRegistration (ProfessionalDetailsData.barRegistration d)) ].

Definition position (d : WorkExperiencePosition.t) : JSValue :=
  JSObject [ ("title", JSString (WorkExperiencePosition.title d));
             ("company", JSString (WorkExperiencePosition.company d));
             ("startDate", JSString (WorkExperiencePosition.startDate d));
             ("endDate", JSString (WorkExperiencePosition.endDate d));
             ("current", JSBool (WorkExperiencePosition.current d));
             ("description", JSString (WorkExperiencePosition.description d)) ].

Definition experience (d : ExperienceData.t) : JSValue :=
  JSObject [ ("positions", JSArray (map position (ExperienceData.positions d))) ].

Definition identityVerification (d : IdentityVerificationData.t) : JSValue :=
  JSObject [ ("idType", JSString (IdentityVerificationData.idType d));
             ("idNumber", JSString (IdentityVerificationData.idNumber d));
             ("expiryDate", JSString (IdentityVerificationData.expiryDate d));
             ("document", formFile (IdentityVerificationData.document d)) ].

Definition basicDetails (d : BasicDetails.t) : JSValue :=
  JSObject [ ("firstName", JSString (BasicDetails.firstName d));
             ("lastName", JSString (BasicDetails.lastName d));
             ("email", JSString (BasicDetails.email d)) ].

Definition formData (d : FormData.t) : JSValue :=
  JSObject [ ("basicDetails", basicDetails (FormData.basicDetails d));
             ("professionalDetails", professionalDetails (FormData.professionalDetails d));
             ("experience", experience (FormData.experience d));
             ("identityVerification", identityVerification (FormData.identityVerification d)) ].

End ToJS.

(** The own property [key] of an object. (An object that comes out of
    [JSON.parse] holds each key once.) *)
Fixpoint getOwn (key : string) (props : list (string * JSValue)) : option JSValue :=
  match props with
  | [] => None
  | (k, v) :: rest => if String.eqb k key then Some v else getOwn key rest
  end.

(** A JavaScript value read at a TypeScript type: [parsedData] is used as a
    [FormData] without any check, so that the typed embedding has a value
    for it only when it has that shape ([None] otherwise). *)
Module OfJS.

Definition string_ (v : JSValue) : option string :=
  match v with JSString s => Some s | _ => None end.

Definition boolean (v : JSValue) : option bool :=
  match v with JSBool b => Some b | _ => None end.

Definition file (v : JSValue) : option File.t :=
  match v with JSFile f => Some f | _ => None end.

Definition nullable {A : Type} (f : JSValue -> option A) (v : JSValue)
    : option (option A) :=
  match v with JSNull => Some None | _ => Some <$> f v end.

Definition array {A : Type} (f : JSValue -> option A) (v : JSValue)
    : option (list A) :=
  match v with JSArray items => mapM f items | _ => None end.

(** [v[key]] read with [f]. *)
Definition prop {A : Type} (key : string) (f : JSValue -> option A)
    (v : JSValue) : option A :=
  match v with
  | JSObject props => getOwn key props ≫= f
  | _ => None
  end.

Definition formFile (v : JSValue) : option FormFile.t :=
  file_ ← prop "file" (nullable file) v;
  preview ← prop "preview" (nullable string_) v;
  Some (FormFile.mk file_ preview).

Definition qualification (v : JSValue) : option QualificationData.t :=
  degreeType ← prop "degreeType" string_ v;
  institutionName ← prop "institutionName" string_ v;
  graduationYear ← prop "graduationYear" string_ v;
  document ← prop "document" formFile v;
  Some (QualificationData.mk degreeType institutionName graduationYear document).

Definition certification (v : JSValue) : option CertificationData.t :=
  name ← prop "name" string_ v;
  issuingBody ← prop "issuingBody" string_ v;
  date ← prop "date" string_ v;
  document ← prop "document" formFile v;
  Some (CertificationData.mk name issuingBody date document).

Definition barRegistration (v : JSValue) : option BarRegistrationData.t :=
  association ← prop "association" string_ v;
  licenseNumber ← prop "licenseNumber" string_ v;
  jurisdiction ← prop "jurisdiction" string_ v;
  completionYear ← prop "completionYear" string_ v;
  document ← prop "document" formFile v;
  Some (BarRegistrationData.mk association licenseNumber jurisdiction
          completionYear document).

Definition professionalDetails (v : JSValue) : option ProfessionalDetailsData.t :=
  qualifications ← prop "qualifications" qualification v;
  certifications ← prop "certifications" (array certification) v;
  barRegistration_ ← prop "barRegistration" barRegistration v;
  Some (ProfessionalDetailsData.mk qualifications certifications barRegistration_).

Definition position (v : JSValue) : option WorkExperiencePosition.t :=
  title ← prop "title" string_ v;
  company ← prop "company" string_ v;
  startDate ← prop "startDate" string_ v;
  endDate ← prop "endDate" string_ v;
  current ← prop "current" boolean v;
  description ← prop "description" string_ v;
  Some (WorkExperiencePosition.mk title company startDate endDate current description).

Definition experience (v : JSValue) : option ExperienceData.t :=
  positions ← prop "positions" (array position) v;
  Some (ExperienceData.mk positions).

Definition identityVerification (v : JSValue) : option IdentityVerificationData.t :=
  idType ← prop "idType" string_ v;
  idNumber ← prop "idNumber" string_ v;
  expiryDate ← prop "expiryDate" string_ v;
  document ← prop "document" formFile v;
  Some (IdentityVerificationData.mk idType idNumber expiryDate document).

Definition basicDetails (v : JSValue) : option BasicDetails.t :=
  firstName ← prop "firstName" string_ v;
  lastName ← prop "lastName" string_ v;
  email ← prop "email" string_ v;
  Some (BasicDetails.mk firstName lastName email).

Definition formData (v : JSValue) : option FormData.t :=
  basicDetails_ ← prop "basicDetails" basicDetails v;
  professionalDetails_ ← prop "professionalDetails" professionalDetails v;
  experience_ ← prop "experience" experience v;
  identityVerification_ ← prop "identityVerification" identityVerification v;
  Some (FormData.mk basicDetails_ professionalDetails_ experience_
          identityVerification_).

End OfJS.

(** ** Dynamic reads, as the draft loader does them on [fileRefs] *)

(** [v.key] for the keys that the loader reads ([qualifications],
    [barRegistration], [certifications], [identityVerification],
    [preview], [length]): a [TypeError] on [null], [undefined] ([None])
    where the value has no such property. *)
Definition get (v : JSValue) (key : string) : Completion (option JSValue) :=
  match v with
  | JSNull => Throw "TypeError"
  | JSObject props => Normal (getOwn key props)
  | JSArray items =>
      Normal (if String.eqb key "length"
              then Some (JSNumber (Z.of_nat (length items))) else None)
  | JSString s =>
      Normal (if String.eqb key "length"
              then Some (JSNumber (Z.of_nat (String.length s))) else None)
  | _ => Normal None
  end.

(** [ToBoolean]; [None] is [undefined]. *)
Definition truthy (v : option JSValue) : bool :=
  match v with
  | None | Some JSNull => false
  | Some (JSBool b) => b
  | Some (JSNumber n) => negb (n =? 0)%Z
  | Some (JSString s) => negb (String.eqb s "")
  | Some _ => true
  end.

(** ** [src/components/MultiStepForm.tsx] *)

Module MultiStepForm.

Definition initialQualification : QualificationData.t :=
  {| QualificationData.degreeType := "";
     QualificationData.institutionName := "";
     QualificationData.graduationYear := "";
     QualificationData.document :=
       {| FormFile.file := None; FormFile.preview := None |} |}.

Definition initialCertification : CertificationData.t :=
  {| CertificationData.name := "";
     CertificationData.issuingBody := "";
     CertificationData.date := "";
     CertificationData.document :=
       {| FormFile.file := None; FormFile.preview := None |} |}.

Definition initialBarRegistration : BarRegistrationData.t :=
  {| BarRegistrationData.association := "";
     BarRegistrationData.licenseNumber := "";
     BarRegistrationData.jurisdiction := "";
     BarRegistrationData.completionYear := "";
     BarRegistrationData.document :=
       {| FormFile.file := None; FormFile.preview := None |} |}.

Definition initialFormData : FormData.t :=
  {| FormData.basicDetails :=
       {| BasicDetails.firstName := "";
          BasicDetails.lastName := "";
          BasicDetails.email := "" |};
     FormData.professionalDetails :=
       {| ProfessionalDetailsData.qualifications := initialQualification;
          ProfessionalDetailsData.certifications := [initialCertification];
          ProfessionalDetailsData.barRegistration := initialBarRegistration |};
     FormData.experience :=
       {| ExperienceData.positions :=
            [ {| WorkExperiencePosition.title := "";
                 WorkExperiencePosition.company := "";
                 WorkExperiencePosition.startDate := "";
                 WorkExperiencePosition.endDate := "";
                 WorkExperiencePosition.current := false;
                 WorkExperiencePosition.description := "" |} ] |};
     FormData.identityVerification :=
       {| IdentityVerificationData.idType := "";
          IdentityVerificationData.idNumber := "";
          IdentityVerificationData.expiryDate := "";
          IdentityVerificationData.document :=
            {| FormFile.file := None; FormFile.preview := None |} |} |}.

Module Step.
Record t := mk { id : FormSteps; title : string }.
End Step.

Definition steps : list Step.t :=
  [ {| Step.id := basicDetails; Step.title := "Basic Details" |};
    {| Step.id := professionalDetails; Step.title := "Professional Details" |};
    {| Step.id := experience; Step.title := "Experience" |};
    {| Step.id := identityVerification; Step.title := "Identity Verification" |};
    {| Step.id := verificationStatus; Step.title := "Verification Status" |} ].

Definition STORAGE_KEY : string := "lexi_ai_form_data".
Definition FILES_STORAGE_KEY : string := "lexi_ai_form_files".

Inductive Direction := forward | backward.

(** The three state hooks of the component, and, as [errors], the
    [errors] hook of the step form that is mounted: a step form is
    rendered only while its step is the current one, so that its hook
    starts again from [{}] whenever the step changes. *)
Record State := mkState {
  formData : FormData.t;
  currentStep : FormSteps;
  animationDirection : Direction;
  errors : ErrorMap
}.

Definition initialState : State :=
  {| formData := initialFormData;
     currentStep := basicDetails;
     animationDirection := forward;
     errors := ∅ |}.

(** What the component reaches outside React: [localStorage], and the
    calls of [toast] and of [console.error] made so far. *)
Record Browser := mkBrowser {
  localStorage : gmap string string;
  toasts : list Toast.t;
  console : list string
}.

Definition setFormData (data : FormData.t) (st : State) : State :=
  {| formData := data;
     currentStep := currentStep st;
     animationDirection := animationDirection st;
     errors := errors st |}.

Definition setAnimationDirection (direction : Direction) (st : State) : State :=
  {| formData := formData st;
     currentStep := currentStep st;
     animationDirection := direction;
     errors := errors st |}.

Definition setCurrentStep (step : FormSteps) (st : State) : State :=
  {| formData := formData st;
     currentStep := step;
     animationDirection := animationDirection st;
     errors := if decide (step = currentStep st) then errors st else ∅ |}.

(** [setErrors] of the mounted step form. *)
Definition setStepErrors (formatted : ErrorMap) (st : State) : State :=
  {| formData := formData st;
     currentStep := currentStep st;
     animationDirection := animationDirection st;
     errors := formatted |}.

Definition showToast (t : Toast.t) (br : Browser) : Browser :=
  {| localStorage := localStorage br;
     toasts := (toasts br ++ [t])%list;
     console := console br |}.

Definition consoleError (line : string) (br : Browser) : Browser :=
  {| localStorage := localStorage br;
     toasts := toasts br;
     console := (console br ++ [line])%list |}.

(** [localStorage.setItem] *)
Definition setItem (key value : string) (br : Browser) : Browser :=
  {| localStorage := <[ key := value ]> (localStorage br);
     toasts := toasts br;
     console := console br |}.

(** [Array.prototype.findIndex]: [-1] when no item passes. *)
Fixpoint findIndexFrom {A : Type} (p : A -> bool) (l : list A) (i : Z) : Z :=
  match l with
  | [] => (-1)%Z
  | x :: rest => if p x then i else findIndexFrom p rest (i + 1)%Z
  end.

Definition findIndex {A : Type} (p : A -> bool) (l : list A) : Z :=
  findIndexFrom p l 0%Z.

(** [l[i]]; [None] is [undefined]. *)
Definition item {A : Type} (l : list A) (i : Z) : option A :=
  if (i <? 0)%Z then None else l !! Z.to_nat i.

(** [steps[i].id] is read under a test that keeps [i] in range; out of
    range it would be a [TypeError], for which the state is left as it
    is. *)
Definition handleNext (st : State) : State :=
  let currentIndex :=
    findIndex (fun step => bool_decide (Step.id step = currentStep st)) steps in
  if (currentIndex <? Z.of_nat (length steps) - 1)%Z then
    match item steps (currentIndex + 1)%Z with
    | Some step => setCurrentStep (Step.id step) (setAnimationDirection forward st)
    | None => st
    end
  else st.

Definition handlePrevious (st : State) : State :=
  let currentIndex :=
    findIndex (fun step => bool_decide (Step.id step = currentStep st)) steps in
  if (currentIndex >? 0)%Z then
    match item steps (currentIndex - 1)%Z with
    | Some step => setCurrentStep (Step.id step) (setAnimationDirection backward st)
    | None => st
    end
  else st.

Definition handleBasicDetailsChange (data : BasicDetails.t) (st : State) : State :=
  setFormData
    {| FormData.basicDetails := data;
       FormData.professionalDetails := FormData.professionalDetails (formData st);
       FormData.experience := FormData.experience (formData st);
       FormData.identityVerification := FormData.identityVerification (formData st) |}
    st.

Definition handleProfessionalDetailsChange (data : ProfessionalDetailsData.t)
    (st : State) : State :=
  setFormData
    {| FormData.basicDetails := FormData.basicDetails (formData st);
       FormData.professionalDetails := data;
       FormData.experience := FormData.experience (formData st);
       FormData.identityVerification := FormData.identityVerification (formData st) |}
    st.

Definition handleExperienceChange (data : ExperienceData.t) (st : State) : State :=
  setFormData
    {| FormData.basicDetails := FormData.basicDetails (formData st);
       FormData.professionalDetails := FormData.professionalDetails (formData st);
       FormData.experience := data;
       FormData.identityVerification := FormData.identityVerification (formData st) |}
    st.

Definition handleIdentityVerificationChange (data : IdentityVerificationData.t)
    (st : State) : State :=
  setFormData
    {| FormData.basicDetails := FormData.basicDetails (formData st);
       FormData.professionalDetails := FormData.professionalDetails (formData st);
       FormData.experience := FormData.experience (formData st);
       FormData.identityVerification := data |}
    st.

(** *** The step forms, wired as the component renders them *)

(** A click on Continue: [handleSubmit] of the mounted form, with
    [handleNext] as its [onNext]. The last step renders no form. *)
Definition submitted (sub : Submitted) (st : State) : State :=
  let st' := setStepErrors (setErrors sub) st in
  if onNext sub then handleNext st' else st'.

Section Wiring.
Context `{Platform}.

Definition stepSubmit (st : State) : option Submitted :=
  match currentStep st with
  | basicDetails =>
      Some (BasicDetailsForm.handleSubmit (FormData.basicDetails (formData st)))
  | professionalDetails =>
      Some (ProfessionalDetailsForm.handleSubmit
              (FormData.professionalDetails (formData st)))
  | experience =>
      Some (ExperienceForm.handleSubmit (FormData.experience (formData st)))
  | identityVerification =>
      Some (IdentityVerificationForm.handleSubmit
              (FormData.identityVerification (formData st)))
  | verificationStatus => None
  end.

Definition clickContinue (st : State) : State :=
  match stepSubmit st with
  | Some sub => submitted sub st
  | None => st
  end.
End Wiring.

(** A click on the button wired to [onPrevious] (labelled Skip in the
    professional details form and Back in the two forms after it; the
    first form and the last step have none). *)
Definition clickPrevious (st : State) : State :=
  match currentStep st with
  | professionalDetails | experience | identityVerification => handlePrevious st
  | basicDetails | verificationStatus => st
  end.

(** *** Editing the two lists *)

(** A step form calls the [onChange] prop or returns without a call. *)
Definition changed {A : Type} (handle : A -> State -> State)
    (call : option A) (st : State) : State :=
  match call with
  | Some data => handle data st
  | None => st
  end.

(** The clicks on Add Certification and on the remove button of a
    certification, and their like in the experience form; each is wired
    while its form is mounted. *)
Definition addCertification (st : State) : State :=
  match currentStep st with
  | professionalDetails =>
      changed handleProfessionalDetailsChange
        (ProfessionalDetailsForm.handleAddCertification
           (FormData.professionalDetails (formData st))) st
  | _ => st
  end.

Definition removeCertification (index : Z) (st : State) : State :=
  match currentStep st with
  | professionalDetails =>
      changed handleProfessionalDetailsChange
        (ProfessionalDetailsForm.handleRemoveCertification index
           (FormData.professionalDetails (formData st))) st
  | _ => st
  end.

Definition addPosition (st : State) : State :=
  match currentStep st with
  | experience =>
      changed handleExperienceChange
        (ExperienceForm.handleAddPosition (FormData.experience (formData st))) st
  | _ => st
  end.

Definition removePosition (index : Z) (st : State) : State :=
  match currentStep st with
  | experience =>
      changed handleExperienceChange
        (ExperienceForm.handleRemovePosition index
           (FormData.experience (formData st))) st
  | _ => st
  end.

(** *** The document slots *)

(** The [FileUpload] components, by their [id] prop. *)
Inductive Slot :=
  | degreeDocument
  | certificationDocument (index : nat)
  | barProofDocument
  | identityDocument.

(** The [value] prop of a slot; [None] when the current step does not
    render the slot. *)
Definition slotValue (slot : Slot) (st : State) : option FormFile.t :=
  let professional := FormData.professionalDetails (formData st) in
  match slot, currentStep st with
  | degreeDocument, professionalDetails =>
      Some (QualificationData.document
              (ProfessionalDetailsData.qualifications professional))
  | certificationDocument index, professionalDetails =>
      CertificationData.document <$>
        ProfessionalDetailsData.certifications professional !! index
  | barProofDocument, professionalDetails =>
      Some (BarRegistrationData.document
              (ProfessionalDetailsData.barRegistration professional))
  | identityDocument, identityVerification =>
      Some (IdentityVerificationData.document
              (FormData.identityVerification (formData st)))
  | _, _ => None
  end.

(** The [onChange] prop of a slot. *)
Definition slotChange (slot : Slot) (file : FormFile.t) (st : State) : State :=
  let professional := FormData.professionalDetails (formData st) in
  match slot with
  | degreeDocument =>
      changed handleProfessionalDetailsChange
        (ProfessionalDetailsForm.onDegreeDocumentChange file professional) st
  | certificationDocument index =>
      changed handleProfessionalDetailsChange
        (ProfessionalDetailsForm.handleCertificationChange index
           (ProfessionalDetailsForm.document file) professional) st
  | barProofDocument =>
      changed handleProfessionalDetailsChange
        (ProfessionalDetailsForm.onBarProofDocumentChange file professional) st
  | identityDocument =>
      changed handleIdentityVerificationChange
        (IdentityVerificationForm.onIdentityDocumentChange file
           (FormData.identityVerification (formData st))) st
  end.

(** How a file reaches a slot. *)
Inductive Gesture := drop_ | browse.

Section Uploads.
Context `{Platform}.

(** The user drops [files] on a slot or picks them in its file input.
    ([isDragging] is a hook of the upload component that only styles
    it; it is not part of [State].) *)
Definition upload (slot : Slot) (gesture : Gesture) (files : list File.t)
    (st : State) (br : Browser) : State * Browser :=
  match slotValue slot st with
  | None => (st, br)
  | Some _ =>
      let handled :=
        match gesture with
        | drop_ => FileUpload.handleDrop files
        | browse => FileUpload.handleFileChange files
        end in
      let st' :=
        match FileUpload.onChange handled with
        | Some file => slotChange slot file st
        | None => st
        end in
      (st', foldl (fun b t => showToast t b) br (FileUpload.toast handled))
  end.
End Uploads.

(** *** Saving a draft *)

(** [value instanceof File] *)
Definition instanceofFile (value : JSValue) : bool :=
  match value with JSFile _ => true | _ => false end.

(** The replacer of [handleSaveDraft]. *)
Definition replacer (key : string) (value : JSValue) : JSValue :=
  if String.eqb key "file" && instanceofFile value then JSNull else value.

(** The tree that [JSON.stringify(value, replacer)] writes:
    [SerializeJSONProperty] calls the replacer on every property before
    it descends. The replacer above answers [null] or the value itself;
    its test is repeated here so that the descent is into [value]. A
    [File] that is kept has no enumerable property of its own. *)
Fixpoint replaced (key : string) (value : JSValue) {struct value} : JSValue :=
  if String.eqb key "file" && instanceofFile value then replacer key value
  else
    match value with
    | JSFile _ => JSObject []
    | JSArray items =>
        JSArray (mapFrom (fun i x => replaced (Number_toString i) x) 0 items)
    | JSObject props =>
        JSObject (map (fun '(k, x) => (k, replaced k x)) props)
    | _ => value
    end.

(** [{ preview: document.preview }] *)
Definition previewRef (document : FormFile.t) : JSValue :=
  JSObject [ ("preview", ToJS.nullable JSString (FormFile.preview document)) ].

(** The object [fileRefs] of [handleSaveDraft]. *)
Definition fileRefsOf (data : FormData.t) : JSValue :=
  let professional := FormData.professionalDetails data in
  JSObject [
    ("qualifications",
      previewRef (QualificationData.document
                    (ProfessionalDetailsData.qualifications professional)));
    ("barRegistration",
      previewRef (BarRegistrationData.document
                    (ProfessionalDetailsData.barRegistration professional)));
    ("certifications",
      JSArray (map (fun cert => previewRef (CertificationData.document cert))
                 (ProfessionalDetailsData.certifications professional)));
    ("identityVerification",
      previewRef (IdentityVerificationData.document
                    (FormData.identityVerification data)))
  ].

Section Draft.
Context `{Platform}.

Definition handleSaveDraft (st : State) (br : Browser) : Browser :=
  let formDataToSave := JSON_text (replaced "" (ToJS.formData (formData st))) in
  let fileRefs := fileRefsOf (formData st) in
  showToast
    {| Toast.title := "Draft saved";
       Toast.description := Some "Your form progress has been saved";
       Toast.variant := None |}
    (setItem FILES_STORAGE_KEY (JSON_text fileRefs)
       (setItem STORAGE_KEY formDataToSave br)).

(** A click on Save Draft, which the four step forms render. *)
Definition clickSaveDraft (st : State) (br : Browser) : Browser :=
  match currentStep st with
  | verificationStatus => br
  | _ => handleSaveDraft st br
  end.
End Draft.

(** *** Loading a draft *)

(** [document.preview = url] *)
Definition withPreview (url : string) (document : FormFile.t) : FormFile.t :=
  {| FormFile.file := FormFile.file document; FormFile.preview := Some url |}.

(** The four assignments of the loader, on the typed record. *)
Definition withProfessional (f : ProfessionalDetailsData.t -> ProfessionalDetailsData.t)
    (data : FormData.t) : FormData.t :=
  {| FormData.basicDetails := FormData.basicDetails data;
     FormData.professionalDetails := f (FormData.professionalDetails data);
     FormData.experience := FormData.experience data;
     FormData.identityVerification := FormData.identityVerification data |}.

Definition assignQualificationPreview (url : string) : FormData.t -> FormData.t :=
  withProfessional (fun p =>
    let q := ProfessionalDetailsData.qualifications p in
    {| ProfessionalDetailsData.qualifications :=
         {| QualificationData.degreeType := QualificationData.degreeType q;
            QualificationData.institutionName := QualificationData.institutionName q;
            QualificationData.graduationYear := QualificationData.graduationYear q;
            QualificationData.document :=
              withPreview url (QualificationData.document q) |};
       ProfessionalDetailsData.certifications := ProfessionalDetailsData.certifications p;
       ProfessionalDetailsData.barRegistration := ProfessionalDetailsData.barRegistration p |}).

Definition assignBarRegistrationPreview (url : string) : FormData.t -> FormData.t :=
  withProfessional (fun p =>
    let b := ProfessionalDetailsData.barRegistration p in
    {| ProfessionalDetailsData.qualifications := ProfessionalDetailsData.qualifications p;
       ProfessionalDetailsData.certifications := ProfessionalDetailsData.certifications p;
       ProfessionalDetailsData.barRegistration :=
         {| BarRegistrationData.association := BarRegistrationData.association b;
            BarRegistrationData.licenseNumber := BarRegistrationData.licenseNumber b;
            BarRegistrationData.jurisdiction := BarRegistrationData.jurisdiction b;
            BarRegistrationData.completionYear := BarRegistrationData.completionYear b;
            BarRegistrationData.document :=
              withPreview url (BarRegistrationData.document b) |} |}).

Definition certificationWithPreview (url : string) (c : CertificationData.t)
    : CertificationData.t :=
  {| CertificationData.name := CertificationData.name c;
     CertificationData.issuingBody := CertificationData.issuingBody c;
     CertificationData.date := CertificationData.date c;
     CertificationData.document := withPreview url (CertificationData.document c) |}.

(** [certifications[index].document.preview = url], for an [index] that
    the loader has found in range. *)
Definition assignCertificationPreview (index : nat) (url : string)
    : FormData.t -> FormData.t :=
  withProfessional (fun p =>
    {| ProfessionalDetailsData.qualifications := ProfessionalDetailsData.qualifications p;
       ProfessionalDetailsData.certifications :=
         alter (certificationWithPreview url) index
           (ProfessionalDetailsData.certifications p);
       ProfessionalDetailsData.barRegistration := ProfessionalDetailsData.barRegistration p |}).

Definition assignIdentityPreview (url : string) (data : FormData.t) : FormData.t :=
  let i := FormData.identityVerification data in
  {| FormData.basicDetails := FormData.basicDetails data;
     FormData.professionalDetails := FormData.professionalDetails data;
     FormData.experience := FormData.experience data;
     FormData.identityVerification :=
       {| IdentityVerificationData.idType := IdentityVerificationData.idType i;
          IdentityVerificationData.idNumber := IdentityVerificationData.idNumber i;
          IdentityVerificationData.expiryDate := IdentityVerificationData.expiryDate i;
          IdentityVerificationData.document :=
            withPreview url (IdentityVerificationData.document i) |} |}.

(** How the restoration of the previews ends. [updatedFormData] is a
    shallow copy of [parsedData]: the assignments go to the objects that
    [parsedData], already handed to [setFormData], holds too, so that
    what was assigned before a [TypeError] stays. [Untyped]: a preview
    that is no string was assigned, for which the typed record has no
    value. *)
Inductive Restored :=
  | Done (updated : FormData.t)
  | Thrown (reached : FormData.t) (error : string)
  | Untyped.

Definition andThen (r : Restored) (next : FormData.t -> Restored) : Restored :=
  match r with
  | Done data => next data
  | _ => r
  end.

(** [if (cond) { target.preview = holder.preview }], once [holder] is
    there; [cond] is the rest of the test, in front of [holder.preview]. *)
Definition restoreFrom (holder : JSValue) (assign : string -> FormData.t -> FormData.t)
    (data : FormData.t) : Restored :=
  match get holder "preview" with
  | Throw error => Thrown data error
  | Normal preview =>
      if truthy preview then
        match preview ≫= OfJS.string_ with
        | Some url => Done (assign url data)
        | None => Untyped
        end
      else Done data
  end.

(** [if (fileRefs.key && fileRefs.key.preview) { ... = fileRefs.key.preview }] *)
Definition restoreSection (fileRefs : JSValue) (key : string)
    (assign : string -> FormData.t -> FormData.t) (data : FormData.t) : Restored :=
  match get fileRefs key with
  | Throw error => Thrown data error
  | Normal (Some holder) =>
      if truthy (Some holder) then restoreFrom holder assign data else Done data
  | Normal None => Done data
  end.

(** The callback of [fileRefs.certifications.forEach], over the items
    from [index] on. *)
Fixpoint restoreEach (items : list JSValue) (index : nat) (data : FormData.t)
    : Restored :=
  match items with
  | [] => Done data
  | cert :: rest =>
      let certifications :=
        ProfessionalDetailsData.certifications (FormData.professionalDetails data) in
      andThen
        (if (index <? length certifications)%nat
         then restoreFrom cert (assignCertificationPreview index) data
         else Done data)
        (restoreEach rest (S index))
  end.

(** [if (fileRefs.certifications && fileRefs.certifications.length)
    { fileRefs.certifications.forEach(...) }]: only an array has
    [forEach]. *)
Definition restoreCertifications (fileRefs : JSValue) (data : FormData.t) : Restored :=
  match get fileRefs "certifications" with
  | Throw error => Thrown data error
  | Normal (Some list_) =>
      if truthy (Some list_) then
        match get list_ "length" with
        | Throw error => Thrown data error
        | Normal len =>
            if truthy len then
              match list_ with
              | JSArray items => restoreEach items 0 data
              | _ => Thrown data "TypeError"
              end
            else Done data
        end
      else Done data
  | Normal None => Done data
  end.

Definition restorePreviews (fileRefs : JSValue) (parsedData : FormData.t) : Restored :=
  andThen (restoreSection fileRefs "qualifications" assignQualificationPreview parsedData)
    (fun data =>
  andThen (restoreSection fileRefs "barRegistration" assignBarRegistrationPreview data)
    (fun data =>
  andThen (restoreCertifications fileRefs data)
    (fun data =>
  restoreSection fileRefs "identityVerification" assignIdentityPreview data))).

(** [if (saved)] on the result of [localStorage.getItem]: [null] and the
    empty string are falsy. *)
Definition present (saved : option string) : option string :=
  match saved with
  | Some text => if String.eqb text "" then None else Some text
  | None => None
  end.

Definition draftLoaded : Toast.t :=
  {| Toast.title := "Draft loaded";
     Toast.description := Some "Your previously saved form data has been restored";
     Toast.variant := None |}.

Section Loading.
Context `{Platform}.

(** The effect that runs after the first render. [None]: the stored
    draft parses but has not the shape of a [FormData] (or a stored
    preview is no string); the source stores it as it is, and the
    typed state has no value for it. *)
Definition loadEffect (st : State) (br : Browser) : option (State * Browser) :=
  let savedData := localStorage br !! STORAGE_KEY in
  let savedFiles := localStorage br !! FILES_STORAGE_KEY in
  match present savedData with
  | None => Some (st, br)
  | Some savedData =>
      match JSON_parse savedData with
      | None => Some (st, consoleError "Error parsing saved form data:" br)
      | Some parsedJSON =>
          match OfJS.formData parsedJSON with
          | None => None
          | Some parsedData =>
              let st1 := setFormData parsedData st in
              match present savedFiles with
              | None => Some (st1, showToast draftLoaded br)
              | Some savedFiles =>
                  match JSON_parse savedFiles with
                  | None =>
                      Some (st1, consoleError "Error parsing saved form data:" br)
                  | Some fileRefs =>
                      match restorePreviews fileRefs parsedData with
                      | Done updatedFormData =>
                          Some (setFormData updatedFormData st1,
                                showToast draftLoaded br)
                      | Thrown reached _ =>
                          Some (setFormData reached st1,
                                consoleError "Error parsing saved form data:" br)
                      | Untyped => None
                      end
                  end
              end
          end
      end
  end.

(** Opening the page: the hooks start from their initial values and the
    effect runs. *)
Definition mount (br : Browser) : option (State * Browser) :=
  loadEffect initialState br.
End Loading.

(** *** The events of the wizard *)

(** The [error] prop of a slot: the entry of [errors] that it shows. *)
Definition slotErrorKey (slot : Slot) : string :=
  match slot with
  | degreeDocument => "qualifications.document.file"
  | certificationDocument index =>
      "certifications." ++ Number_toString index ++ ".document.file"
  | barProofDocument => "barRegistration.document.file"
  | identityDocument => "document.file"
  end.

(** A handler of a step form runs only while the form is mounted. *)
Definition whileOn (step : FormSteps) (act : State -> State) (st : State) : State :=
  if decide (currentStep st = step) then act st else st.

Definition changeBasicDetails (field : BasicDetailsForm.Field) (value : string)
    : State -> State :=
  whileOn basicDetails (fun st =>
    changed handleBasicDetailsChange
      (BasicDetailsForm.handleChange field value (FormData.basicDetails (formData st))) st).

Definition changeQualification (field : ProfessionalDetailsForm.QualificationField)
    (value : string) : State -> State :=
  whileOn professionalDetails (fun st =>
    changed handleProfessionalDetailsChange
      (ProfessionalDetailsForm.onQualificationChange field value
         (FormData.professionalDetails (formData st))) st).

Definition changeCertification (index : nat)
    (field : ProfessionalDetailsForm.CertificationField) : State -> State :=
  whileOn professionalDetails (fun st =>
    changed handleProfessionalDetailsChange
      (ProfessionalDetailsForm.handleCertificationChange index field
         (FormData.professionalDetails (formData st))) st).

Definition changeBarRegistration (field : ProfessionalDetailsForm.BarRegistrationField)
    (value : string) : State -> State :=
  whileOn professionalDetails (fun st =>
    changed handleProfessionalDetailsChange
      (ProfessionalDetailsForm.onBarRegistrationChange field value
         (FormData.professionalDetails (formData st))) st).

Definition changePosition (index : nat) (field : ExperienceForm.PositionField)
    : State -> State :=
  whileOn experience (fun st =>
    changed handleExperienceChange
      (ExperienceForm.handlePositionChange index field
         (FormData.experience (formData st))) st).

Definition changeIdentity (field : IdentityVerificationForm.Field) (value : string)
    : State -> State :=
  whileOn identityVerification (fun st =>
    changed handleIdentityVerificationChange
      (IdentityVerificationForm.onFieldChange field value
         (FormData.identityVerification (formData st))) st).

(** What the user can do on the page. *)
Inductive Event :=
  | Continue
  | Previous
  | SaveDraft
  | ChangeBasicDetails (field : BasicDetailsForm.Field) (value : string)
  | ChangeQualification (field : ProfessionalDetailsForm.QualificationField)
      (value : string)
  | AddCertification
  | RemoveCertification (index : Z)
  | ChangeCertification (index : nat)
      (field : ProfessionalDetailsForm.CertificationField)
  | ChangeBarRegistration (field : ProfessionalDetailsForm.BarRegistrationField)
      (value : string)
  | AddPosition
  | RemovePosition (index : Z)
  | ChangePosition (index : nat) (field : ExperienceForm.PositionField)
  | ChangeIdentity (field : IdentityVerificationForm.Field) (value : string)
  | Upload (slot : Slot) (gesture : Gesture) (files : list File.t).

Section Events.
Context `{Platform}.

Definition handle (event : Event) (page : State * Browser) : State * Browser :=
  let '(st, br) := page in
  match event with
  | Continue => (clickContinue st, br)
  | Previous => (clickPrevious st, br)
  | SaveDraft => (st, clickSaveDraft st br)
  | ChangeBasicDetails field value => (changeBasicDetails field value st, br)
  | ChangeQualification field value => (changeQualification field value st, br)
  | AddCertification => (addCertification st, br)
  | RemoveCertification index => (removeCertification index st, br)
  | ChangeCertification index field => (changeCertification index field st, br)
  | ChangeBarRegistration field value => (changeBarRegistration field value st, br)
  | AddPosition => (addPosition st, br)
  | RemovePosition index => (removePosition index st, br)
  | ChangePosition index field => (changePosition index field st, br)
  | ChangeIdentity field value => (changeIdentity field value st, br)
  | Upload slot gesture files => upload slot gesture files st br
  end.

(** The page after a sequence of events, the first one first. *)
Definition run (events : list Event) (page : State * Browser) : State * Browser :=
  foldl (fun page event => handle event page) page events.

(** The validator of the step form that is mounted: its return value
    and the argument of its [setErrors]. *)
Definition stepValidate (st : State) : option (bool * ErrorMap) :=
  match currentStep st with
  | basicDetails =>
      Some (BasicDetailsForm.validateForm (FormData.basicDetails (formData st)))
  | professionalDetails =>
      Some (ProfessionalDetailsForm.validateForm
              (FormData.professionalDetails (formData st)))
  | experience =>
      Some (ExperienceForm.validateForm (FormData.experience (formData st)))
  | identityVerification =>
      Some (IdentityVerificationForm.validateForm
              (FormData.identityVerification (formData st)))
  | verificationStatus => None
  end.
End Events.

(** The form data with every [file] set to [null], as a saved draft has
    it. *)
Definition withoutFile (document : FormFile.t) : FormFile.t :=
  {| FormFile.file := None; FormFile.preview := FormFile.preview document |}.

Definition withoutFiles (data : FormData.t) : FormData.t :=
  let p := FormData.professionalDetails data in
  let q := ProfessionalDetailsData.qualifications p in
  let b := ProfessionalDetailsData.barRegistration p in
  let i := FormData.identityVerification data in
  {| FormData.basicDetails := FormData.basicDetails data;
     FormData.professionalDetails :=
       {| ProfessionalDetailsData.qualifications :=
            QualificationData.mk (QualificationData.degreeType q)
              (QualificationData.institutionName q)
              (QualificationData.graduationYear q)
              (withoutFile (QualificationData.document q));
          ProfessionalDetailsData.certifications :=
            map (fun c =>
                   CertificationData.mk (CertificationData.name c)
                     (CertificationData.issuingBody c) (CertificationData.date c)
                     (withoutFile (CertificationData.document c)))
                (ProfessionalDetailsData.certifications p);
          ProfessionalDetailsData.barRegistration :=
            BarRegistrationData.mk (BarRegistrationData.association b)
              (BarRegistrationData.licenseNumber b)
              (BarRegistrationData.jurisdiction b)
              (BarRegistrationData.completionYear b)
              (withoutFile (BarRegistrationData.document b)) |};
     FormData.experience := FormData.experience data;
     FormData.identityVerification :=
       IdentityVerificationData.mk (IdentityVerificationData.idType i)
         (IdentityVerificationData.idNumber i)
         (IdentityVerificationData.expiryDate i)
         (withoutFile (IdentityVerificationData.document i)) |}.

(** The four documents and the certification documents of a form. *)
Definition documents (data : FormData.t) : list FormFile.t :=
  let p := FormData.professionalDetails data in
  QualificationData.document (ProfessionalDetailsData.qualifications p)
  :: BarRegistrationData.document (ProfessionalDetailsData.barRegistration p)
  :: IdentityVerificationData.document (FormData.identityVerification data)
  :: map CertificationData.document (ProfessionalDetailsData.certifications p).

(** Both lists of the form have an entry. *)
Definition listsNonEmpty (data : FormData.t) : Prop :=
  (1 <= length (ProfessionalDetailsData.certifications
                  (FormData.professionalDetails data)))%nat
  /\ (1 <= length (ExperienceData.positions (FormData.experience data)))%nat.

(** No slot holds a file or a preview. *)
Definition noFileSlotPopulated (data : FormData.t) : Prop :=
  Forall (fun document => document = FormFile.mk None None) (documents data).

End MultiStepForm.

(** ** [src/components/FormStepper.tsx] *)

Module FormStepper.

Section Stepper.
Context (currentStep : FormSteps) (steps : list MultiStepForm.Step.t).

Definition getCurrentStepIndex : Z :=
  MultiStepForm.findIndex
    (fun step => bool_decide (MultiStepForm.Step.id step = currentStep)) steps.

Definition isStepCompleted (stepId : FormSteps) : bool :=
  let currentIndex := getCurrentStepIndex in
  let stepIndex :=
    MultiStepForm.findIndex
      (fun step => bool_decide (MultiStepForm.Step.id step = stepId)) steps in
  (stepIndex <? currentIndex)%Z.

Definition isCurrentStep (stepId : FormSteps) : bool :=
  bool_decide (stepId = currentStep).

(** The three looks of the circle of a step. *)
Inductive Circle := green | dark | grey.

Definition circle (stepId : FormSteps) : Circle :=
  if isStepCompleted stepId then green
  else if isCurrentStep stepId then dark
  else grey.

(** The connector after the step at [index], drawn when a step follows:
    whether it is green. *)
Definition connector (index : nat) : option bool :=
  match steps !! index, steps !! S index with
  | Some step, Some next =>
      Some (isStepCompleted (MultiStepForm.Step.id next)
            || (isStepCompleted (MultiStepForm.Step.id step)
                && isCurrentStep (MultiStepForm.Step.id next)))
  | _, _ => None
  end.
End Stepper.

End FormStepper.

(** ** [src/components/VerificationStatus.tsx] *)

(** The [content] of the items of the application summary that are built
    from the form data alone. *)
Module VerificationStatus.

Definition personalInformation (formData : FormData.t) : string :=
  let basic := FormData.basicDetails formData in
  BasicDetails.firstName basic ++ " " ++ BasicDetails.lastName basic ++ " | "
  ++ BasicDetails.email basic.

Definition education (formData : FormData.t) : string :=
  let q := ProfessionalDetailsData.qualifications (FormData.professionalDetails formData) in
  QualificationData.degreeType q ++ " | " ++ QualificationData.institutionName q
  ++ " | " ++ QualificationData.graduationYear q.

Definition certifications (formData : FormData.t) : string :=
  Number_toString
    (length (ProfessionalDetailsData.certifications
               (FormData.professionalDetails formData)))
  ++ " certification(s) submitted".

Definition barRegistration (formData : FormData.t) : string :=
  let b := ProfessionalDetailsData.barRegistration (FormData.professionalDetails formData) in
  BarRegistrationData.association b ++ " | " ++ BarRegistrationData.jurisdiction b
  ++ " | License #" ++ BarRegistrationData.licenseNumber b.

(** [positions[0].title] is a [TypeError] on an empty list. *)
Definition experience (formData : FormData.t) : Completion string :=
  let positions := ExperienceData.positions (FormData.experience formData) in
  match positions with
  | latest :: _ =>
      Normal (Number_toString (length positions) ++ " position(s) | Latest: "
              ++ WorkExperiencePosition.title latest ++ " at "
              ++ WorkExperiencePosition.company latest)
  | [] => Throw "TypeError"
  end.

End VerificationStatus.

(** ** Notions for the properties *)

(** A map with the entry [key := message] when [failed], empty otherwise. *)
Definition entryIf (failed : bool) (key message : string) : ErrorMap :=
  if failed then {[ key := message ]} else ∅.

(** [s === ''] *)
Definition isEmpty (s : string) : bool := String.eqb s "".

(** [f] on every document of a form. *)
Definition mapDocuments (f : FormFile.t -> FormFile.t) (data : FormData.t) : FormData.t :=
  let p := FormData.professionalDetails data in
  let q := ProfessionalDetailsData.qualifications p in
  let b := ProfessionalDetailsData.barRegistration p in
  let i := FormData.identityVerification data in
  {| FormData.basicDetails := FormData.basicDetails data;
     FormData.professionalDetails :=
       {| ProfessionalDetailsData.qualifications :=
            QualificationData.mk (QualificationData.degreeType q)
              (QualificationData.institutionName q)
              (QualificationData.graduationYear q)
              (f (QualificationData.document q));
          ProfessionalDetailsData.certifications :=
            map (fun c =>
                   CertificationData.mk (CertificationData.name c)
                     (CertificationData.issuingBody c) (CertificationData.date c)
                     (f (CertificationData.document c)))
                (ProfessionalDetailsData.certifications p);
          ProfessionalDetailsData.barRegistration :=
            BarRegistrationData.mk (BarRegistrationData.association b)
              (BarRegistrationData.licenseNumber b)
              (BarRegistrationData.jurisdiction b)
              (BarRegistrationData.completionYear b)
              (f (BarRegistrationData.document b)) |};
     FormData.experience := FormData.experience data;
     FormData.identityVerification :=
       IdentityVerificationData.mk (IdentityVerificationData.idType i)
         (IdentityVerificationData.idNumber i)
         (IdentityVerificationData.expiryDate i)
         (f (IdentityVerificationData.document i)) |}.

(** A document without its preview. *)
Definition withoutPreview (document : FormFile.t) : FormFile.t :=
  {| FormFile.file := FormFile.file document; FormFile.preview := None |}.

(** Whether a [File] occurs in a value. *)
Fixpoint containsFile (v : JSValue) : bool :=
  match v with
  | JSFile _ => true
  | JSArray items => existsb containsFile items
  | JSObject props => existsb (fun p => containsFile (snd p)) props
  | _ => false
  end.

Section Passed.
Context `{Platform}.

(** The validator of a step, on the form data. *)
Definition stepPasses (step : FormSteps) (data : FormData.t) : bool :=
  match step with
  | basicDetails => fst (BasicDetailsForm.validateForm (FormData.basicDetails data))
  | professionalDetails =>
      fst (ProfessionalDetailsForm.validateForm (FormData.professionalDetails data))
  | experience => fst (ExperienceForm.validateForm (FormData.experience data))
  | identityVerification =>
      fst (IdentityVerificationForm.validateForm (FormData.identityVerification data))
  | verificationStatus => true
  end.

(** The form data passes the validator of every step in front of the
    current one. *)
Definition earlierStepsPass (st : MultiStepForm.State) : Prop :=
  forall (i j : nat) (step : FormSteps),
    (MultiStepForm.Step.id <$> MultiStepForm.steps) !! j
      = Some (MultiStepForm.currentStep st) ->
    (i < j)%nat ->
    (MultiStepForm.Step.id <$> MultiStepForm.steps) !! i = Some step ->
    stepPasses step (MultiStepForm.formData st) = true.
End Passed.

(** Induction on a value, through its items and properties. *)
Section JSValue_induction.
Context (P : JSValue -> Prop).
Context (Hnull : P JSNull) (Hbool : forall b, P (JSBool b))
  (Hnumber : forall n, P (JSNumber n)) (Hstring : forall s, P (JSString s))
  (Hfile : forall f, P (JSFile f))
  (Harray : forall items, Forall P items -> P (JSArray items))
  (Hobject : forall props, Forall (fun p => P (snd p)) props -> P (JSObject props)).

Fixpoint JSValue_induction (v : JSValue) : P v :=
  match v with
  | JSNull => Hnull
  | JSBool b => Hbool b
  | JSNumber n => Hnumber n
  | JSString s => Hstring s
  | JSFile f => Hfile f
  | JSArray items =>
      Harray items
        ((fix all (l : list JSValue) : Forall P l :=
            match l with
            | [] => @List.Forall_nil _ P
            | x :: l' => @List.Forall_cons _ P x l' (JSValue_induction x) (all l')
            end) items)
  | JSObject props =>
      Hobject props
        ((fix all (l : list (string * JSValue)) : Forall (fun p => P (snd p)) l :=
            match l with
            | [] => @List.Forall_nil _ _
            | p :: l' =>
                @List.Forall_cons _ (fun p => P (snd p)) p l' (JSValue_induction (snd p)) (all l')
            end) props)
  end.
End JSValue_induction.

(** Where a restoration of the previews ends, the form data is [data] in
    everything but the previews. *)
Definition keepsAllButPreviews (r : MultiStepForm.Restored) (data : FormData.t) : Prop :=
  match r with
  | MultiStepForm.Done data' | MultiStepForm.Thrown data' _ =>
      mapDocuments withoutPreview data' = mapDocuments withoutPreview data
  | MultiStepForm.Untyped => True
  end.

(** ** A reference platform *)

(** An executable instance of [Platform], on which the statements below can
    be run: a JSON writer and reader for the trees above (integer numbers,
    ASCII escapes), the email pattern of zod 3 (no leading dot, no two dots
    in a row, a local part of letters, digits and [_'+-.] that does not end
    in a dot or a quote, one [@], dot-separated labels of letters, digits
    and [-] that start with a letter or a digit, and a last label of two
    letters or more), and object URLs made of the file name. *)
Module Reference.

Definition code (c : ascii) : nat := nat_of_ascii c.

Definition quoteChar : ascii := ascii_of_nat 34.
Definition backslash : ascii := ascii_of_nat 92.

Definition hexDigit (n : nat) : string :=
  String.substring n 1 "0123456789abcdef".

Definition escapeChar (c : ascii) : string :=
  let n := code c in
  if (n =? 34)%nat then String backslash (String quoteChar "")
  else if (n =? 92)%nat then String backslash (String backslash "")
  else if (n =? 8)%nat then String backslash "b"
  else if (n =? 12)%nat then String backslash "f"
  else if (n =? 10)%nat then String backslash "n"
  else if (n =? 13)%nat then String backslash "r"
  else if (n =? 9)%nat then String backslash "t"
  else if (n <? 32)%nat then
    String backslash ("u00" ++ hexDigit (n / 16) ++ hexDigit (n mod 16))
  else String c "".

Fixpoint escape (s : string) : string :=
  match s with
  | EmptyString => ""
  | String c rest => escapeChar c ++ escape rest
  end.

Definition quote (s : string) : string :=
  String quoteChar (escape s ++ String quoteChar "").

Fixpoint text (v : JSValue) : string :=
  match v with
  | JSNull => "null"
  | JSBool true => "true"
  | JSBool false => "false"
  | JSNumber n => NilZero.string_of_int (Z.to_int n)
  | JSString s => quote s
  | JSFile _ => "{}"
  | JSArray items =>
      "[" ++ (fix each (l : list JSValue) : string :=
                match l with
                | [] => ""
                | [x] => text x
                | x :: rest => text x ++ "," ++ each rest
                end) items ++ "]"
  | JSObject props =>
      "{" ++ (fix each (l : list (string * JSValue)) : string :=
                match l with
                | [] => ""
                | [(k, x)] => quote k ++ ":" ++ text x
                | (k, x) :: rest => quote k ++ ":" ++ text x ++ "," ++ each rest
                end) props ++ "}"
  end.

Definition isWhitespace (c : ascii) : bool :=
  let n := code c in
  (n =? 32)%nat || (n =? 9)%nat || (n =? 10)%nat || (n =? 13)%nat.

Fixpoint skipWhitespace (s : string) : string :=
  match s with
  | String c rest => if isWhitespace c then skipWhitespace rest else s
  | EmptyString => ""
  end.

Definition hexValue (c : ascii) : option nat :=
  let n := code c in
  if (48 <=? n)%nat && (n <=? 57)%nat then Some (n - 48)%nat
  else if (97 <=? n)%nat && (n <=? 102)%nat then Some (n - 87)%nat
  else if (65 <=? n)%nat && (n <=? 70)%nat then Some (n - 55)%nat
  else None.

Definition unescape (c : ascii) : option ascii :=
  let n := code c in
  if (n =? 34)%nat || (n =? 92)%nat || (n =? 47)%nat then Some c
  else if (n =? 98)%nat then Some (ascii_of_nat 8)
  else if (n =? 102)%nat then Some (ascii_of_nat 12)
  else if (n =? 110)%nat then Some (ascii_of_nat 10)
  else if (n =? 114)%nat then Some (ascii_of_nat 13)
  else if (n =? 116)%nat then Some (ascii_of_nat 9)
  else None.

(** The characters of a string literal, after its opening quote. *)
Fixpoint readChars (s : string) : option (string * string) :=
  match s with
  | EmptyString => None
  | String c rest =>
      if (code c =? 34)%nat then Some ("", rest)
      else if (code c =? 92)%nat then
        match rest with
        | String e rest' =>
            if (code e =? 117)%nat then
              match rest' with
              | String h1 (String h2 (String h3 (String h4 rest''))) =>
                  match hexValue h1, hexValue h2, hexValue h3, hexValue h4 with
                  | Some 0%nat, Some 0%nat, Some a, Some b =>
                      if (a <? 8)%nat then
                        '(chars, after) ← readChars rest'';
                        Some (String (ascii_of_nat (16 * a + b)) chars, after)
                      else None
                  | _, _, _, _ => None
                  end
              | _ => None
              end
            else
              d ← unescape e;
              '(chars, after) ← readChars rest';
              Some (String d chars, after)
        | EmptyString => None
        end
      else if (code c <? 32)%nat then None
      else
        '(chars, after) ← readChars rest;
        Some (String c chars, after)
  end.

Definition isDigit (c : ascii) : bool :=
  (48 <=? code c)%nat && (code c <=? 57)%nat.

Fixpoint readDigits (s : string) (acc : Z) : Z * string :=
  match s with
  | String c rest =>
      if isDigit c then readDigits rest (10 * acc + Z.of_nat (code c - 48))%Z
      else (acc, s)
  | EmptyString => (acc, "")
  end.

(** An integer literal; a fraction or an exponent is not read. *)
Definition readNumber (s : string) : option (Z * string) :=
  let '(negative, s') :=
    match s with
    | String c rest => if (code c =? 45)%nat then (true, rest) else (false, s)
    | EmptyString => (false, s)
    end in
  match s' with
  | String c rest =>
      if isDigit c then
        if (code c =? 48)%nat && match rest with
                                | String d _ => isDigit d
                                | EmptyString => false
                                end
        then None
        else
          let '(n, after) := readDigits s' 0%Z in
          match after with
          | String d _ =>
              if (code d =? 46)%nat || (code d =? 101)%nat || (code d =? 69)%nat
              then None else Some (if negative then (- n)%Z else n, after)
          | EmptyString => Some (if negative then (- n)%Z else n, after)
          end
      else None
  | EmptyString => None
  end.

(** [lit] in front of [s]: what follows it. *)
Fixpoint keyword (lit s : string) : option string :=
  match lit, s with
  | EmptyString, _ => Some s
  | String a lit', String b s' => if Ascii.eqb a b then keyword lit' s' else None
  | String _ _, EmptyString => None
  end.

(** A later member replaces an earlier one of the same key. *)
Fixpoint define (key : string) (v : JSValue) (props : list (string * JSValue))
    : list (string * JSValue) :=
  match props with
  | [] => [(key, v)]
  | (k, x) :: rest =>
      if String.eqb k key then (k, v) :: rest else (k, x) :: define key v rest
  end.

Fixpoint readValue (fuel : nat) (s : string) : option (JSValue * string) :=
  match fuel with
  | O => None
  | S fuel' =>
      match skipWhitespace s with
      | EmptyString => None
      | String c rest =>
          if (code c =? 34)%nat then
            '(chars, after) ← readChars rest;
            Some (JSString chars, after)
          else if (code c =? 91)%nat then
            match skipWhitespace rest with
            | String d after =>
                if (code d =? 93)%nat then Some (JSArray [], after)
                else
                  (fix items (k : nat) (s : string) (acc : list JSValue)
                     : option (JSValue * string) :=
                     match k with
                     | O => None
                     | S k' =>
                         '(v, after) ← readValue fuel' s;
                         match skipWhitespace after with
                         | String e after' =>
                             if (code e =? 44)%nat then items k' after' (v :: acc)
                             else if (code e =? 93)%nat
                             then Some (JSArray (rev (v :: acc)), after')
                             else None
                         | EmptyString => None
                         end
                     end) fuel' rest []
            | EmptyString => None
            end
          else if (code c =? 123)%nat then
            match skipWhitespace rest with
            | String d after =>
                if (code d =? 125)%nat then Some (JSObject [], after)
                else
                  (fix members (k : nat) (s : string) (acc : list (string * JSValue))
                     : option (JSValue * string) :=
                     match k with
                     | O => None
                     | S k' =>
                         match skipWhitespace s with
                         | String q s1 =>
                             if (code q =? 34)%nat then
                               '(key, s2) ← readChars s1;
                               match skipWhitespace s2 with
                               | String colon s3 =>
                                   if (code colon =? 58)%nat then
                                     '(v, s4) ← readValue fuel' s3;
                                     match skipWhitespace s4 with
                                     | String e s5 =>
                                         if (code e =? 44)%nat
                                         then members k' s5 (define key v acc)
                                         else if (code e =? 125)%nat
                                         then Some (JSObject (define key v acc), s5)
                                         else None
                                     | EmptyString => None
                                     end
                                   else None
                               | EmptyString => None
                               end
                             else None
                         | EmptyString => None
                         end
                     end) fuel' rest []
            | EmptyString => None
            end
          else
            match keyword "null" (String c rest),
                  keyword "true" (String c rest),
                  keyword "false" (String c rest) with
            | Some after, _, _ => Some (JSNull, after)
            | _, Some after, _ => Some (JSBool true, after)
            | _, _, Some after => Some (JSBool false, after)
            | None, None, None =>
                '(n, after) ← readNumber (String c rest);
                Some (JSNumber n, after)
            end
      end
  end.

Definition parse (text : string) : option JSValue :=
  '(v, after) ← readValue (S (String.length text)) text;
  match skipWhitespace after with
  | EmptyString => Some v
  | String _ _ => None
  end.

(** *** zod's email pattern *)

Definition isLetter (c : ascii) : bool :=
  let n := code c in
  ((65 <=? n)%nat && (n <=? 90)%nat) || ((97 <=? n)%nat && (n <=? 122)%nat).

Definition isAlnum (c : ascii) : bool := isLetter c || isDigit c.

Definition oneOf (chars : string) (c : ascii) : bool :=
  existsb (Ascii.eqb c) (list_ascii_of_string chars).

(** The classes of the local part: any character, the last one. *)
Definition isLocal (c : ascii) : bool := isAlnum c || oneOf "_'+-." c.
Definition isLocalEnd (c : ascii) : bool := isAlnum c || oneOf "_+-" c.
(** The class of a domain label. *)
Definition isLabel (c : ascii) : bool := isAlnum c || oneOf "-" c.

(** [l] cut at every [sep]. *)
Fixpoint split (sep : ascii) (l : list ascii) : list (list ascii) :=
  match l with
  | [] => [[]]
  | c :: rest =>
      match split sep rest with
      | piece :: pieces =>
          if Ascii.eqb c sep then [] :: piece :: pieces else (c :: piece) :: pieces
      | [] => [[c]]
      end
  end.

Fixpoint hasTwoDots (l : list ascii) : bool :=
  match l with
  | a :: ((b :: _) as rest) =>
      (Ascii.eqb a "." && Ascii.eqb b ".") || hasTwoDots rest
  | _ => false
  end.

(** A label of the domain in front of the last one. *)
Definition isDomainLabel (label : list ascii) : bool :=
  match label with
  | c :: rest => isAlnum c && forallb isLabel rest
  | [] => false
  end.

(** The last label of the domain. *)
Definition isTopLevel (label : list ascii) : bool :=
  (2 <=? length label)%nat && forallb isLetter label.

Definition isLocalPart (part : list ascii) : bool :=
  match rev part with
  | last_ :: before => isLocalEnd last_ && forallb isLocal before
  | [] => false
  end.

Definition isDomain (part : list ascii) : bool :=
  match rev (split "." part) with
  | top :: label :: labels =>
      isTopLevel top && forallb isDomainLabel (label :: labels)
  | _ => false
  end.

Definition emailRegex_test (s : string) : bool :=
  let chars := list_ascii_of_string s in
  negb (match chars with c :: _ => Ascii.eqb c "." | [] => false end)
  && negb (hasTwoDots chars)
  && match split "@" chars with
     | [local_; domain] => isLocalPart local_ && isDomain domain
     | _ => false
     end.

#[export] Instance platform : Platform := {|
  isEmail := emailRegex_test;
  JSON_text := text;
  JSON_parse := parse;
  createObjectURL := fun file => "blob:" ++ File.name file
|}.

End Reference.

(** ** Sample inputs *)

Module Sample.

(** A text file that is also too large: both rules of the validator are
    violated. *)
Definition notes : File.t := File.mk "notes.txt" "text/plain" 9000000.

(** A picture of exactly 5 MiB, and one byte more. *)
Definition scan : File.t := File.mk "scan.png" "image/png" 5242880.
Definition largeScan : File.t := File.mk "scan.png" "image/png" 5242881.

Definition emptyBrowser : MultiStepForm.Browser :=
  MultiStepForm.mkBrowser ∅ [] [].

(** The identity step with a document restored from a draft: a preview
    and no file. *)
Definition restored : MultiStepForm.State :=
  MultiStepForm.mkState
    (MultiStepForm.assignIdentityPreview "blob:passport.png"
       MultiStepForm.initialFormData)
    identityVerification MultiStepForm.forward ∅.

(** A stored draft that is cut short. *)
Definition brokenDraft : MultiStepForm.Browser :=
  MultiStepForm.mkBrowser {[ MultiStepForm.STORAGE_KEY := "{" ]} [] [].

(** The user fills the basic details, continues and saves a draft on the
    second step. *)
Definition fillBasicDetails : list MultiStepForm.Event :=
  [ MultiStepForm.ChangeBasicDetails BasicDetailsForm.firstName "Ann";
    MultiStepForm.ChangeBasicDetails BasicDetailsForm.lastName "Doe";
    MultiStepForm.ChangeBasicDetails BasicDetailsForm.email "a@b.com";
    MultiStepForm.Continue;
    MultiStepForm.SaveDraft ].

(** A form with a certification whose document is uploaded, on the
    second step. *)
Definition withCertificate : MultiStepForm.State :=
  MultiStepForm.mkState
    (MultiStepForm.withProfessional
       (fun p =>
          ProfessionalDetailsData.mk
            (ProfessionalDetailsData.qualifications p)
            [ CertificationData.mk "Mediation" "ADR Board" "2024-05-01T00:00:00.000Z"
                (FormFile.mk (Some scan) (Some "blob:scan.png")) ]
            (ProfessionalDetailsData.barRegistration p))
       MultiStepForm.initialFormData)
    professionalDetails MultiStepForm.forward ∅.

Definition position : WorkExperiencePosition.t :=
  WorkExperiencePosition.mk "Associate" "Doe and Partners"
    "2020-01-01T00:00:00.000Z" "2021-01-01T00:00:00.000Z" true "Contract law".

(** The experience step with that one position. *)
Definition onExperience : MultiStepForm.State :=
  MultiStepForm.mkState
    (FormData.mk
       (FormData.basicDetails MultiStepForm.initialFormData)
       (FormData.professionalDetails MultiStepForm.initialFormData)
       (ExperienceData.mk [position])
       (FormData.identityVerification MultiStepForm.initialFormData))
    experience MultiStepForm.backward ∅.

(** A degree certificate. *)
Definition diploma : File.t := File.mk "diploma.pdf" "application/pdf" 120000.

(** The whole application, from the first step to the summary. *)
Definition completeApplication : list MultiStepForm.Event :=
  (fillBasicDetails ++
   [ MultiStepForm.ChangeQualification ProfessionalDetailsForm.degreeType "LLB";
     MultiStepForm.ChangeQualification ProfessionalDetailsForm.institutionName "Leiden";
     MultiStepForm.ChangeQualification ProfessionalDetailsForm.graduationYear "2015";
     MultiStepForm.Upload MultiStepForm.degreeDocument MultiStepForm.browse [diploma];
     MultiStepForm.ChangeCertification 0 (ProfessionalDetailsForm.name "Mediation");
     MultiStepForm.ChangeCertification 0 (ProfessionalDetailsForm.issuingBody "ADR Board");
     MultiStepForm.ChangeCertification 0
       (ProfessionalDetailsForm.date "2024-05-01T00:00:00.000Z");
     MultiStepForm.Upload (MultiStepForm.certificationDocument 0) MultiStepForm.drop_
       [scan];
     MultiStepForm.ChangeBarRegistration ProfessionalDetailsForm.association "NOvA";
     MultiStepForm.ChangeBarRegistration ProfessionalDetailsForm.licenseNumber "A-1204";
     MultiStepForm.ChangeBarRegistration ProfessionalDetailsForm.jurisdiction "NL";
     MultiStepForm.ChangeBarRegistration ProfessionalDetailsForm.completionYear "2016";
     MultiStepForm.Upload MultiStepForm.barProofDocument MultiStepForm.browse [diploma];
     MultiStepForm.Continue;
     MultiStepForm.ChangePosition 0 (ExperienceForm.title "Associate");
     MultiStepForm.ChangePosition 0 (ExperienceForm.company "Doe and Partners");
     MultiStepForm.ChangePosition 0 (ExperienceForm.startDate "2020-01-01T00:00:00.000Z");
     MultiStepForm.ChangePosition 0 (ExperienceForm.current true);
     MultiStepForm.ChangePosition 0 (ExperienceForm.description "Contract law");
     MultiStepForm.Continue;
     MultiStepForm.ChangeIdentity IdentityVerificationForm.idType "passport";
     MultiStepForm.ChangeIdentity IdentityVerificationForm.idNumber "NX4410022";
     MultiStepForm.ChangeIdentity IdentityVerificationForm.expiryDate
       "2031-01-01T00:00:00.000Z";
     MultiStepForm.Upload MultiStepForm.identityDocument MultiStepForm.drop_ [scan];
     MultiStepForm.Continue ])%list.

(** Professional details that are complete. *)
Definition credentials : ProfessionalDetailsData.t :=
  ProfessionalDetailsData.mk
    (QualificationData.mk "LLB" "Leiden" "2015"
       (FormFile.mk (Some diploma) (Some "blob:diploma.pdf")))
    [ CertificationData.mk "Mediation" "ADR Board" "2024-05-01T00:00:00.000Z"
        (FormFile.mk (Some scan) (Some "blob:scan.png")) ]
    (BarRegistrationData.mk "NOvA" "A-1204" "NL" "2016"
       (FormFile.mk (Some diploma) (Some "blob:diploma.pdf"))).

(** Two positions, the second one still empty. *)
Definition twoPositions : ExperienceData.t :=
  ExperienceData.mk [position; ExperienceForm.emptyPosition].

End Sample.

(** * Properties *)

Import MultiStepForm.

(** ** The file validator *)

Lemma includes_In (l : list string) (s : string) :
  FileUpload.includes l s = true <-> In s l.
Proof.
  unfold FileUpload.includes. rewrite existsb_exists. split.
  - intros (x & Hx & Heq). apply String.eqb_eq in Heq. now subst.
  - intros Hin. exists s. split; [exact Hin | apply String.eqb_refl].
Qed.

(** The accepted declared types: PDF, JPEG under its two spellings, PNG. *)
Lemma validTypes_spec (type : string) :
  In type FileUpload.validTypes <->
  type = "application/pdf" \/ type = "image/jpeg" \/ type = "image/png"
  \/ type = "image/jpg".
Proof. unfold FileUpload.validTypes. simpl. intuition congruence. Qed.

(** C2: a file whose declared type is none of the accepted ones is found
    invalid with the message about the types, whatever its size: the type
    is tested first. *)
Theorem validateFile_rejects_type (file : File.t) :
  ~ In (File.type file) FileUpload.validTypes ->
  FileUpload.validateFile file =
    FileUpload.mkValidation false
      (Some "Only PDF, JPG, and PNG files are allowed").
Proof.
  intros Hnot. unfold FileUpload.validateFile.
  destruct (FileUpload.includes FileUpload.validTypes (File.type file)) eqn:E.
  - apply includes_In in E. contradiction.
  - reflexivity.
Qed.

(** C3: a file of an accepted type is found invalid with the message about
    the size when it has more than 5 x 1024 x 1024 bytes, and valid when it
    has that many or fewer. *)
Theorem validateFile_size (file : File.t) :
  In (File.type file) FileUpload.validTypes ->
  ((File.size file > 5 * 1024 * 1024)%Z ->
     FileUpload.validateFile file =
       FileUpload.mkValidation false (Some "File size must be less than 5MB"))
  /\ ((File.size file <= 5 * 1024 * 1024)%Z ->
       FileUpload.validateFile file = FileUpload.mkValidation true None).
Proof.
  intros Hin. apply includes_In in Hin.
  unfold FileUpload.validateFile, FileUpload.maxSize. rewrite Hin.
  cbn [negb]. rewrite Z.gtb_ltb. split; intros Hsize.
  - now rewrite (proj2 (Z.ltb_lt _ _)) by lia.
  - now rewrite (proj2 (Z.ltb_ge _ _)) by lia.
Qed.

(** ** Rejected files *)

Section Properties.
Context `{Platform}.

Lemma select_invalid (dragging : option bool) (file : File.t) (rest : list File.t) :
  FileUpload.valid (FileUpload.validateFile file) = false ->
  FileUpload.select dragging (file :: rest) =
    FileUpload.mkHandled dragging None
      [FileUpload.invalidFile (FileUpload.message (FileUpload.validateFile file))].
Proof. intros Hinvalid. unfold FileUpload.select. now rewrite Hinvalid. Qed.

(** C6: when the first file of a drop or of a selection fails the
    validation, neither handler calls [onChange]; the page state, and with
    it the value of the slot, is what it was, and the only effect is one
    toast that carries the message of the validation. *)
Theorem rejected_file_leaves_slot (slot : Slot) (gesture : Gesture)
    (file : File.t) (rest : list File.t) (value : FormFile.t)
    (st : State) (br : Browser) :
  FileUpload.valid (FileUpload.validateFile file) = false ->
  slotValue slot st = Some value ->
  FileUpload.onChange (FileUpload.handleDrop (file :: rest)) = None
  /\ FileUpload.onChange (FileUpload.handleFileChange (file :: rest)) = None
  /\ upload slot gesture (file :: rest) st br =
       (st, showToast
              (FileUpload.invalidFile (FileUpload.message (FileUpload.validateFile file))) br)
  /\ slotValue slot (fst (upload slot gesture (file :: rest) st br)) = Some value.
Proof.
  intros Hinvalid Hvalue.
  assert (Hup : upload slot gesture (file :: rest) st br =
            (st, showToast
                   (FileUpload.invalidFile (FileUpload.message (FileUpload.validateFile file)))
                   br)).
  { unfold upload. rewrite Hvalue.
    unfold FileUpload.handleDrop, FileUpload.handleFileChange.
    destruct gesture; rewrite select_invalid by assumption; reflexivity. }
  unfold FileUpload.handleDrop, FileUpload.handleFileChange.
  rewrite !select_invalid by assumption.
  rewrite Hup. simpl. auto.
Qed.

(** ** A draft that does not parse *)

(** C7: when the stored draft is there and [JSON.parse] throws on it, the
    loader logs one line on the console and leaves the state as it is: on
    opening the page the wizard has its initial, empty data. No toast is
    shown and the storage is not touched. *)
Theorem malformed_draft_is_no_draft (st : State) (br : Browser) (text : string) :
  localStorage br !! STORAGE_KEY = Some text ->
  text <> "" ->
  JSON_parse text = None ->
  loadEffect st br = Some (st, consoleError "Error parsing saved form data:" br)
  /\ mount br =
       Some (initialState, consoleError "Error parsing saved form data:" br).
Proof.
  intros Hsaved Hnonempty Hparse.
  assert (Hpresent : present (Some text) = Some text).
  { unfold present. destruct (String.eqb text "") eqn:E; [|reflexivity].
    apply String.eqb_eq in E. contradiction. }
  unfold mount, loadEffect. rewrite Hsaved, Hpresent, Hparse. split; reflexivity.
Qed.

(** When the draft parses and the stored file references do not, the form
    data of the draft has already been set: it stays, the failure is logged
    and no toast is shown. *)
Lemma malformed_file_refs_keep_draft (st : State) (br : Browser)
    (text files : string) (parsedJSON : JSValue) (parsedData : FormData.t) :
  localStorage br !! STORAGE_KEY = Some text ->
  text <> "" ->
  JSON_parse text = Some parsedJSON ->
  OfJS.formData parsedJSON = Some parsedData ->
  localStorage br !! FILES_STORAGE_KEY = Some files ->
  files <> "" ->
  JSON_parse files = None ->
  loadEffect st br =
    Some (setFormData parsedData st, consoleError "Error parsing saved form data:" br).
Proof.
  intros Hsaved Hne Hparse Htyped Hfiles Hne' Hparse'.
  unfold loadEffect. rewrite Hsaved, Hfiles.
  unfold present.
  destruct (String.eqb text "") eqn:E; [apply String.eqb_eq in E; contradiction|].
  destruct (String.eqb files "") eqn:E'; [apply String.eqb_eq in E'; contradiction|].
  now rewrite Hparse, Htyped, Hparse'.
Qed.

(** An empty stored draft is falsy: nothing is parsed nor logged. *)
Lemma empty_draft_is_no_draft (st : State) (br : Browser) :
  localStorage br !! STORAGE_KEY = Some "" -> loadEffect st br = Some (st, br).
Proof. intros Hsaved. unfold loadEffect. now rewrite Hsaved. Qed.

Lemma absent_draft_is_no_draft (st : State) (br : Browser) :
  localStorage br !! STORAGE_KEY = None -> loadEffect st br = Some (st, br).
Proof. intros Hsaved. unfold loadEffect. now rewrite Hsaved. Qed.

(** ** The basic details *)

(** C8: for first name [""], last name ["Doe"] and email ["a@b.com"],
    an address that zod's pattern accepts, the validator of the basic
    details fails and the error map has the one entry of the first name. *)
Theorem basic_details_missing_first_name :
  isEmail "a@b.com" = true ->
  BasicDetailsForm.validateForm (BasicDetails.mk "" "Doe" "a@b.com") =
    (false, {[ "firstName" := "First name is required" ]}).
Proof.
  intros Hemail.
  unfold BasicDetailsForm.validateForm, validateWith,
    BasicDetailsForm.basicDetailsSchema, z.object, z.field, z.string_email.
  simpl. rewrite Hemail. reflexivity.
Qed.

(** ** The step controller *)

Lemma formattedErrors_nonempty (errors : list ZodIssue.t) :
  errors <> [] -> formattedErrors errors <> ∅.
Proof.
  intros Hne. destruct (exists_last Hne) as (front & last_ & ->).
  unfold formattedErrors. rewrite foldl_app. simpl. apply insert_non_empty.
Qed.

(** [validateForm] answers [true] with [{}] when the schema collects no
    issue, and [false] with a map that is not empty otherwise. *)
Lemma validateWith_spec {A : Type} (schema : z.Schema A) (data : A) :
  (schema data = [] /\ validateWith schema data = (true, ∅))
  \/ (schema data <> [] /\ formattedErrors (schema data) <> ∅
      /\ validateWith schema data = (false, formattedErrors (schema data))).
Proof.
  unfold validateWith. destruct (schema data) as [|issue issues] eqn:E.
  - left. auto.
  - right. split; [discriminate|]. split; [|reflexivity].
    apply formattedErrors_nonempty. discriminate.
Qed.

(** The ids of the steps, in the order of [steps]. *)
Lemma step_ids :
  Step.id <$> steps =
    [basicDetails; professionalDetails; experience; identityVerification;
     verificationStatus].
Proof. reflexivity. Qed.

(** From the step at position [i], [handleNext] goes to the step at
    position [i + 1], forwards, and the form of that step starts without
    errors. *)
Lemma handleNext_spec (st : State) (i : nat) (next : FormSteps) :
  (Step.id <$> steps) !! i = Some (currentStep st) ->
  (Step.id <$> steps) !! S i = Some next ->
  handleNext st = mkState (formData st) next forward ∅.
Proof.
  intros Hcurrent Hnext.
  unfold handleNext, setCurrentStep, setAnimationDirection.
  cbn [currentStep formData animationDirection errors].
  do 4 (destruct i as [|i];
        [ simpl in Hcurrent, Hnext;
          injection Hcurrent as Hcurrent; injection Hnext as Hnext;
          rewrite <- Hcurrent, <- Hnext; reflexivity | ]).
  destruct i; discriminate.
Qed.

Lemma handleNext_last (st : State) :
  currentStep st = verificationStatus -> handleNext st = st.
Proof. intros Hlast. unfold handleNext. now rewrite Hlast. Qed.

Lemma handlePrevious_spec (st : State) (i : nat) (previous : FormSteps) :
  (Step.id <$> steps) !! S i = Some (currentStep st) ->
  (Step.id <$> steps) !! i = Some previous ->
  handlePrevious st = mkState (formData st) previous backward ∅.
Proof.
  intros Hcurrent Hprevious.
  unfold handlePrevious, setCurrentStep, setAnimationDirection.
  cbn [currentStep formData animationDirection errors].
  do 4 (destruct i as [|i];
        [ simpl in Hcurrent, Hprevious;
          injection Hcurrent as Hcurrent; injection Hprevious as Hprevious;
          rewrite <- Hcurrent, <- Hprevious; reflexivity | ]).
  destruct i; discriminate.
Qed.

Lemma handlePrevious_first (st : State) :
  currentStep st = basicDetails -> handlePrevious st = st.
Proof. intros Hfirst. unfold handlePrevious. now rewrite Hfirst. Qed.

Lemma not_last_has_next (step : FormSteps) :
  step <> verificationStatus ->
  exists (i : nat) (next : FormSteps),
    (Step.id <$> steps) !! i = Some step /\ (Step.id <$> steps) !! S i = Some next.
Proof.
  intros Hnot. destruct step.
  - exists 0%nat, professionalDetails. auto.
  - exists 1%nat, experience. auto.
  - exists 2%nat, identityVerification. auto.
  - exists 3%nat, verificationStatus. auto.
  - contradiction.
Qed.

Lemma submitted_valid (st : State) (formatted : ErrorMap) :
  submitted (mkSubmitted formatted true) st = handleNext (setStepErrors formatted st).
Proof. reflexivity. Qed.

Lemma submitted_invalid (st : State) (formatted : ErrorMap) :
  submitted (mkSubmitted formatted false) st = setStepErrors formatted st.
Proof. reflexivity. Qed.

(** A click on Continue is the validator of the mounted form followed, when
    it answers [true], by [handleNext]. *)
Lemma clickContinue_stepValidate (st : State) (isValid : bool) (formatted : ErrorMap) :
  stepValidate st = Some (isValid, formatted) ->
  clickContinue st =
    if isValid then handleNext (setStepErrors formatted st)
    else setStepErrors formatted st.
Proof.
  unfold stepValidate, clickContinue, stepSubmit.
  unfold BasicDetailsForm.handleSubmit, ProfessionalDetailsForm.handleSubmit,
    ExperienceForm.handleSubmit, IdentityVerificationForm.handleSubmit, submitWith.
  destruct (currentStep st); intros Hvalidate; try discriminate;
    injection Hvalidate as Hvalidate; rewrite Hvalidate;
    destruct isValid; reflexivity.
Qed.

(** C4: on a step that is not the last one, a click on Continue runs the
    validator of the step. When it fails, the step stays the same and the
    error map of the step, which is not empty, is set; when it passes, the
    current step becomes the one that follows it in [steps] and the
    direction becomes [forward]. The form data is the same in both cases. *)
Theorem continue_validates_then_advances (st : State) :
  currentStep st <> verificationStatus ->
  exists (isValid : bool) (formatted : ErrorMap),
    stepValidate st = Some (isValid, formatted)
    /\ if isValid then
         exists (i : nat) (next : FormSteps),
           (Step.id <$> steps) !! i = Some (currentStep st)
           /\ (Step.id <$> steps) !! S i = Some next
           /\ clickContinue st = mkState (formData st) next forward ∅
       else
         formatted <> ∅
         /\ clickContinue st =
              mkState (formData st) (currentStep st) (animationDirection st) formatted.
Proof.
  intros Hnot.
  assert (Hsome : exists isValid formatted,
             stepValidate st = Some (isValid, formatted)
             /\ (isValid = false -> formatted <> ∅)).
  { unfold stepValidate,
      BasicDetailsForm.validateForm, ProfessionalDetailsForm.validateForm,
      ExperienceForm.validateForm, IdentityVerificationForm.validateForm.
    destruct (currentStep st); try contradiction;
      match goal with
      | |- context [validateWith ?schema ?data] =>
          destruct (validateWith_spec schema data) as [[_ ->] | (_ & Hne & ->)]
      end; eexists _, _; (split; [reflexivity | ]); intros; (discriminate || assumption). }
  destruct Hsome as (isValid & formatted & Hvalidate & Hfails).
  exists isValid, formatted. split; [exact Hvalidate|].
  rewrite (clickContinue_stepValidate st isValid formatted Hvalidate).
  destruct isValid.
  - destruct (not_last_has_next (currentStep st) Hnot) as (i & next & Hi & Hnext).
    exists i, next. split; [exact Hi|]. split; [exact Hnext|].
    apply (handleNext_spec (setStepErrors formatted st) i next Hi Hnext).
  - split; [now apply Hfails | reflexivity].
Qed.

(** ** The experience step *)

Lemma string_min_nonempty (message s : string) :
  s <> "" -> z.string_min 1 message s = [].
Proof. intros Hne. destruct s; [contradiction | reflexivity]. Qed.

Lemma string_min_empty (message : string) :
  z.string_min 1 message "" = z.issue message.
Proof. reflexivity. Qed.

(** C9: the validator of the experience step fails on the record without
    position, with an entry for [positions], and Continue then stays on the
    step; it passes on a record of one position that is marked current and
    has a title, a company, a start date and a description, whatever its
    end date, and Continue then goes on to the identity verification. *)
Theorem experience_needs_one_position :
  (ExperienceForm.validateForm (ExperienceData.mk []) =
     (false, {[ "positions" := z.array_too_small 1 ]})
   /\ forall st : State,
       currentStep st = experience ->
       ExperienceData.positions (FormData.experience (formData st)) = [] ->
       currentStep (clickContinue st) = experience)
  /\ forall (title company startDate endDate description : string),
      title <> "" -> company <> "" -> startDate <> "" -> description <> "" ->
      let data :=
        ExperienceData.mk
          [WorkExperiencePosition.mk title company startDate endDate true description] in
      ExperienceForm.validateForm data = (true, ∅)
      /\ forall st : State,
          currentStep st = experience ->
          FormData.experience (formData st) = data ->
          clickContinue st = mkState (formData st) identityVerification forward ∅.
Proof.
  split; [split|].
  - reflexivity.
  - intros st Hstep Hnone.
    unfold clickContinue, stepSubmit. rewrite Hstep.
    destruct (FormData.experience (formData st)) as [positions].
    simpl in Hnone. subst positions. simpl. exact Hstep.
  - intros title company startDate endDate description Ht Hc Hs Hd data.
    assert (Hvalid : ExperienceForm.validateForm data = (true, ∅)).
    { unfold ExperienceForm.validateForm, validateWith, data,
        ExperienceForm.experienceSchema, ExperienceForm.workExperienceSchema,
        z.object, z.field, z.array_min, z.array, z.typed.
      simpl. rewrite !string_min_nonempty by assumption. reflexivity. }
    split; [exact Hvalid|].
    intros st Hstep Hdata.
    rewrite (clickContinue_stepValidate st true ∅).
    + apply (handleNext_spec (setStepErrors ∅ st) 2 identityVerification).
      * simpl. now rewrite Hstep.
      * reflexivity.
    + unfold stepValidate. now rewrite Hstep, Hdata, Hvalid.
Qed.

(** ** The two lists *)

Lemma splice_one_length {A : Type} (index : Z) (l : list A) :
  (length l - 1 <= length (splice index 1 l))%nat.
Proof.
  unfold splice. rewrite length_app, length_take, length_drop.
  destruct (index <? 0)%Z; lia.
Qed.

Lemma handleRemoveCertification_refuses (index : Z) (data : ProfessionalDetailsData.t) :
  length (ProfessionalDetailsData.certifications data) = 1%nat ->
  ProfessionalDetailsForm.handleRemoveCertification index data = None.
Proof.
  intros Hone. unfold ProfessionalDetailsForm.handleRemoveCertification.
  now rewrite Hone.
Qed.

Lemma handleRemovePosition_refuses (index : Z) (data : ExperienceData.t) :
  length (ExperienceData.positions data) = 1%nat ->
  ExperienceForm.handleRemovePosition index data = None.
Proof.
  intros Hone. unfold ExperienceForm.handleRemovePosition. now rewrite Hone.
Qed.

Lemma handleRemoveCertification_keeps_one (index : Z)
    (data updated : ProfessionalDetailsData.t) :
  ProfessionalDetailsForm.handleRemoveCertification index data = Some updated ->
  (1 <= length (ProfessionalDetailsData.certifications updated))%nat.
Proof.
  unfold ProfessionalDetailsForm.handleRemoveCertification.
  destruct (length (ProfessionalDetailsData.certifications data) <=? 1)%nat eqn:E;
    [discriminate|].
  intros [= <-]. simpl. apply Nat.leb_gt in E.
  pose proof (splice_one_length index (ProfessionalDetailsData.certifications data)).
  lia.
Qed.

Lemma handleRemovePosition_keeps_one (index : Z) (data updated : ExperienceData.t) :
  ExperienceForm.handleRemovePosition index data = Some updated ->
  (1 <= length (ExperienceData.positions updated))%nat.
Proof.
  unfold ExperienceForm.handleRemovePosition.
  destruct (1 <? length (ExperienceData.positions data))%nat eqn:E; [|discriminate].
  intros [= <-]. simpl. apply Nat.ltb_lt in E.
  pose proof (splice_one_length index (ExperienceData.positions data)).
  lia.
Qed.

Lemma formData_handleNext (st : State) : formData (handleNext st) = formData st.
Proof.
  unfold handleNext.
  destruct (_ <? _)%Z; [destruct (item _ _)|]; reflexivity.
Qed.

Lemma formData_handlePrevious (st : State) :
  formData (handlePrevious st) = formData st.
Proof.
  unfold handlePrevious.
  destruct (_ >? _)%Z; [destruct (item _ _)|]; reflexivity.
Qed.

Lemma formData_clickContinue (st : State) : formData (clickContinue st) = formData st.
Proof.
  unfold clickContinue, submitted. destruct (stepSubmit st) as [sub|]; [|reflexivity].
  destruct (onNext sub); [rewrite formData_handleNext|]; reflexivity.
Qed.

Lemma formData_clickPrevious (st : State) : formData (clickPrevious st) = formData st.
Proof.
  unfold clickPrevious.
  destruct (currentStep st); try reflexivity; apply formData_handlePrevious.
Qed.

(** A change of the professional details keeps both lists in place when
    the new certification list has an entry. *)
Lemma professional_change_keeps_lists (call : option ProfessionalDetailsData.t)
    (st : State) :
  listsNonEmpty (formData st) ->
  (forall data, call = Some data ->
     (1 <= length (ProfessionalDetailsData.certifications data))%nat) ->
  listsNonEmpty (formData (changed handleProfessionalDetailsChange call st)).
Proof.
  intros [Hcert Hpos] Hcall. destruct call as [data|]; simpl; [|now split].
  split; [now apply Hcall | exact Hpos].
Qed.

Lemma experience_change_keeps_lists (call : option ExperienceData.t) (st : State) :
  listsNonEmpty (formData st) ->
  (forall data, call = Some data ->
     (1 <= length (ExperienceData.positions data))%nat) ->
  listsNonEmpty (formData (changed handleExperienceChange call st)).
Proof.
  intros [Hcert Hpos] Hcall. destruct call as [data|]; simpl; [|now split].
  split; [exact Hcert | now apply Hcall].
Qed.

Lemma handleCertificationChange_length (index : nat)
    (field : ProfessionalDetailsForm.CertificationField)
    (data updated : ProfessionalDetailsData.t) :
  ProfessionalDetailsForm.handleCertificationChange index field data = Some updated ->
  length (ProfessionalDetailsData.certifications updated) =
    length (ProfessionalDetailsData.certifications data).
Proof.
  unfold ProfessionalDetailsForm.handleCertificationChange.
  destruct (_ !! index); [|discriminate].
  intros [= <-]. simpl. apply length_insert.
Qed.

Lemma handlePositionChange_length (index : nat) (field : ExperienceForm.PositionField)
    (data updated : ExperienceData.t) :
  ExperienceForm.handlePositionChange index field data = Some updated ->
  length (ExperienceData.positions updated) = length (ExperienceData.positions data).
Proof.
  unfold ExperienceForm.handlePositionChange.
  destruct (_ !! index); [|discriminate].
  intros [= <-]. simpl. apply length_insert.
Qed.

Lemma slotChange_keeps_lists (slot : Slot) (file : FormFile.t) (st : State) :
  listsNonEmpty (formData st) -> listsNonEmpty (formData (slotChange slot file st)).
Proof.
  intros Hinv. pose proof Hinv as [Hcert Hpos]. destruct slot; simpl.
  - now split.
  - apply professional_change_keeps_lists; [exact Hinv|].
    intros data Hdata. apply handleCertificationChange_length in Hdata. lia.
  - now split.
  - now split.
Qed.

Lemma formData_upload_toasts (st : State) (br : Browser) (toasts : list Toast.t) :
  fst (st, foldl (fun b t => showToast t b) br toasts) = st.
Proof. reflexivity. Qed.

Lemma upload_keeps_lists (slot : Slot) (gesture : Gesture) (files : list File.t)
    (st : State) (br : Browser) :
  listsNonEmpty (formData st) ->
  listsNonEmpty (formData (fst (upload slot gesture files st br))).
Proof.
  intros Hinv. unfold upload. destruct (slotValue slot st); [|exact Hinv].
  simpl. destruct (FileUpload.onChange _); [|exact Hinv].
  now apply slotChange_keeps_lists.
Qed.

(** Every event keeps an entry in both lists. *)
Lemma handle_keeps_lists (event : Event) (page : State * Browser) :
  listsNonEmpty (formData (fst page)) ->
  listsNonEmpty (formData (fst (handle event page))).
Proof.
  destruct page as [st br]. simpl. intros Hinv. pose proof Hinv as [Hcert Hpos].
  destruct event; simpl;
    unfold changeBasicDetails, changeQualification, changeCertification,
      changeBarRegistration, changePosition, changeIdentity, whileOn;
    try case_decide; try exact Hinv.
  - now rewrite formData_clickContinue.
  - now rewrite formData_clickPrevious.
  - unfold addCertification. destruct (currentStep st); try exact Hinv.
    apply professional_change_keeps_lists; [exact Hinv|].
    intros data [= <-]. simpl. rewrite length_app. simpl. lia.
  - unfold removeCertification. destruct (currentStep st); try exact Hinv.
    apply professional_change_keeps_lists; [exact Hinv|].
    intros data Hdata. now apply handleRemoveCertification_keeps_one in Hdata.
  - apply professional_change_keeps_lists; [exact Hinv|].
    intros data Hdata. apply handleCertificationChange_length in Hdata. lia.
  - unfold addPosition. destruct (currentStep st); try exact Hinv.
    apply experience_change_keeps_lists; [exact Hinv|].
    intros data [= <-]. simpl. rewrite length_app. simpl. lia.
  - unfold removePosition. destruct (currentStep st); try exact Hinv.
    apply experience_change_keeps_lists; [exact Hinv|].
    intros data Hdata. now apply handleRemovePosition_keeps_one in Hdata.
  - apply experience_change_keeps_lists; [exact Hinv|].
    intros data Hdata. apply handlePositionChange_length in Hdata. lia.
  - now apply upload_keeps_lists.
Qed.

Lemma run_keeps_lists (events : list Event) (page : State * Browser) :
  listsNonEmpty (formData (fst page)) ->
  listsNonEmpty (formData (fst (run events page))).
Proof.
  revert page. induction events as [|event events IH]; intros page Hinv.
  - exact Hinv.
  - simpl. apply IH. now apply handle_keeps_lists.
Qed.

(** C10: [handleRemoveCertification] and [handleRemovePosition] make no
    change to a list of one entry, whatever the index, and after any
    sequence of events on the page opened with the initial form data (one
    certification, one position) both lists still have an entry. *)
Theorem lists_never_empty :
  (forall (index : Z) (data : ProfessionalDetailsData.t),
      length (ProfessionalDetailsData.certifications data) = 1%nat ->
      ProfessionalDetailsForm.handleRemoveCertification index data = None)
  /\ (forall (index : Z) (data : ExperienceData.t),
        length (ExperienceData.positions data) = 1%nat ->
        ExperienceForm.handleRemovePosition index data = None)
  /\ (forall (event : Event) (page : State * Browser),
        listsNonEmpty (formData (fst page)) ->
        listsNonEmpty (formData (fst (handle event page))))
  /\ (forall (events : list Event) (br : Browser),
        listsNonEmpty (formData (fst (run events (initialState, br))))).
Proof.
  split; [exact handleRemoveCertification_refuses|].
  split; [exact handleRemovePosition_refuses|].
  split; [exact handle_keeps_lists|].
  intros events br. apply run_keeps_lists. simpl. split; simpl; lia.
Qed.

(** ** The document of a slot *)

(** Array indices are written with digits. *)
Lemma string_of_uint_no_dot (d : uint) :
  ~ In "."%char (list_ascii_of_string (NilEmpty.string_of_uint d)).
Proof.
  induction d; simpl; intros Hin; try (destruct Hin as [Heq|Hin]; [discriminate Heq | auto]); auto.
Qed.

Lemma Number_toString_no_dot (n : nat) :
  ~ In "."%char (list_ascii_of_string (Number_toString n)).
Proof. apply string_of_uint_no_dot. Qed.

Lemma Number_toString_inj (n m : nat) : Number_toString n = Number_toString m -> n = m.
Proof.
  unfold Number_toString. intros Heq. apply Unsigned.to_uint_inj.
  pose proof (NilEmpty.usu (Nat.to_uint n)) as Hn.
  rewrite Heq, NilEmpty.usu in Hn. congruence.
Qed.

Lemma append_dot_inj (d1 d2 r1 r2 : string) :
  ~ In "."%char (list_ascii_of_string d1) ->
  ~ In "."%char (list_ascii_of_string d2) ->
  d1 ++ String "." r1 = d2 ++ String "." r2 -> d1 = d2 /\ r1 = r2.
Proof.
  revert d2. induction d1 as [|a d1 IH]; intros [|b d2] H1 H2 Heq; simpl in *.
  - injection Heq as ->. auto.
  - injection Heq as <- _. exfalso. apply H2. now left.
  - injection Heq as -> _. exfalso. apply H1. now left.
  - injection Heq as -> Heq. destruct (IH d2) as [-> ->]; auto.
Qed.

Lemma formattedErrors_snoc (errors : list ZodIssue.t) (err : ZodIssue.t) :
  formattedErrors (errors ++ [err]) =
    <[ join (ZodIssue.path err) := ZodIssue.message err ]> (formattedErrors errors).
Proof. unfold formattedErrors. now rewrite foldl_app. Qed.

Lemma formattedErrors_lookup_None (errors : list ZodIssue.t) (key : string) :
  (forall err, In err errors -> join (ZodIssue.path err) <> key) ->
  formattedErrors errors !! key = None.
Proof.
  induction errors as [|err errors IH] using rev_ind; intros Hnone.
  - reflexivity.
  - rewrite formattedErrors_snoc, lookup_insert_ne.
    + apply IH. intros e He. apply Hnone. apply in_or_app. now left.
    + apply Hnone. apply in_or_app. right. now left.
Qed.

Lemma formattedErrors_lookup_Some (errors : list ZodIssue.t) (key message : string) :
  (exists err, In err errors /\ join (ZodIssue.path err) = key) ->
  (forall err, In err errors -> join (ZodIssue.path err) = key ->
               ZodIssue.message err = message) ->
  formattedErrors errors !! key = Some message.
Proof.
  induction errors as [|err errors IH] using rev_ind; intros (e & He & Hkey) Hall.
  - destruct He.
  - rewrite formattedErrors_snoc.
    destruct (decide (join (ZodIssue.path err) = key)) as [Heq|Hne].
    + rewrite Heq, lookup_insert_eq. f_equal. apply Hall; [|exact Heq].
      apply in_or_app. right. now left.
    + rewrite lookup_insert_ne by exact Hne.
      apply IH.
      * apply in_app_or in He as [He|[<-|[]]]; [eauto | contradiction].
      * intros e' He' Hk. apply Hall; [|exact Hk]. apply in_or_app. now left.
Qed.

(** membership in the issues of the schemas *)
Lemma In_issue (message : string) (i : ZodIssue.t) :
  In i (z.issue message) <-> i = ZodIssue.mk [] message.
Proof. unfold z.issue. simpl. intuition. Qed.

Lemma In_string_min (message s : string) (i : ZodIssue.t) :
  In i (z.string_min 1 message s) <-> s = "" /\ i = ZodIssue.mk [] message.
Proof.
  destruct s as [|c s].
  - change (z.string_min 1 message "") with (z.issue message).
    rewrite In_issue. intuition.
  - change (z.string_min 1 message (String c s)) with (@nil ZodIssue.t).
    simpl. intuition discriminate.
Qed.

Lemma In_typed {A : Type} (a : A) (i : ZodIssue.t) : In i (z.typed a) <-> False.
Proof. reflexivity. Qed.

Lemma In_refine_notNull (message : string) (file : option File.t) (i : ZodIssue.t) :
  In i (z.refine z.typed notNull message file) <->
  file = None /\ i = ZodIssue.mk [] message.
Proof.
  destruct file as [f|].
  - change (z.refine z.typed notNull message (Some f)) with (@nil ZodIssue.t).
    simpl. intuition discriminate.
  - change (z.refine z.typed notNull message None) with (z.issue message).
    rewrite In_issue. intuition.
Qed.

Lemma In_under (seg : PathSegment) (issues : list ZodIssue.t) (i : ZodIssue.t) :
  In i (z.under seg issues) <->
  exists j, In j issues /\ i = ZodIssue.mk (seg :: ZodIssue.path j) (ZodIssue.message j).
Proof.
  unfold z.under. rewrite in_map_iff. split; intros (j & H1 & H2); exists j; auto.
Qed.

Lemma In_field {A B : Type} (key : string) (get : A -> B) (schema : z.Schema B)
    (a : A) (i : ZodIssue.t) :
  In i (z.field key get schema a) <->
  exists j, In j (schema (get a))
            /\ i = ZodIssue.mk (Key key :: ZodIssue.path j) (ZodIssue.message j).
Proof. apply In_under. Qed.

Lemma In_object_cons {A : Type} (entry : z.Schema A) (shape : list (z.Schema A))
    (a : A) (i : ZodIssue.t) :
  In i (z.object (entry :: shape) a) <-> In i (entry a) \/ In i (z.object shape a).
Proof. unfold z.object. simpl. apply in_app_iff. Qed.

Lemma In_object_nil {A : Type} (a : A) (i : ZodIssue.t) :
  In i (z.object [] a) <-> False.
Proof. reflexivity. Qed.

Lemma In_array {A : Type} (item : z.Schema A) (l : list A) (i : ZodIssue.t) :
  In i (z.array item l) <->
  exists (n : nat) (x : A) (j : ZodIssue.t),
    l !! n = Some x /\ In j (item x)
    /\ i = ZodIssue.mk (Index n :: ZodIssue.path j) (ZodIssue.message j).
Proof.
  unfold z.array. rewrite in_concat. split.
  - intros (issues & Hissues & Hi).
    apply list_elem_of_In, elem_of_lookup_imap in Hissues as (n & x & -> & Hx).
    apply In_under in Hi as (j & Hj & ->). eauto 6.
  - intros (n & x & j & Hx & Hj & ->).
    exists (z.under (Index n) (item x)). split.
    + apply list_elem_of_In, elem_of_lookup_imap. eauto.
    + apply In_under. eauto.
Qed.

Lemma In_array_min {A : Type} (item : z.Schema A) (message : string) (l : list A)
    (i : ZodIssue.t) :
  In i (z.array_min item 1 message l) <->
  (l = [] /\ i = ZodIssue.mk [] message) \/
  exists (n : nat) (x : A) (j : ZodIssue.t),
    l !! n = Some x /\ In j (item x)
    /\ i = ZodIssue.mk (Index n :: ZodIssue.path j) (ZodIssue.message j).
Proof.
  unfold z.array_min. rewrite in_app_iff, In_array.
  destruct l as [|x l].
  - change (if Nat.ltb (length (@nil A)) 1 then z.issue message else [])
      with (z.issue message).
    rewrite In_issue. intuition.
  - change (if Nat.ltb (length (x :: l)) 1 then z.issue message else [])
      with (@nil ZodIssue.t).
    simpl. intuition discriminate.
Qed.

(** Takes a hypothesis [In i (schema data)] apart, down to the checks. *)
Ltac issue_cases H :=
  repeat first
    [ apply In_object_cons in H; destruct H as [H|H]
    | apply In_object_nil in H; destruct H
    | apply In_field in H; destruct H as (? & H & ->)
    | apply In_string_min in H; destruct H as (? & ->)
    | apply In_refine_notNull in H; destruct H as (? & ->)
    | apply In_typed in H; destruct H
    | apply In_array_min in H; destruct H as [(? & ->) | (? & ? & ? & ? & H & ->)] ].



(** What the lookup of a key needs to know about the issues. *)
Lemma validateWith_lookup {A : Type} (schema : z.Schema A) (data : A)
    (key message : string) (P : Prop) :
  (forall i, In i (schema data) -> join (ZodIssue.path i) = key ->
             ZodIssue.message i = message /\ P) ->
  (P -> exists i, In i (schema data) /\ join (ZodIssue.path i) = key) ->
  (P -> fst (validateWith schema data) = false
        /\ snd (validateWith schema data) !! key = Some message)
  /\ (~ P -> snd (validateWith schema data) !! key = None).
Proof.
  intros Honly Hsome. unfold validateWith.
  destruct (schema data) as [|issue issues] eqn:E.
  - split.
    + intros HP. destruct (Hsome HP) as (i & [] & _).
    + intros _. apply lookup_empty.
  - rewrite <- E in *. clear E issue issues. split.
    + intros HP. split; [reflexivity|]. simpl.
      apply formattedErrors_lookup_Some; [auto|].
      intros i Hi Hkey. now apply Honly.
    + intros HnP. simpl. apply formattedErrors_lookup_None.
      intros i Hi Hkey. apply HnP. now apply (Honly i).
Qed.


Lemma append_prefix_inj (p a b : string) : p ++ a = p ++ b -> a = b.
Proof. induction p as [|c p IH]; simpl; [auto|]. intros [= Heq]. auto. Qed.

Ltac key_cases Hk :=
  simpl in Hk; try discriminate Hk;
  try (apply (append_prefix_inj "certifications.") in Hk;
       apply append_dot_inj in Hk as [? ?];
       [ | apply Number_toString_no_dot | apply Number_toString_no_dot ]);
  try discriminate.

Ltac unfold_schemas H :=
  unfold ProfessionalDetailsForm.professionalDetailsSchema,
    ProfessionalDetailsForm.qualificationSchema,
    ProfessionalDetailsForm.certificationSchema,
    ProfessionalDetailsForm.barRegistrationSchema,
    ProfessionalDetailsForm.fileSchema,
    IdentityVerificationForm.identityVerificationSchema,
    IdentityVerificationForm.fileSchema in H.


(** The issue of a missing file, seen from the schema of a record that has
    the document as its last entry. *)
Lemma professional_fileSchema_requires (document : FormFile.t) :
  FormFile.file document = None ->
  In (ZodIssue.mk [Key "file"] "Document is required")
     (ProfessionalDetailsForm.fileSchema document).
Proof.
  intros Hnone. unfold ProfessionalDetailsForm.fileSchema.
  apply In_object_cons. left. apply In_field.
  exists (ZodIssue.mk [] "Document is required"). split; [|reflexivity].
  now apply In_refine_notNull.
Qed.

Lemma identity_fileSchema_requires (document : FormFile.t) :
  FormFile.file document = None ->
  In (ZodIssue.mk [Key "file"] "Document is required")
     (IdentityVerificationForm.fileSchema document).
Proof.
  intros Hnone. unfold IdentityVerificationForm.fileSchema.
  apply In_object_cons. left. apply In_field.
  exists (ZodIssue.mk [] "Document is required"). split; [|reflexivity].
  now apply In_refine_notNull.
Qed.

Lemma professional_lookup_degree (d : ProfessionalDetailsData.t) :
  documentRequired (ProfessionalDetailsForm.validateForm d)
    "qualifications.document.file"
    (FormFile.file
       (QualificationData.document (ProfessionalDetailsData.qualifications d))).
Proof.
  apply validateWith_lookup.
  - intros i Hi Hk. unfold_schemas Hi.
    issue_cases Hi; key_cases Hk. now split.
  - intros Hnone.
    exists (ZodIssue.mk [Key "qualifications"; Key "document"; Key "file"]
              "Document is required").
    split; [|reflexivity].
    unfold ProfessionalDetailsForm.professionalDetailsSchema.
    apply In_object_cons. left. apply In_field.
    exists (ZodIssue.mk [Key "document"; Key "file"] "Document is required").
    split; [|reflexivity].
    unfold ProfessionalDetailsForm.qualificationSchema.
    do 3 (apply In_object_cons; right). apply In_object_cons. left. apply In_field.
    exists (ZodIssue.mk [Key "file"] "Document is required"). split; [|reflexivity].
    now apply professional_fileSchema_requires.
Qed.

Lemma professional_lookup_bar (d : ProfessionalDetailsData.t) :
  documentRequired (ProfessionalDetailsForm.validateForm d)
    "barRegistration.document.file"
    (FormFile.file
       (BarRegistrationData.document (ProfessionalDetailsData.barRegistration d))).
Proof.
  apply validateWith_lookup.
  - intros i Hi Hk. unfold_schemas Hi.
    issue_cases Hi; key_cases Hk. now split.
  - intros Hnone.
    exists (ZodIssue.mk [Key "barRegistration"; Key "document"; Key "file"]
              "Document is required").
    split; [|reflexivity].
    unfold ProfessionalDetailsForm.professionalDetailsSchema.
    do 2 (apply In_object_cons; right). apply In_object_cons. left. apply In_field.
    exists (ZodIssue.mk [Key "document"; Key "file"] "Document is required").
    split; [|reflexivity].
    unfold ProfessionalDetailsForm.barRegistrationSchema.
    do 4 (apply In_object_cons; right). apply In_object_cons. left. apply In_field.
    exists (ZodIssue.mk [Key "file"] "Document is required"). split; [|reflexivity].
    now apply professional_fileSchema_requires.
Qed.

Lemma professional_lookup_certification (d : ProfessionalDetailsData.t) (n : nat)
    (c : CertificationData.t) :
  ProfessionalDetailsData.certifications d !! n = Some c ->
  documentRequired (ProfessionalDetailsForm.validateForm d)
    ("certifications." ++ Number_toString n ++ ".document.file")
    (FormFile.file (CertificationData.document c)).
Proof.
  intros Hc. apply validateWith_lookup.
  - intros i Hi Hk. unfold_schemas Hi.
    issue_cases Hi; key_cases Hk.
    split; [reflexivity|].
    match goal with
    | Heq : Number_toString _ = Number_toString _ |- _ =>
        apply Number_toString_inj in Heq; subst
    end.
    congruence.
  - intros Hnone.
    exists (ZodIssue.mk [Key "certifications"; Index n; Key "document"; Key "file"]
              "Document is required").
    split; [|reflexivity].
    unfold ProfessionalDetailsForm.professionalDetailsSchema.
    apply In_object_cons. right. apply In_object_cons. left. apply In_field.
    exists (ZodIssue.mk [Index n; Key "document"; Key "file"] "Document is required").
    split; [|reflexivity].
    apply In_array_min. right.
    exists n, c, (ZodIssue.mk [Key "document"; Key "file"] "Document is required").
    split; [exact Hc|]. split; [|reflexivity].
    unfold ProfessionalDetailsForm.certificationSchema.
    do 3 (apply In_object_cons; right). apply In_object_cons. left. apply In_field.
    exists (ZodIssue.mk [Key "file"] "Document is required"). split; [|reflexivity].
    now apply professional_fileSchema_requires.
Qed.

Lemma identity_lookup_document (d : IdentityVerificationData.t) :
  documentRequired (IdentityVerificationForm.validateForm d) "document.file"
    (FormFile.file (IdentityVerificationData.document d)).
Proof.
  apply validateWith_lookup.
  - intros i Hi Hk. unfold_schemas Hi.
    issue_cases Hi; key_cases Hk. now split.
  - intros Hnone.
    exists (ZodIssue.mk [Key "document"; Key "file"] "Document is required").
    split; [|reflexivity].
    unfold IdentityVerificationForm.identityVerificationSchema.
    do 3 (apply In_object_cons; right). apply In_object_cons. left. apply In_field.
    exists (ZodIssue.mk [Key "file"] "Document is required"). split; [|reflexivity].
    now apply identity_fileSchema_requires.
Qed.

Lemma slot_documentRequired (slot : Slot) (document : FormFile.t) (st : State) :
  slotValue slot st = Some document ->
  exists validated,
    stepValidate st = Some validated
    /\ documentRequired validated (slotErrorKey slot) (FormFile.file document).
Proof.
  unfold slotValue, stepValidate.
  destruct slot, (currentStep st); try discriminate; simpl.
  - intros [= <-]. eexists. split; [reflexivity|]. apply professional_lookup_degree.
  - intros Hdoc. apply fmap_Some in Hdoc as (c & Hc & ->).
    eexists. split; [reflexivity|]. now apply professional_lookup_certification.
  - intros [= <-]. eexists. split; [reflexivity|]. apply professional_lookup_bar.
  - intros [= <-]. eexists. split; [reflexivity|]. apply identity_lookup_document.
Qed.

(** C5: for a document slot that is shown and holds no file, whatever its
    preview (a slot restored from a draft has a preview and no file), the
    validator of the step fails and the error map has the entry
    "Document is required" at the key of the slot, and Continue stays on the
    step with that entry; when the slot holds a file, the map has no entry
    at that key. *)
Theorem document_needs_live_file (slot : Slot) (document : FormFile.t) (st : State) :
  slotValue slot st = Some document ->
  exists (isValid : bool) (formatted : ErrorMap),
    stepValidate st = Some (isValid, formatted)
    /\ (FormFile.file document = None ->
          isValid = false
          /\ formatted !! slotErrorKey slot = Some "Document is required"
          /\ currentStep (clickContinue st) = currentStep st
          /\ errors (clickContinue st) !! slotErrorKey slot
               = Some "Document is required")
    /\ (forall file : File.t,
          FormFile.file document = Some file ->
          formatted !! slotErrorKey slot = None
          /\ errors (clickContinue st) !! slotErrorKey slot = None).
Proof.
  intros Hslot.
  destruct (slot_documentRequired slot document st Hslot)
    as ([isValid formatted] & Hvalidate & Habsent & Hpresent).
  simpl in Habsent, Hpresent.
  exists isValid, formatted. split; [exact Hvalidate|].
  pose proof (clickContinue_stepValidate st isValid formatted Hvalidate) as Hclick.
  split.
  - intros Hnone. destruct (Habsent Hnone) as [-> Hlookup].
    rewrite Hclick. simpl. auto.
  - intros file Hsome.
    assert (Hlookup : formatted !! slotErrorKey slot = None).
    { apply Hpresent. congruence. }
    split; [exact Hlookup|]. rewrite Hclick.
    destruct isValid; [|exact Hlookup].
    unfold handleNext. destruct (_ <? _)%Z; [destruct (item _ _)|]; simpl;
      try exact Hlookup.
    case_decide; [exact Hlookup | apply lookup_empty].
Qed.

(** ** Saving and loading *)

Lemma replaced_object (key : string) (props : list (string * JSValue)) :
  replaced key (JSObject props) =
    JSObject (map (fun '(k, x) => (k, replaced k x)) props).
Proof. simpl. now rewrite andb_false_r. Qed.

Lemma replaced_formFile (key : string) (document : FormFile.t) :
  replaced key (ToJS.formFile document) = ToJS.formFile (withoutFile document).
Proof.
  unfold ToJS.formFile. rewrite replaced_object.
  destruct document as [[file|] [preview|]]; reflexivity.
Qed.

Lemma replaced_certification (key : string) (c : CertificationData.t) :
  replaced key (ToJS.certification c) =
    ToJS.certification
      (CertificationData.mk (CertificationData.name c)
         (CertificationData.issuingBody c) (CertificationData.date c)
         (withoutFile (CertificationData.document c))).
Proof.
  unfold ToJS.certification. rewrite replaced_object.
  cbn [map]. rewrite replaced_formFile. reflexivity.
Qed.

Lemma replaced_position (key : string) (p : WorkExperiencePosition.t) :
  replaced key (ToJS.position p) = ToJS.position p.
Proof. unfold ToJS.position. rewrite replaced_object. reflexivity. Qed.

Lemma replaced_certifications (first : nat) (l : list CertificationData.t) :
  mapFrom (fun i x => replaced (Number_toString i) x) first (map ToJS.certification l) =
    map (fun c =>
           ToJS.certification
             (CertificationData.mk (CertificationData.name c)
                (CertificationData.issuingBody c) (CertificationData.date c)
                (withoutFile (CertificationData.document c)))) l.
Proof.
  revert first. induction l as [|c l IH]; intros first; [reflexivity|].
  cbn [map mapFrom]. now rewrite replaced_certification, IH.
Qed.

Lemma replaced_positions (first : nat) (l : list WorkExperiencePosition.t) :
  mapFrom (fun i x => replaced (Number_toString i) x) first (map ToJS.position l) =
    map ToJS.position l.
Proof.
  revert first. induction l as [|p l IH]; intros first; [reflexivity|].
  cbn [map mapFrom]. now rewrite replaced_position, IH.
Qed.


Lemma replaced_array (key : string) (items : list JSValue) :
  replaced key (JSArray items) =
    JSArray (mapFrom (fun i x => replaced (Number_toString i) x) 0 items).
Proof. simpl. now rewrite andb_false_r. Qed.

(** What [JSON.stringify] with the replacer writes is the form data
    without its files. *)
Lemma replaced_formData (data : FormData.t) :
  replaced "" (ToJS.formData data) = ToJS.formData (withoutFiles data).
Proof.
  destruct data as [basic [q certs b] [positions] i].
  unfold ToJS.formData, withoutFiles, ToJS.professionalDetails, ToJS.experience,
    ToJS.qualification, ToJS.barRegistration, ToJS.identityVerification,
    ToJS.basicDetails.
  cbn [FormData.basicDetails FormData.professionalDetails FormData.experience
       FormData.identityVerification ProfessionalDetailsData.qualifications
       ProfessionalDetailsData.certifications ProfessionalDetailsData.barRegistration
       ExperienceData.positions QualificationData.document
       BarRegistrationData.document IdentityVerificationData.document].
  repeat (rewrite ?replaced_object, ?replaced_array, ?replaced_formFile,
            ?replaced_certifications, ?replaced_positions; cbn [map]).
  rewrite map_map. reflexivity.
Qed.

(** The typed reading of the object graph of a form is that form. *)
Lemma ofJS_formFile (d : FormFile.t) : OfJS.formFile (ToJS.formFile d) = Some d.
Proof. destruct d as [[file|] [preview|]]; reflexivity. Qed.

Lemma ofJS_certification (d : CertificationData.t) :
  OfJS.certification (ToJS.certification d) = Some d.
Proof.
  destruct d as [name issuingBody date document].
  unfold OfJS.certification, ToJS.certification, OfJS.prop. simpl.
  now rewrite ofJS_formFile.
Qed.

Lemma ofJS_position (d : WorkExperiencePosition.t) :
  OfJS.position (ToJS.position d) = Some d.
Proof. now destruct d. Qed.

Lemma ofJS_certifications (l : list CertificationData.t) :
  mapM OfJS.certification (map ToJS.certification l) = Some l.
Proof.
  induction l as [|c l IH]; [reflexivity|].
  cbn [map mapM]. rewrite ofJS_certification. simpl. now rewrite IH.
Qed.

Lemma ofJS_positions (l : list WorkExperiencePosition.t) :
  mapM OfJS.position (map ToJS.position l) = Some l.
Proof.
  induction l as [|p l IH]; [reflexivity|].
  cbn [map mapM]. rewrite ofJS_position. simpl. now rewrite IH.
Qed.

Lemma ofJS_formData (data : FormData.t) : OfJS.formData (ToJS.formData data) = Some data.
Proof.
  destruct data as [[firstName lastName email]
                      [[degreeType institutionName graduationYear qdoc] certs
                         [association licenseNumber jurisdiction completionYear bdoc]]
                      [positions] [idType idNumber expiryDate idoc]].
  unfold OfJS.formData, ToJS.formData, OfJS.prop. simpl.
  unfold OfJS.professionalDetails, OfJS.experience, OfJS.qualification,
    OfJS.barRegistration, OfJS.identityVerification, OfJS.prop. simpl.
  rewrite !ofJS_formFile, ofJS_certifications, ofJS_positions. reflexivity.
Qed.

(** Restoring the previews that were saved from a form into that form
    changes nothing: every preview is already there. *)
Lemma restoreFrom_previewRef (document : FormFile.t)
    (assign : string -> FormData.t -> FormData.t) (data : FormData.t) :
  (forall url, FormFile.preview document = Some url -> assign url data = data) ->
  restoreFrom (previewRef document) assign data = Done data.
Proof.
  intros Hassign. unfold restoreFrom, previewRef. simpl.
  destruct (FormFile.preview document) as [url|]; simpl; [|reflexivity].
  destruct (String.eqb url ""); simpl; [reflexivity|].
  now rewrite Hassign.
Qed.

Lemma withPreview_id (url : string) (document : FormFile.t) :
  FormFile.preview document = Some url -> withPreview url document = document.
Proof. destruct document as [file preview]. simpl. now intros ->. Qed.

Lemma restoreEach_saved (data : FormData.t) (rest : list CertificationData.t)
    (index : nat) :
  drop index (ProfessionalDetailsData.certifications (FormData.professionalDetails data))
    = rest ->
  restoreEach (map (fun cert => previewRef (CertificationData.document cert)) rest)
    index data = Done data.
Proof.
  revert index. induction rest as [|c rest IH]; intros index Hdrop; [reflexivity|].
  cbn [map restoreEach].
  assert (Hc : ProfessionalDetailsData.certifications (FormData.professionalDetails data)
               !! index = Some c).
  { rewrite <- (Nat.add_0_r index), <- lookup_drop, Hdrop. reflexivity. }
  rewrite (proj2 (Nat.ltb_lt _ _) (lookup_lt_Some _ _ _ Hc)).
  rewrite restoreFrom_previewRef.
  - simpl. apply IH. rewrite <- (Nat.add_1_r index), <- drop_drop, Hdrop. reflexivity.
  - intros url Hurl. destruct data as [basic [q certs b] e i]. simpl in *.
    unfold assignCertificationPreview, withProfessional. simpl. do 3 f_equal.
    apply list_eq. intros j. rewrite list_lookup_alter.
    case_decide; [subst j|reflexivity].
    rewrite Hc. simpl. f_equal. destruct c as [name issuingBody date document].
    unfold certificationWithPreview. simpl in *. now rewrite withPreview_id.
Qed.

Lemma restoreSection_saved (fileRefs : JSValue) (key : string)
    (document : FormFile.t) (assign : string -> FormData.t -> FormData.t)
    (data : FormData.t) :
  get fileRefs key = Normal (Some (previewRef document)) ->
  (forall url, FormFile.preview document = Some url -> assign url data = data) ->
  restoreSection fileRefs key assign data = Done data.
Proof.
  intros Hget Hassign. unfold restoreSection. rewrite Hget.
  change (truthy (Some (previewRef document))) with true.
  now apply restoreFrom_previewRef.
Qed.

Lemma restoreCertifications_saved (data : FormData.t) :
  restoreCertifications (fileRefsOf data) data = Done data.
Proof.
  unfold restoreCertifications, fileRefsOf.
  cbn [get getOwn String.eqb Ascii.eqb Bool.eqb truthy].
  destruct (negb _); [|reflexivity].
  now apply restoreEach_saved.
Qed.

Lemma restorePreviews_saved (data : FormData.t) :
  restorePreviews (fileRefsOf data) data = Done data.
Proof.
  unfold restorePreviews.
  rewrite (restoreSection_saved _ "qualifications"
             (QualificationData.document
                (ProfessionalDetailsData.qualifications
                   (FormData.professionalDetails data)))).
  - cbn [andThen].
    rewrite (restoreSection_saved _ "barRegistration"
               (BarRegistrationData.document
                  (ProfessionalDetailsData.barRegistration
                     (FormData.professionalDetails data)))).
    + cbn [andThen]. rewrite restoreCertifications_saved. cbn [andThen].
      apply (restoreSection_saved _ "identityVerification"
               (IdentityVerificationData.document
                  (FormData.identityVerification data))).
      * reflexivity.
      * intros url Hurl. destruct data as [basic p e [idType idNumber expiryDate d]].
        unfold assignIdentityPreview. simpl in *. now rewrite withPreview_id.
    + reflexivity.
    + intros url Hurl.
      destruct data as [basic [q certs [a l j c d]] e i].
      unfold assignBarRegistrationPreview, withProfessional. simpl in *.
      now rewrite withPreview_id.
  - reflexivity.
  - intros url Hurl.
    destruct data as [basic [[t n g d] certs b] e i].
    unfold assignQualificationPreview, withProfessional. simpl in *.
    now rewrite withPreview_id.
Qed.

Lemma fileRefsOf_withoutFiles (data : FormData.t) :
  fileRefsOf (withoutFiles data) = fileRefsOf data.
Proof.
  destruct data as [basic [q certs b] e i].
  unfold fileRefsOf, withoutFiles. simpl. rewrite map_map. reflexivity.
Qed.

Lemma withoutFiles_id (data : FormData.t) :
  noFileSlotPopulated data -> withoutFiles data = data.
Proof.
  destruct data as [basic [[t n g qd] certs [a l j c bd]] e [idType idNumber x idd]].
  unfold noFileSlotPopulated, documents, withoutFiles. simpl.
  intros Hall. inversion Hall as [|? ? -> Hall1]; subst.
  inversion Hall1 as [|? ? -> Hall2]; subst.
  inversion Hall2 as [|? ? -> Hall3]; subst.
  simpl. do 2 f_equal. f_equal.
  clear -Hall3. induction certs as [|[name body date d] certs IH]; [reflexivity|].
  simpl in *. inversion Hall3 as [|? ? -> Hrest]; subst. simpl. f_equal. auto.
Qed.

(** [withoutFiles] touches the file of each document and nothing else. *)
Lemma withoutFiles_fields (data : FormData.t) :
  let saved := withoutFiles data in
  FormData.basicDetails saved = FormData.basicDetails data
  /\ FormData.experience saved = FormData.experience data
  /\ map FormFile.preview (documents saved) = map FormFile.preview (documents data)
  /\ Forall (fun document => FormFile.file document = None) (documents saved)
  /\ length (documents saved) = length (documents data).
Proof.
  destruct data as [basic [q certs b] e i]. simpl.
  split; [reflexivity|]. split; [reflexivity|].
  unfold documents. simpl. rewrite !map_map. simpl.
  split; [reflexivity|]. split.
  - repeat constructor. apply Forall_forall. intros document Hin.
    apply list_elem_of_In, in_map_iff in Hin as (c & <- & _). reflexivity.
  - now rewrite !length_map.
Qed.

Lemma present_nonempty (text : string) : text <> "" -> present (Some text) = Some text.
Proof.
  intros Hne. unfold present. destruct (String.eqb text "") eqn:E; [|reflexivity].
  apply String.eqb_eq in E. contradiction.
Qed.

(** C1, as the code has it: after Save Draft, opening the page again
    restores the form data with every file set to [null] and everything
    else, previews included, as it was; when no slot held a file or a
    preview that is the form data itself. The current step is not saved:
    the page opens on the first step. The platform is asked to read back
    the two documents that it wrote, and to refuse the empty text. *)
Theorem save_then_load_restores_data (st : State) (br : Browser) :
  JSON_parse "" = None ->
  JSON_parse (JSON_text (replaced "" (ToJS.formData (formData st))))
    = Some (replaced "" (ToJS.formData (formData st))) ->
  JSON_parse (JSON_text (fileRefsOf (formData st))) = Some (fileRefsOf (formData st)) ->
  mount (handleSaveDraft st br) =
    Some (mkState (withoutFiles (formData st)) basicDetails forward ∅,
          showToast draftLoaded (handleSaveDraft st br))
  /\ (noFileSlotPopulated (formData st) -> withoutFiles (formData st) = formData st).
Proof.
  intros Hempty Hdata Hfiles. split; [|apply withoutFiles_id].
  assert (Hne1 : JSON_text (replaced "" (ToJS.formData (formData st))) <> "").
  { intros Heq. rewrite Heq in Hdata. congruence. }
  assert (Hne2 : JSON_text (fileRefsOf (formData st)) <> "").
  { intros Heq. rewrite Heq in Hfiles. congruence. }
  unfold mount, loadEffect.
  assert (Hget1 : localStorage (handleSaveDraft st br) !! STORAGE_KEY =
                  Some (JSON_text (replaced "" (ToJS.formData (formData st))))).
  { unfold handleSaveDraft. simpl. rewrite lookup_insert_ne by discriminate.
    apply lookup_insert_eq. }
  assert (Hget2 : localStorage (handleSaveDraft st br) !! FILES_STORAGE_KEY =
                  Some (JSON_text (fileRefsOf (formData st)))).
  { unfold handleSaveDraft. simpl. apply lookup_insert_eq. }
  rewrite Hget1, Hget2, !present_nonempty by assumption.
  rewrite Hdata, replaced_formData, ofJS_formData, Hfiles.
  rewrite <- fileRefsOf_withoutFiles, restorePreviews_saved.
  reflexivity.
Qed.

End Properties.

(** * Further properties of the code *)

Section Coverage.
Context `{Platform}.

(** ** Moving between the steps *)

(** X1: [handleNext] moves the wizard one step forward in [steps] and
    stays on the last step; [handlePrevious] moves it one step back and
    stays on the first step; neither touches the form data. *)
Theorem navigation_moves_one_step (st : State) :
  let index := fun step => FormStepper.getCurrentStepIndex step steps in
  index (currentStep (handleNext st)) = Z.min (index (currentStep st) + 1) (Z.of_nat (length steps) - 1)
  /\ index (currentStep (handlePrevious st)) = Z.max (index (currentStep st) - 1) 0
  /\ formData (handleNext st) = formData st
  /\ formData (handlePrevious st) = formData st.
Proof.
  unfold handleNext, handlePrevious, setCurrentStep, setAnimationDirection.
  cbn [currentStep formData animationDirection errors].
  destruct (currentStep st) eqn:Hstep; repeat split; try reflexivity.
  all: simpl; try rewrite Hstep; reflexivity.
Qed.

(** X2: Previous goes to the step before the current one without
    validating: whatever the form data holds, the data is kept, the
    direction is backward and the errors of the step that is left are
    gone. *)
Theorem previous_needs_no_validation (st : State) (i : nat) (previous : FormSteps) :
  (Step.id <$> steps) !! S i = Some (currentStep st) ->
  (Step.id <$> steps) !! i = Some previous ->
  currentStep st <> verificationStatus ->
  clickPrevious st = mkState (formData st) previous backward ∅.
Proof.
  intros Hcurrent Hprevious Hnot.
  rewrite <- (handlePrevious_spec st i previous Hcurrent Hprevious).
  unfold clickPrevious. destruct (currentStep st) eqn:Hstep; try reflexivity.
  - destruct i as [|[|[|[|[|i]]]]]; discriminate.
  - contradiction.
Qed.

(** X3: Continue on a step that validates, then Previous, is the page on
    the step where it started, with the same form data and no errors. The
    identity step is left out: Continue leads from it to the summary,
    which has no Previous. *)
Theorem continue_then_previous (st : State) (formatted : ErrorMap) :
  stepValidate st = Some (true, formatted) ->
  currentStep st <> identityVerification ->
  clickPrevious (clickContinue st) =
    mkState (formData st) (currentStep st) backward ∅.
Proof.
  intros Hvalid Hnot.
  rewrite (clickContinue_stepValidate st true formatted Hvalid).
  unfold stepValidate in Hvalid.
  unfold handleNext, clickPrevious, handlePrevious, setCurrentStep,
    setAnimationDirection, setStepErrors.
  cbn [currentStep formData animationDirection errors].
  destruct (currentStep st) eqn:Hstep; try discriminate; try contradiction;
    reflexivity.
Qed.

Lemma handle_final (event : Event) (st : State) (br : Browser) :
  currentStep st = verificationStatus ->
  handle event (st, br) = (st, br).
Proof.
  intros Hlast.
  destruct event; simpl;
    unfold clickContinue, stepSubmit, clickPrevious, clickSaveDraft,
      changeBasicDetails, changeQualification, addCertification,
      removeCertification, changeCertification, changeBarRegistration,
      addPosition, removePosition, changePosition, changeIdentity, whileOn,
      upload, slotValue;
    rewrite ?Hlast; try reflexivity.
  destruct slot; reflexivity.
Qed.

(** X4: the summary is final: once the wizard is on
    [verificationStatus] no event of the wizard changes the state or the
    browser; the summary is given the form data and no handler. *)
Theorem verification_status_is_final (events : list Event) (st : State) (br : Browser) :
  currentStep st = verificationStatus ->
  run events (st, br) = (st, br).
Proof.
  intros Hlast. induction events as [|event events IH]; [reflexivity|].
  change (run (event :: events) (st, br)) with (run events (handle event (st, br))).
  now rewrite handle_final.
Qed.

(** ** Every step is passed before the next one is shown *)

Lemma earlierStepsPass_cases (st : State) :
  earlierStepsPass st <->
  match currentStep st with
  | basicDetails => True
  | professionalDetails => stepPasses basicDetails (formData st) = true
  | experience =>
      stepPasses basicDetails (formData st) = true
      /\ stepPasses professionalDetails (formData st) = true
  | identityVerification =>
      stepPasses basicDetails (formData st) = true
      /\ stepPasses professionalDetails (formData st) = true
      /\ stepPasses experience (formData st) = true
  | verificationStatus =>
      stepPasses basicDetails (formData st) = true
      /\ stepPasses professionalDetails (formData st) = true
      /\ stepPasses experience (formData st) = true
      /\ stepPasses identityVerification (formData st) = true
  end.
Proof.
  unfold earlierStepsPass. rewrite step_ids.
  destruct (currentStep st) eqn:Hstep; split.
  all: try (intros Hall; repeat split;
            first [ exact (Hall 0%nat 1%nat _ eq_refl ltac:(lia) eq_refl)
                  | exact (Hall 0%nat 2%nat _ eq_refl ltac:(lia) eq_refl)
                  | exact (Hall 1%nat 2%nat _ eq_refl ltac:(lia) eq_refl)
                  | exact (Hall 0%nat 3%nat _ eq_refl ltac:(lia) eq_refl)
                  | exact (Hall 1%nat 3%nat _ eq_refl ltac:(lia) eq_refl)
                  | exact (Hall 2%nat 3%nat _ eq_refl ltac:(lia) eq_refl)
                  | exact (Hall 0%nat 4%nat _ eq_refl ltac:(lia) eq_refl)
                  | exact (Hall 1%nat 4%nat _ eq_refl ltac:(lia) eq_refl)
                  | exact (Hall 2%nat 4%nat _ eq_refl ltac:(lia) eq_refl)
                  | exact (Hall 3%nat 4%nat _ eq_refl ltac:(lia) eq_refl)
                  | exact I ]).
  all: intros Hcase i j step Hj Hlt Hi;
    destruct j as [|[|[|[|[|j]]]]]; try discriminate Hj;
    destruct i as [|[|[|[|[|i]]]]]; try lia;
    simpl in Hi; injection Hi as <-; tauto.
Qed.

Lemma handleNext_cases (st : State) :
  handleNext st =
    match currentStep st with
    | basicDetails => mkState (formData st) professionalDetails forward ∅
    | professionalDetails => mkState (formData st) experience forward ∅
    | experience => mkState (formData st) identityVerification forward ∅
    | identityVerification => mkState (formData st) verificationStatus forward ∅
    | verificationStatus => st
    end.
Proof.
  unfold handleNext, setCurrentStep, setAnimationDirection.
  cbn [currentStep formData animationDirection errors].
  destruct (currentStep st); reflexivity.
Qed.

Lemma handlePrevious_cases (st : State) :
  handlePrevious st =
    match currentStep st with
    | basicDetails => st
    | professionalDetails => mkState (formData st) basicDetails backward ∅
    | experience => mkState (formData st) professionalDetails backward ∅
    | identityVerification => mkState (formData st) experience backward ∅
    | verificationStatus => mkState (formData st) identityVerification backward ∅
    end.
Proof.
  unfold handlePrevious, setCurrentStep, setAnimationDirection.
  cbn [currentStep formData animationDirection errors].
  destruct (currentStep st); reflexivity.
Qed.

Lemma changed_Some {A : Type} (handle : A -> State -> State) (data : A) (st : State) :
  changed handle (Some data) st = handle data st.
Proof. reflexivity. Qed.

Lemma handle_keeps_passed (event : Event) (page : State * Browser) :
  earlierStepsPass (fst page) -> earlierStepsPass (fst (handle event page)).
Proof.
  destruct page as [st br]. cbn [fst]. rewrite !earlierStepsPass_cases.
  intros Hpass. destruct event; cbn [handle fst].
  - (* Continue *)
    unfold clickContinue, stepSubmit, submitted,
      BasicDetailsForm.handleSubmit, ProfessionalDetailsForm.handleSubmit,
      ExperienceForm.handleSubmit, IdentityVerificationForm.handleSubmit, submitWith.
    destruct (currentStep st) eqn:Hstep; [ | | | | now rewrite Hstep].
    all: match goal with
         | |- context [let '(_, _) := ?v in _] => destruct v as [[|] formatted] eqn:Hv
         end; cbn [onNext setErrors].
    all: try (unfold setStepErrors; cbn [currentStep formData]; rewrite Hstep; exact Hpass).
    all: rewrite handleNext_cases; unfold setStepErrors; cbn [currentStep formData];
      rewrite Hstep; cbn [currentStep formData]; unfold stepPasses in *; rewrite ?Hv; try tauto.
  - (* Previous *)
    unfold clickPrevious.
    destruct (currentStep st) eqn:Hstep; rewrite ?handlePrevious_cases, ?Hstep;
      cbn [currentStep formData]; rewrite ?Hstep; tauto.
  - exact Hpass.
  - unfold changeBasicDetails, whileOn. case_decide as Hc; [|exact Hpass].
    rewrite Hc in Hpass. simpl. now rewrite Hc.
  - unfold changeQualification, whileOn. case_decide as Hc; [|exact Hpass].
    rewrite Hc in Hpass. simpl. rewrite Hc. exact Hpass.
  - unfold addCertification. destruct (currentStep st) eqn:Hstep;
      simpl; rewrite Hstep; exact Hpass.
  - unfold removeCertification. destruct (currentStep st) eqn:Hstep;
      try (simpl; rewrite Hstep; exact Hpass).
    destruct (ProfessionalDetailsForm.handleRemoveCertification _ _);
      simpl; rewrite Hstep; exact Hpass.
  - unfold changeCertification, whileOn. case_decide as Hc; [|exact Hpass].
    rewrite Hc in Hpass.
    destruct (ProfessionalDetailsForm.handleCertificationChange _ _ _);
      simpl; rewrite Hc; exact Hpass.
  - unfold changeBarRegistration, whileOn. case_decide as Hc; [|exact Hpass].
    rewrite Hc in Hpass. simpl. rewrite Hc. exact Hpass.
  - unfold addPosition. destruct (currentStep st) eqn:Hstep;
      simpl; rewrite Hstep; exact Hpass.
  - unfold removePosition. destruct (currentStep st) eqn:Hstep;
      try (simpl; rewrite Hstep; exact Hpass).
    destruct (ExperienceForm.handleRemovePosition _ _);
      simpl; rewrite Hstep; exact Hpass.
  - unfold changePosition, whileOn. case_decide as Hc; [|exact Hpass].
    rewrite Hc in Hpass.
    destruct (ExperienceForm.handlePositionChange _ _ _);
      simpl; rewrite Hc; exact Hpass.
  - unfold changeIdentity, whileOn. case_decide as Hc; [|exact Hpass].
    rewrite Hc in Hpass. simpl. rewrite Hc. exact Hpass.
  - unfold upload. destruct (slotValue slot st) as [value|] eqn:Hslot; [|exact Hpass].
    cbn [fst]. destruct (FileUpload.onChange _) as [file|]; [|exact Hpass].
    unfold slotValue in Hslot.
    destruct slot, (currentStep st) eqn:Hstep; try discriminate Hslot.
    all: unfold slotChange.
    all: try (destruct (ProfessionalDetailsForm.handleCertificationChange _ _ _)).
    all: simpl; rewrite Hstep; exact Hpass.
Qed.

Lemma run_keeps_passed (events : list Event) (page : State * Browser) :
  earlierStepsPass (fst page) -> earlierStepsPass (fst (run events page)).
Proof.
  revert page. induction events as [|event events IH]; intros page Hpass.
  - exact Hpass.
  - change (run (event :: events) page) with (run events (handle event page)).
    apply IH. now apply handle_keeps_passed.
Qed.

(** X5: no step is skipped: on every page that the events reach from the
    initial state, the form data passes the validator of every step
    before the current one; on the summary it passes all four. *)
Theorem steps_are_passed_in_order (events : list Event) (br : Browser) :
  let st := fst (run events (initialState, br)) in
  earlierStepsPass st
  /\ (currentStep st = verificationStatus ->
      stepPasses basicDetails (formData st) = true
      /\ stepPasses professionalDetails (formData st) = true
      /\ stepPasses experience (formData st) = true
      /\ stepPasses identityVerification (formData st) = true).
Proof.
  intros st.
  assert (Hpass : earlierStepsPass st).
  { apply run_keeps_passed. apply earlierStepsPass_cases. exact I. }
  split; [exact Hpass|]. intros Hlast.
  apply earlierStepsPass_cases in Hpass. now rewrite Hlast in Hpass.
Qed.

(** ** What the validators accept *)

(** X6: the validator of the basic details: valid exactly when first and
    last name are not empty and the email is one; each of the three
    failures has its own entry in the error map, and nothing else is in
    it. *)
Theorem basic_details_validation (data : BasicDetails.t) :
  BasicDetailsForm.validateForm data =
    (negb (isEmpty (BasicDetails.firstName data))
     && negb (isEmpty (BasicDetails.lastName data))
     && isEmail (BasicDetails.email data),
     entryIf (isEmpty (BasicDetails.firstName data)) "firstName" "First name is required"
     ∪ entryIf (isEmpty (BasicDetails.lastName data)) "lastName" "Last name is required"
     ∪ entryIf (negb (isEmail (BasicDetails.email data))) "email" "Invalid email address").
Proof.
  destruct data as [firstName lastName email].
  unfold BasicDetailsForm.validateForm, validateWith,
    BasicDetailsForm.basicDetailsSchema, z.object, z.field, z.string_email.
  cbn [BasicDetails.firstName BasicDetails.lastName BasicDetails.email].
  destruct firstName, lastName, (isEmail email) eqn:Hemail;
    cbn [concat map app z.under z.string_min String.length Nat.ltb Nat.leb z.issue
         BasicDetails.firstName BasicDetails.lastName BasicDetails.email];
    rewrite Hemail; reflexivity.
Qed.

(** X7: the validator of the identity step: valid exactly when the three
    fields are not empty and the document holds a file; the error map has
    one entry for each failure and no other. *)
Theorem identity_verification_validation (data : IdentityVerificationData.t) :
  IdentityVerificationForm.validateForm data =
    (negb (isEmpty (IdentityVerificationData.idType data))
     && negb (isEmpty (IdentityVerificationData.idNumber data))
     && negb (isEmpty (IdentityVerificationData.expiryDate data))
     && notNull (FormFile.file (IdentityVerificationData.document data)),
     entryIf (isEmpty (IdentityVerificationData.idType data)) "idType" "ID type is required"
     ∪ entryIf (isEmpty (IdentityVerificationData.idNumber data)) "idNumber"
         "ID number is required"
     ∪ entryIf (isEmpty (IdentityVerificationData.expiryDate data)) "expiryDate"
         "Expiry date is required"
     ∪ entryIf (negb (notNull (FormFile.file (IdentityVerificationData.document data))))
         "document.file" "Document is required").
Proof.
  destruct data as [idType idNumber expiryDate [file preview]].
  destruct idType, idNumber, expiryDate, file; reflexivity.
Qed.

Lemma validateWith_passes {A : Type} (schema : z.Schema A) (data : A) :
  fst (validateWith schema data) = true <-> forall i, ~ In i (schema data).
Proof.
  unfold validateWith. destruct (schema data) as [|issue issues]; simpl.
  - split; [intros _ i [] | reflexivity].
  - split; [discriminate|]. intros Hnone. destruct (Hnone issue). now left.
Qed.

(** The entry of a key that one check can fill. *)
Lemma validateWith_entry {A : Type} (schema : z.Schema A) (data : A)
    (key message : string) (failed : bool) :
  (forall i, In i (schema data) -> join (ZodIssue.path i) = key ->
             ZodIssue.message i = message /\ failed = true) ->
  (failed = true -> exists i, In i (schema data) /\ join (ZodIssue.path i) = key) ->
  snd (validateWith schema data) !! key = if failed then Some message else None.
Proof.
  intros Honly Hsome.
  destruct (validateWith_lookup schema data key message (failed = true) Honly Hsome)
    as [Hyes Hno].
  destruct failed; [now apply Hyes | now apply Hno].
Qed.

Lemma isEmpty_true (s : string) : isEmpty s = true <-> s = "".
Proof. apply String.eqb_eq. Qed.

Lemma isEmpty_false (s : string) : isEmpty s = false <-> s <> "".
Proof. apply String.eqb_neq. Qed.

Ltac issue_inv H :=
  repeat first
    [ apply In_object_cons in H; destruct H as [H|H]
    | apply In_object_nil in H; destruct H
    | apply In_field in H; destruct H as (? & H & ->)
    | apply In_string_min in H; destruct H as (? & ->)
    | apply In_refine_notNull in H; destruct H as (? & ->)
    | apply In_typed in H; destruct H
    | apply In_array_min in H; destruct H as [(? & ->) | (? & ? & ? & ? & H & ->)] ].

Ltac key_inv prefix Hk :=
  simpl in Hk; try discriminate Hk;
  try (apply (append_prefix_inj prefix) in Hk;
       apply append_dot_inj in Hk as [? ?];
       [ | apply Number_toString_no_dot | apply Number_toString_no_dot ]);
  try discriminate.

Ltac same_index :=
  match goal with
  | Heq : Number_toString _ = Number_toString _ |- _ =>
      apply Number_toString_inj in Heq; subst
  end.

(** An issue of the item at [n], seen from the object that holds the list
    under [key]. *)
Lemma In_listed {A B : Type} (key : string) (get : A -> list B) (item : z.Schema B)
    (message : string) (a : A) (n : nat) (x : B) (j : ZodIssue.t) :
  get a !! n = Some x ->
  In j (item x) ->
  In (ZodIssue.mk (Key key :: Index n :: ZodIssue.path j) (ZodIssue.message j))
     (z.field key get (z.array_min item 1 message) a).
Proof.
  intros Hx Hj. apply In_field.
  exists (ZodIssue.mk (Index n :: ZodIssue.path j) (ZodIssue.message j)).
  split; [|reflexivity]. apply In_array_min. right. eauto 6.
Qed.

Lemma In_string_field {A : Type} (key message : string) (get : A -> string) (a : A) :
  get a = "" ->
  In (ZodIssue.mk [Key key] message) (z.field key get (z.string_min 1 message) a).
Proof.
  intros Hempty. apply In_field. exists (ZodIssue.mk [] message).
  split; [|reflexivity]. now apply In_string_min.
Qed.

(** X8: the experience step validates exactly when there is a position
    and every position has a title, a company, a start date and a
    description. The end date and [current] are never asked for. *)
Theorem experience_validation (data : ExperienceData.t) :
  fst (ExperienceForm.validateForm data) = true <->
  ExperienceData.positions data <> []
  /\ forall p, In p (ExperienceData.positions data) ->
       WorkExperiencePosition.title p <> ""
       /\ WorkExperiencePosition.company p <> ""
       /\ WorkExperiencePosition.startDate p <> ""
       /\ WorkExperiencePosition.description p <> "".
Proof.
  unfold ExperienceForm.validateForm. rewrite validateWith_passes. split.
  - intros Hnone. split.
    + intros Hempty. apply (Hnone (ZodIssue.mk [Key "positions"] (z.array_too_small 1))).
      unfold ExperienceForm.experienceSchema. apply In_object_cons. left.
      apply In_field. exists (ZodIssue.mk [] (z.array_too_small 1)).
      split; [|reflexivity]. apply In_array_min. left. auto.
    + intros p Hp. apply list_elem_of_In, list_elem_of_lookup in Hp as [n Hn].
      assert (Hreport : forall key message,
                 In (ZodIssue.mk [Key key] message)
                    (ExperienceForm.workExperienceSchema p) -> False).
      { intros key message Hin.
        apply (Hnone (ZodIssue.mk [Key "positions"; Index n; Key key] message)).
        unfold ExperienceForm.experienceSchema. apply In_object_cons. left.
        exact (In_listed "positions" ExperienceData.positions _ _ data n p
                 (ZodIssue.mk [Key key] message) Hn Hin). }
      unfold ExperienceForm.workExperienceSchema in Hreport.
      repeat split; intros Hempty.
      * apply (Hreport "title" "Job title is required").
        apply In_object_cons. left. now apply In_string_field.
      * apply (Hreport "company" "Company name is required").
        do 1 (apply In_object_cons; right). apply In_object_cons. left.
        now apply In_string_field.
      * apply (Hreport "startDate" "Start date is required").
        do 2 (apply In_object_cons; right). apply In_object_cons. left.
        now apply In_string_field.
      * apply (Hreport "description" "Job description is required").
        do 5 (apply In_object_cons; right). apply In_object_cons. left.
        now apply In_string_field.
  - intros [Hne Hall] i Hi.
    unfold ExperienceForm.experienceSchema, ExperienceForm.workExperienceSchema in Hi.
    issue_inv Hi; try contradiction.
    all: match goal with
         | Hn : _ !! _ = Some ?p |- _ =>
             apply list_elem_of_lookup_2, list_elem_of_In, Hall in Hn
         end; tauto.
Qed.

Ltac unfold_schemas_in H :=
  unfold ProfessionalDetailsForm.professionalDetailsSchema,
    ProfessionalDetailsForm.qualificationSchema,
    ProfessionalDetailsForm.certificationSchema,
    ProfessionalDetailsForm.barRegistrationSchema,
    ProfessionalDetailsForm.fileSchema,
    ExperienceForm.experienceSchema, ExperienceForm.workExperienceSchema in H.

(** The last step of [validateWith_entry]'s first premise: the issue that
    is left is the one of the field at the same index. *)
Ltac the_field Hitem :=
  split; [reflexivity|]; try same_index;
  match goal with
  | Hn : _ !! _ = Some ?x |- _ =>
      rewrite Hitem in Hn; injection Hn as <-
  | _ => idtac
  end;
  first [ now apply isEmpty_true | reflexivity | assumption ].

Tactic Notation "pick" integer(k) :=
  do k (apply In_object_cons; right); apply In_object_cons; left.

(** X9: the entries of the error map of the experience step for the
    position at [n]: the keys are [positions.n.field], one for each of
    the four required fields that is empty; there is never an entry for
    the end date or for [current]. *)
Theorem position_errors (data : ExperienceData.t) (n : nat)
    (p : WorkExperiencePosition.t) :
  ExperienceData.positions data !! n = Some p ->
  let errors := snd (ExperienceForm.validateForm data) in
  let key := fun field => "positions." ++ Number_toString n ++ field in
  errors !! key ".title" =
    (if isEmpty (WorkExperiencePosition.title p)
     then Some "Job title is required" else None)
  /\ errors !! key ".company" =
       (if isEmpty (WorkExperiencePosition.company p)
        then Some "Company name is required" else None)
  /\ errors !! key ".startDate" =
       (if isEmpty (WorkExperiencePosition.startDate p)
        then Some "Start date is required" else None)
  /\ errors !! key ".description" =
       (if isEmpty (WorkExperiencePosition.description p)
        then Some "Job description is required" else None)
  /\ errors !! key ".endDate" = None
  /\ errors !! key ".current" = None.
Proof.
  intros Hp errors key. unfold errors, key, ExperienceForm.validateForm.
  repeat split.
  - apply validateWith_entry.
    + intros i Hi Hk. unfold_schemas_in Hi.
      issue_inv Hi; key_inv "positions." Hk. the_field Hp.
    + intros Hfailed. apply isEmpty_true in Hfailed.
      exists (ZodIssue.mk [Key "positions"; Index n; Key "title"] "Job title is required").
      split; [|reflexivity]. unfold ExperienceForm.experienceSchema. pick 0.
      apply (In_listed "positions" ExperienceData.positions _ _ data n p
               (ZodIssue.mk [Key "title"] "Job title is required") Hp).
      unfold ExperienceForm.workExperienceSchema. pick 0. now apply In_string_field.
  - apply validateWith_entry.
    + intros i Hi Hk. unfold_schemas_in Hi.
      issue_inv Hi; key_inv "positions." Hk. the_field Hp.
    + intros Hfailed. apply isEmpty_true in Hfailed.
      exists (ZodIssue.mk [Key "positions"; Index n; Key "company"]
                "Company name is required").
      split; [|reflexivity]. unfold ExperienceForm.experienceSchema. pick 0.
      apply (In_listed "positions" ExperienceData.positions _ _ data n p
               (ZodIssue.mk [Key "company"] "Company name is required") Hp).
      unfold ExperienceForm.workExperienceSchema. pick 1. now apply In_string_field.
  - apply validateWith_entry.
    + intros i Hi Hk. unfold_schemas_in Hi.
      issue_inv Hi; key_inv "positions." Hk. the_field Hp.
    + intros Hfailed. apply isEmpty_true in Hfailed.
      exists (ZodIssue.mk [Key "positions"; Index n; Key "startDate"]
                "Start date is required").
      split; [|reflexivity]. unfold ExperienceForm.experienceSchema. pick 0.
      apply (In_listed "positions" ExperienceData.positions _ _ data n p
               (ZodIssue.mk [Key "startDate"] "Start date is required") Hp).
      unfold ExperienceForm.workExperienceSchema. pick 2. now apply In_string_field.
  - apply validateWith_entry.
    + intros i Hi Hk. unfold_schemas_in Hi.
      issue_inv Hi; key_inv "positions." Hk. the_field Hp.
    + intros Hfailed. apply isEmpty_true in Hfailed.
      exists (ZodIssue.mk [Key "positions"; Index n; Key "description"]
                "Job description is required").
      split; [|reflexivity]. unfold ExperienceForm.experienceSchema. pick 0.
      apply (In_listed "positions" ExperienceData.positions _ _ data n p
               (ZodIssue.mk [Key "description"] "Job description is required") Hp).
      unfold ExperienceForm.workExperienceSchema. pick 5. now apply In_string_field.
  - apply (validateWith_entry _ _ _ "" false); [|discriminate].
    intros i Hi Hk. unfold_schemas_in Hi. issue_inv Hi; key_inv "positions." Hk.
  - apply (validateWith_entry _ _ _ "" false); [|discriminate].
    intros i Hi Hk. unfold_schemas_in Hi. issue_inv Hi; key_inv "positions." Hk.
Qed.

(** X10: the entries of the error map of the professional details for
    the text fields: each of the ten keys holds its message exactly when
    the field is empty; the fields of the certification at [n] are under
    [certifications.n.field]. *)
Theorem professional_field_errors (data : ProfessionalDetailsData.t) (n : nat)
    (c : CertificationData.t) :
  ProfessionalDetailsData.certifications data !! n = Some c ->
  let errors := snd (ProfessionalDetailsForm.validateForm data) in
  let q := ProfessionalDetailsData.qualifications data in
  let b := ProfessionalDetailsData.barRegistration data in
  let key := fun field => "certifications." ++ Number_toString n ++ field in
  errors !! "qualifications.degreeType" =
    (if isEmpty (QualificationData.degreeType q)
     then Some "Degree type is required" else None)
  /\ errors !! "qualifications.institutionName" =
       (if isEmpty (QualificationData.institutionName q)
        then Some "Institution name is required" else None)
  /\ errors !! "qualifications.graduationYear" =
       (if isEmpty (QualificationData.graduationYear q)
        then Some "Graduation year is required" else None)
  /\ errors !! key ".name" =
       (if isEmpty (CertificationData.name c)
        then Some "Certification name is required" else None)
  /\ errors !! key ".issuingBody" =
       (if isEmpty (CertificationData.issuingBody c)
        then Some "Issuing body is required" else None)
  /\ errors !! key ".date" =
       (if isEmpty (CertificationData.date c) then Some "Date is required" else None)
  /\ errors !! "barRegistration.association" =
       (if isEmpty (BarRegistrationData.association b)
        then Some "Bar association is required" else None)
  /\ errors !! "barRegistration.licenseNumber" =
       (if isEmpty (BarRegistrationData.licenseNumber b)
        then Some "License number is required" else None)
  /\ errors !! "barRegistration.jurisdiction" =
       (if isEmpty (BarRegistrationData.jurisdiction b)
        then Some "Jurisdiction is required" else None)
  /\ errors !! "barRegistration.completionYear" =
       (if isEmpty (BarRegistrationData.completionYear b)
        then Some "Completion year is required" else None).
Proof.
  intros Hc errors q b key.
  unfold errors, q, b, key, ProfessionalDetailsForm.validateForm.
  repeat split.
  - apply validateWith_entry.
    + intros i Hi Hk. unfold_schemas_in Hi.
      issue_inv Hi; key_inv "certifications." Hk.
      split; [reflexivity | now apply isEmpty_true].
    + intros Hfailed. apply isEmpty_true in Hfailed.
      exists (ZodIssue.mk [Key "qualifications"; Key "degreeType"] "Degree type is required").
      split; [|reflexivity].
      unfold ProfessionalDetailsForm.professionalDetailsSchema. pick 0.
      apply In_field. exists (ZodIssue.mk [Key "degreeType"] "Degree type is required").
      split; [|reflexivity].
      unfold ProfessionalDetailsForm.qualificationSchema. pick 0.
      now apply In_string_field.
  - apply validateWith_entry.
    + intros i Hi Hk. unfold_schemas_in Hi.
      issue_inv Hi; key_inv "certifications." Hk.
      split; [reflexivity | now apply isEmpty_true].
    + intros Hfailed. apply isEmpty_true in Hfailed.
      exists (ZodIssue.mk [Key "qualifications"; Key "institutionName"] "Institution name is required").
      split; [|reflexivity].
      unfold ProfessionalDetailsForm.professionalDetailsSchema. pick 0.
      apply In_field. exists (ZodIssue.mk [Key "institutionName"] "Institution name is required").
      split; [|reflexivity].
      unfold ProfessionalDetailsForm.qualificationSchema. pick 1.
      now apply In_string_field.
  - apply validateWith_entry.
    + intros i Hi Hk. unfold_schemas_in Hi.
      issue_inv Hi; key_inv "certifications." Hk.
      split; [reflexivity | now apply isEmpty_true].
    + intros Hfailed. apply isEmpty_true in Hfailed.
      exists (ZodIssue.mk [Key "qualifications"; Key "graduationYear"] "Graduation year is required").
      split; [|reflexivity].
      unfold ProfessionalDetailsForm.professionalDetailsSchema. pick 0.
      apply In_field. exists (ZodIssue.mk [Key "graduationYear"] "Graduation year is required").
      split; [|reflexivity].
      unfold ProfessionalDetailsForm.qualificationSchema. pick 2.
      now apply In_string_field.
  - apply validateWith_entry.
    + intros i Hi Hk. unfold_schemas_in Hi.
      issue_inv Hi; key_inv "certifications." Hk. the_field Hc.
    + intros Hfailed. apply isEmpty_true in Hfailed.
      exists (ZodIssue.mk [Key "certifications"; Index n; Key "name"] "Certification name is required").
      split; [|reflexivity].
      unfold ProfessionalDetailsForm.professionalDetailsSchema. pick 1.
      apply (In_listed "certifications" ProfessionalDetailsData.certifications _ _
               data n c (ZodIssue.mk [Key "name"] "Certification name is required") Hc).
      unfold ProfessionalDetailsForm.certificationSchema. pick 0.
      now apply In_string_field.
  - apply validateWith_entry.
    + intros i Hi Hk. unfold_schemas_in Hi.
      issue_inv Hi; key_inv "certifications." Hk. the_field Hc.
    + intros Hfailed. apply isEmpty_true in Hfailed.
      exists (ZodIssue.mk [Key "certifications"; Index n; Key "issuingBody"] "Issuing body is required").
      split; [|reflexivity].
      unfold ProfessionalDetailsForm.professionalDetailsSchema. pick 1.
      apply (In_listed "certifications" ProfessionalDetailsData.certifications _ _
               data n c (ZodIssue.mk [Key "issuingBody"] "Issuing body is required") Hc).
      unfold ProfessionalDetailsForm.certificationSchema. pick 1.
      now apply In_string_field.
  - apply validateWith_entry.
    + intros i Hi Hk. unfold_schemas_in Hi.
      issue_inv Hi; key_inv "certifications." Hk. the_field Hc.
    + intros Hfailed. apply isEmpty_true in Hfailed.
      exists (ZodIssue.mk [Key "certifications"; Index n; Key "date"] "Date is required").
      split; [|reflexivity].
      unfold ProfessionalDetailsForm.professionalDetailsSchema. pick 1.
      apply (In_listed "certifications" ProfessionalDetailsData.certifications _ _
               data n c (ZodIssue.mk [Key "date"] "Date is required") Hc).
      unfold ProfessionalDetailsForm.certificationSchema. pick 2.
      now apply In_string_field.
  - apply validateWith_entry.
    + intros i Hi Hk. unfold_schemas_in Hi.
      issue_inv Hi; key_inv "certifications." Hk.
      split; [reflexivity | now apply isEmpty_true].
    + intros Hfailed. apply isEmpty_true in Hfailed.
      exists (ZodIssue.mk [Key "barRegistration"; Key "association"] "Bar association is required").
      split; [|reflexivity].
      unfold ProfessionalDetailsForm.professionalDetailsSchema. pick 2.
      apply In_field. exists (ZodIssue.mk [Key "association"] "Bar association is required").
      split; [|reflexivity].
      unfold ProfessionalDetailsForm.barRegistrationSchema. pick 0.
      now apply In_string_field.
  - apply validateWith_entry.
    + intros i Hi Hk. unfold_schemas_in Hi.
      issue_inv Hi; key_inv "certifications." Hk.
      split; [reflexivity | now apply isEmpty_true].
    + intros Hfailed. apply isEmpty_true in Hfailed.
      exists (ZodIssue.mk [Key "barRegistration"; Key "licenseNumber"] "License number is required").
      split; [|reflexivity].
      unfold ProfessionalDetailsForm.professionalDetailsSchema. pick 2.
      apply In_field. exists (ZodIssue.mk [Key "licenseNumber"] "License number is required").
      split; [|reflexivity].
      unfold ProfessionalDetailsForm.barRegistrationSchema. pick 1.
      now apply In_string_field.
  - apply validateWith_entry.
    + intros i Hi Hk. unfold_schemas_in Hi.
      issue_inv Hi; key_inv "certifications." Hk.
      split; [reflexivity | now apply isEmpty_true].
    + intros Hfailed. apply isEmpty_true in Hfailed.
      exists (ZodIssue.mk [Key "barRegistration"; Key "jurisdiction"] "Jurisdiction is required").
      split; [|reflexivity].
      unfold ProfessionalDetailsForm.professionalDetailsSchema. pick 2.
      apply In_field. exists (ZodIssue.mk [Key "jurisdiction"] "Jurisdiction is required").
      split; [|reflexivity].
      unfold ProfessionalDetailsForm.barRegistrationSchema. pick 2.
      now apply In_string_field.
  - apply validateWith_entry.
    + intros i Hi Hk. unfold_schemas_in Hi.
      issue_inv Hi; key_inv "certifications." Hk.
      split; [reflexivity | now apply isEmpty_true].
    + intros Hfailed. apply isEmpty_true in Hfailed.
      exists (ZodIssue.mk [Key "barRegistration"; Key "completionYear"] "Completion year is required").
      split; [|reflexivity].
      unfold ProfessionalDetailsForm.professionalDetailsSchema. pick 2.
      apply In_field. exists (ZodIssue.mk [Key "completionYear"] "Completion year is required").
      split; [|reflexivity].
      unfold ProfessionalDetailsForm.barRegistrationSchema. pick 3.
      now apply In_string_field.
Qed.

Lemma In_file_field {A : Type} (get : A -> FormFile.t) (a : A) :
  FormFile.file (get a) = None ->
  In (ZodIssue.mk [Key "document"; Key "file"] "Document is required")
     (z.field "document" get ProfessionalDetailsForm.fileSchema a).
Proof.
  intros Hnone. apply In_field.
  exists (ZodIssue.mk [Key "file"] "Document is required"). split; [|reflexivity].
  now apply professional_fileSchema_requires.
Qed.

(** X11: the professional details validate exactly when every text
    field of the qualification, of each certification and of the bar
    registration is filled, each of them holds a document file, and there
    is a certification. *)
Theorem professional_details_validation (data : ProfessionalDetailsData.t) :
  let q := ProfessionalDetailsData.qualifications data in
  let b := ProfessionalDetailsData.barRegistration data in
  fst (ProfessionalDetailsForm.validateForm data) = true <->
  (QualificationData.degreeType q <> ""
   /\ QualificationData.institutionName q <> ""
   /\ QualificationData.graduationYear q <> ""
   /\ FormFile.file (QualificationData.document q) <> None)
  /\ ProfessionalDetailsData.certifications data <> []
  /\ (forall c, In c (ProfessionalDetailsData.certifications data) ->
        CertificationData.name c <> ""
        /\ CertificationData.issuingBody c <> ""
        /\ CertificationData.date c <> ""
        /\ FormFile.file (CertificationData.document c) <> None)
  /\ (BarRegistrationData.association b <> ""
      /\ BarRegistrationData.licenseNumber b <> ""
      /\ BarRegistrationData.jurisdiction b <> ""
      /\ BarRegistrationData.completionYear b <> ""
      /\ FormFile.file (BarRegistrationData.document b) <> None).
Proof.
  intros q b. unfold ProfessionalDetailsForm.validateForm.
  rewrite validateWith_passes. split.
  - intros Hnone.
    assert (Hq : forall j, In j (ProfessionalDetailsForm.qualificationSchema q) -> False).
    { intros j Hj.
      apply (Hnone (ZodIssue.mk (Key "qualifications" :: ZodIssue.path j)
                      (ZodIssue.message j))).
      unfold ProfessionalDetailsForm.professionalDetailsSchema. pick 0.
      apply In_field. eauto. }
    assert (Hb : forall j, In j (ProfessionalDetailsForm.barRegistrationSchema b) -> False).
    { intros j Hj.
      apply (Hnone (ZodIssue.mk (Key "barRegistration" :: ZodIssue.path j)
                      (ZodIssue.message j))).
      unfold ProfessionalDetailsForm.professionalDetailsSchema. pick 2.
      apply In_field. eauto. }
    assert (Hc : forall c j, In c (ProfessionalDetailsData.certifications data) ->
                 In j (ProfessionalDetailsForm.certificationSchema c) -> False).
    { intros c j Hin Hj.
      apply list_elem_of_In, list_elem_of_lookup in Hin as [n Hn].
      apply (Hnone (ZodIssue.mk (Key "certifications" :: Index n :: ZodIssue.path j)
                      (ZodIssue.message j))).
      unfold ProfessionalDetailsForm.professionalDetailsSchema. pick 1.
      exact (In_listed "certifications" ProfessionalDetailsData.certifications _ _
               data n c j Hn Hj). }
    unfold ProfessionalDetailsForm.qualificationSchema in Hq.
    unfold ProfessionalDetailsForm.barRegistrationSchema in Hb.
    unfold ProfessionalDetailsForm.certificationSchema in Hc.
    split; [|split; [|split]].
    + repeat split; intros Hempty.
      * apply (Hq (ZodIssue.mk [Key "degreeType"] "Degree type is required")).
        pick 0. now apply In_string_field.
      * apply (Hq (ZodIssue.mk [Key "institutionName"] "Institution name is required")).
        pick 1. now apply In_string_field.
      * apply (Hq (ZodIssue.mk [Key "graduationYear"] "Graduation year is required")).
        pick 2. now apply In_string_field.
      * apply (Hq (ZodIssue.mk [Key "document"; Key "file"] "Document is required")).
        pick 3. now apply In_file_field.
    + intros Hempty.
      apply (Hnone (ZodIssue.mk [Key "certifications"]
                      "At least one certification is required")).
      unfold ProfessionalDetailsForm.professionalDetailsSchema. pick 1.
      apply In_field.
      exists (ZodIssue.mk [] "At least one certification is required").
      split; [|reflexivity]. apply In_array_min. left. auto.
    + intros c Hin. repeat split; intros Hempty.
      * apply (Hc c (ZodIssue.mk [Key "name"] "Certification name is required") Hin).
        pick 0. now apply In_string_field.
      * apply (Hc c (ZodIssue.mk [Key "issuingBody"] "Issuing body is required") Hin).
        pick 1. now apply In_string_field.
      * apply (Hc c (ZodIssue.mk [Key "date"] "Date is required") Hin).
        pick 2. now apply In_string_field.
      * apply (Hc c (ZodIssue.mk [Key "document"; Key "file"] "Document is required") Hin).
        pick 3. now apply In_file_field.
    + repeat split; intros Hempty.
      * apply (Hb (ZodIssue.mk [Key "association"] "Bar association is required")).
        pick 0. now apply In_string_field.
      * apply (Hb (ZodIssue.mk [Key "licenseNumber"] "License number is required")).
        pick 1. now apply In_string_field.
      * apply (Hb (ZodIssue.mk [Key "jurisdiction"] "Jurisdiction is required")).
        pick 2. now apply In_string_field.
      * apply (Hb (ZodIssue.mk [Key "completionYear"] "Completion year is required")).
        pick 3. now apply In_string_field.
      * apply (Hb (ZodIssue.mk [Key "document"; Key "file"] "Document is required")).
        pick 4. now apply In_file_field.
  - intros (Hq & Hne & Hc & Hb) i Hi. unfold_schemas_in Hi.
    issue_inv Hi; try tauto.
    all: match goal with
         | Hn : _ !! _ = Some ?c |- _ =>
             apply list_elem_of_lookup_2, list_elem_of_In, Hc in Hn
         end; tauto.
Qed.

(** ** Adding, removing and editing list entries *)

(** [splice(index, 1)] deletes the entry at the start that it computes,
    when there is one. *)
Lemma splice_one_delete {A : Type} (index : Z) (l : list A) :
  let len := Z.of_nat (length l) in
  let start :=
    Z.to_nat (if (index <? 0)%Z then Z.max (len + index) 0 else Z.min index len) in
  splice index 1 l = if (start <? length l)%nat then delete start l else l.
Proof.
  intros len start. unfold splice. fold len.
  set (actualStart := if (index <? 0)%Z then Z.max (len + index) 0 else Z.min index len).
  assert (Hstart : (0 <= actualStart <= len)%Z).
  { unfold actualStart. destruct (index <? 0)%Z eqn:E; lia. }
  fold actualStart in start.
  destruct (start <? length l)%nat eqn:E.
  - apply Nat.ltb_lt in E. rewrite delete_take_drop. f_equal.
    f_equal. unfold start. lia.
  - apply Nat.ltb_ge in E.
    replace (Z.to_nat actualStart) with (length l) by (unfold start in E; lia).
    replace (Z.to_nat (_ + _)) with (length l) by (unfold start in E; lia).
    now rewrite firstn_all, drop_all, app_nil_r.
Qed.

Lemma splice_one_cases {A : Type} (index : Z) (l : list A) :
  l <> [] ->
  splice index 1 l =
    if (index <? - Z.of_nat (length l))%Z then delete 0 l
    else if (index <? 0)%Z then delete (Z.to_nat (Z.of_nat (length l) + index)) l
    else if (index <? Z.of_nat (length l))%Z then delete (Z.to_nat index) l
    else l.
Proof.
  intros Hne. assert (Hlen : (0 < length l)%nat) by (destruct l; [contradiction | simpl; lia]).
  rewrite splice_one_delete.
  destruct (index <? - Z.of_nat (length l))%Z eqn:E1.
  - apply Z.ltb_lt in E1. rewrite (proj2 (Z.ltb_lt index 0)) by lia.
    replace (Z.to_nat (Z.max _ 0)) with 0%nat by lia.
    now rewrite (proj2 (Nat.ltb_lt _ _)) by lia.
  - apply Z.ltb_ge in E1. destruct (index <? 0)%Z eqn:E2.
    + apply Z.ltb_lt in E2.
      replace (Z.to_nat (Z.max _ 0)) with (Z.to_nat (Z.of_nat (length l) + index)) by lia.
      now rewrite (proj2 (Nat.ltb_lt _ _)) by lia.
    + apply Z.ltb_ge in E2. destruct (index <? Z.of_nat (length l))%Z eqn:E3.
      * apply Z.ltb_lt in E3.
        replace (Z.to_nat (Z.min _ _)) with (Z.to_nat index) by lia.
        now rewrite (proj2 (Nat.ltb_lt _ _)) by lia.
      * apply Z.ltb_ge in E3.
        replace (Z.to_nat (Z.min _ _)) with (length l) by lia.
        now rewrite (proj2 (Nat.ltb_ge _ _)) by lia.
Qed.

(** X12: removing from a list of more than one entry takes out one
    entry, the one [splice(index, 1)] finds: the entry at [index]; for a
    negative [index] the entry counted from the end, or the first one
    when that is out of range; none when [index] is past the end. The
    rest of the section is kept. The same for certifications and
    positions. *)
Theorem remove_takes_one_entry (index : Z) :
  (forall (data : ProfessionalDetailsData.t),
      let l := ProfessionalDetailsData.certifications data in
      (1 < length l)%nat ->
      exists updated,
        ProfessionalDetailsForm.handleRemoveCertification index data = Some updated
        /\ ProfessionalDetailsData.qualifications updated
             = ProfessionalDetailsData.qualifications data
        /\ ProfessionalDetailsData.barRegistration updated
             = ProfessionalDetailsData.barRegistration data
        /\ ProfessionalDetailsData.certifications updated =
             if (index <? - Z.of_nat (length l))%Z then delete 0 l
             else if (index <? 0)%Z then delete (Z.to_nat (Z.of_nat (length l) + index)) l
             else if (index <? Z.of_nat (length l))%Z then delete (Z.to_nat index) l
             else l)
  /\ (forall (data : ExperienceData.t),
        let l := ExperienceData.positions data in
        (1 < length l)%nat ->
        exists updated,
          ExperienceForm.handleRemovePosition index data = Some updated
          /\ ExperienceData.positions updated =
               if (index <? - Z.of_nat (length l))%Z then delete 0 l
               else if (index <? 0)%Z then delete (Z.to_nat (Z.of_nat (length l) + index)) l
               else if (index <? Z.of_nat (length l))%Z then delete (Z.to_nat index) l
               else l).
Proof.
  split.
  - intros data l Hlen. unfold ProfessionalDetailsForm.handleRemoveCertification.
    fold l. rewrite (proj2 (Nat.leb_gt _ _)) by lia.
    eexists. split; [reflexivity|]. simpl. repeat split.
    apply splice_one_cases. intros Hnil. rewrite Hnil in Hlen. simpl in Hlen. lia.
  - intros data l Hlen. unfold ExperienceForm.handleRemovePosition.
    fold l. rewrite (proj2 (Nat.ltb_lt _ _)) by lia.
    eexists. split; [reflexivity|]. simpl.
    apply splice_one_cases. intros Hnil. rewrite Hnil in Hlen. simpl in Hlen. lia.
Qed.



(** X15: ticking "current" on a position clears its end date for good:
    unticking it afterwards leaves the end date empty. *)
Theorem current_toggle_loses_end_date (index : nat) (data : ExperienceData.t)
    (p : WorkExperiencePosition.t) :
  ExperienceData.positions data !! index = Some p ->
  exists checked unchecked,
    ExperienceForm.handlePositionChange index (ExperienceForm.current true) data
      = Some checked
    /\ ExperienceForm.handlePositionChange index (ExperienceForm.current false) checked
         = Some unchecked
    /\ ExperienceData.positions unchecked =
         <[ index := WorkExperiencePosition.mk
                       (WorkExperiencePosition.title p)
                       (WorkExperiencePosition.company p)
                       (WorkExperiencePosition.startDate p)
                       "" false
                       (WorkExperiencePosition.description p) ]>
           (ExperienceData.positions data).
Proof.
  intros Hp. unfold ExperienceForm.handlePositionChange. rewrite Hp.
  eexists _, _. split; [reflexivity|]. simpl.
  rewrite list_lookup_insert_eq by (eapply lookup_lt_Some; eauto).
  split; [reflexivity|]. simpl. now rewrite list_insert_insert_eq.
Qed.

(** ** The years of the selects *)

Lemma generateYearsFrom_spec (fuel : nat) (year : Z) :
  fuel = Z.to_nat (year - 1949) ->
  ProfessionalDetailsForm.generateYearsFrom fuel year =
    map (fun k => Number_toString (Z.to_nat year - k)) (seq 0 fuel).
Proof.
  revert year. induction fuel as [|fuel IH]; intros year Hfuel; [reflexivity|].
  cbn [ProfessionalDetailsForm.generateYearsFrom].
  rewrite (proj2 (Z.geb_le _ _)) by lia.
  cbn [seq map]. rewrite Nat.sub_0_r. f_equal.
  rewrite IH by lia. rewrite <- seq_shift, map_map.
  apply map_ext. intros k. f_equal. lia.
Qed.

(** X16: [generateYears] lists every year from the current one down to
    1950, in that order, each once; for a year before 1950 the list is
    empty. *)
Theorem generateYears_lists_every_year (currentYear : Z) :
  let years := ProfessionalDetailsForm.generateYears currentYear in
  length years = Z.to_nat (currentYear - 1949)
  /\ (forall k : nat,
        (k < length years)%nat ->
        years !! k = Some (Number_toString (Z.to_nat currentYear - k)))
  /\ NoDup years.
Proof.
  intros years. unfold years, ProfessionalDetailsForm.generateYears.
  rewrite generateYearsFrom_spec by reflexivity.
  change (map ?f ?l) with (f <$> l).
  rewrite length_fmap, length_seq.
  assert (Hlookup : forall k : nat,
             (k < Z.to_nat (currentYear - 1949))%nat ->
             ((fun k => Number_toString (Z.to_nat currentYear - k))
                <$> seq 0 (Z.to_nat (currentYear - 1949))) !! k
             = Some (Number_toString (Z.to_nat currentYear - k))).
  { intros k Hk. rewrite list_lookup_fmap.
    rewrite (proj2 (lookup_seq 0 _ k k)) by (split; [reflexivity | exact Hk]).
    reflexivity. }
  split; [reflexivity|]. split; [exact Hlookup|].
  apply NoDup_alt. intros i j x Hi Hj.
  assert (Hi' := lookup_lt_Some _ _ _ Hi). assert (Hj' := lookup_lt_Some _ _ _ Hj).
  rewrite length_fmap, length_seq in Hi', Hj'.
  rewrite Hlookup in Hi by exact Hi'. rewrite Hlookup in Hj by exact Hj'.
  injection Hi as <-. injection Hj as Hj. apply Number_toString_inj in Hj. lia.
Qed.

(** ** The stepper *)

Lemma findIndexFrom_shift {A : Type} (p : A -> bool) (l : list A) (start : Z) :
  (exists x, In x l /\ p x = true) ->
  findIndexFrom p l start = (start + findIndexFrom p l 0)%Z.
Proof.
  revert start. induction l as [|x l IH]; intros start (y & Hin & Hy).
  - destruct Hin.
  - simpl. destruct (p x) eqn:Hx; [lia|].
    destruct Hin as [->|Hin]; [congruence|].
    rewrite (IH (start + 1)%Z), (IH (0 + 1)%Z) by eauto. lia.
Qed.

Lemma findIndexFrom_none {A : Type} (p : A -> bool) (l : list A) (start : Z) :
  (forall x, In x l -> p x = false) -> findIndexFrom p l start = (-1)%Z.
Proof.
  revert start. induction l as [|x l IH]; intros start Hnone; [reflexivity|].
  simpl. rewrite (Hnone x) by now left. apply IH. intros y Hy. apply Hnone. now right.
Qed.

(** With ids that differ, [findIndex] on the id of the step at [i] is [i]. *)
Lemma findIndex_own_id (steps : list Step.t) (i : nat) (step : Step.t) :
  NoDup (Step.id <$> steps) ->
  steps !! i = Some step ->
  findIndex (fun s => bool_decide (Step.id s = Step.id step)) steps = Z.of_nat i.
Proof.
  unfold findIndex. revert i. induction steps as [|s steps IH]; intros i Hdup Hi.
  - discriminate.
  - apply NoDup_cons in Hdup as [Hnotin Hdup]. destruct i as [|i]; simpl in Hi.
    + injection Hi as ->. simpl. now rewrite bool_decide_eq_true_2.
    + simpl. rewrite bool_decide_eq_false_2.
      * rewrite findIndexFrom_shift.
        -- rewrite (IH i Hdup Hi). lia.
        -- exists step. split; [|now apply bool_decide_eq_true_2].
           apply list_elem_of_In. eapply list_elem_of_lookup_2; eauto.
      * intros Heq. apply Hnotin. rewrite Heq. apply list_elem_of_fmap.
        exists step. split; [reflexivity|]. eapply list_elem_of_lookup_2; eauto.
Qed.

(** X17: the stepper, for steps with ids that differ: the circles of the
    steps before the current one are green, the circle of the current
    step is dark and the later ones are grey; the connector after a step
    is green exactly when that step is before the current one. *)
Theorem stepper_marks_progress (currentStep : FormSteps) (steps : list Step.t)
    (c : nat) (current : Step.t) :
  NoDup (Step.id <$> steps) ->
  steps !! c = Some current ->
  Step.id current = currentStep ->
  (forall (i : nat) (step : Step.t),
      steps !! i = Some step ->
      FormStepper.circle currentStep steps (Step.id step) =
        if (i <? c)%nat then FormStepper.green
        else if (i =? c)%nat then FormStepper.dark
        else FormStepper.grey)
  /\ (forall i : nat,
        (S i < length steps)%nat ->
        FormStepper.connector currentStep steps i = Some (i <? c)%nat).
Proof.
  intros Hdup Hc Hid.
  assert (Hcurrent : FormStepper.getCurrentStepIndex currentStep steps = Z.of_nat c).
  { unfold FormStepper.getCurrentStepIndex. rewrite <- Hid.
    now apply findIndex_own_id. }
  assert (Hcompleted : forall i step, steps !! i = Some step ->
             FormStepper.isStepCompleted currentStep steps (Step.id step)
             = (i <? c)%nat).
  { intros i step Hi. unfold FormStepper.isStepCompleted.
    rewrite Hcurrent, (findIndex_own_id steps i step Hdup Hi).
    destruct (i <? c)%nat eqn:E.
    - apply Nat.ltb_lt in E. apply Z.ltb_lt. lia.
    - apply Nat.ltb_ge in E. apply Z.ltb_ge. lia. }
  assert (Hiscurrent : forall i step, steps !! i = Some step ->
             FormStepper.isCurrentStep currentStep (Step.id step)
             = (i =? c)%nat).
  { intros i step Hi. unfold FormStepper.isCurrentStep.
    destruct (i =? c)%nat eqn:E.
    - apply Nat.eqb_eq in E. subst i. rewrite Hc in Hi. injection Hi as <-.
      now apply bool_decide_eq_true_2.
    - apply Nat.eqb_neq in E. apply bool_decide_eq_false_2. intros Heq.
      apply E. rewrite <- Hid in Heq.
      pose proof (findIndex_own_id steps i step Hdup Hi) as H1.
      pose proof (findIndex_own_id steps c current Hdup Hc) as H2.
      rewrite Heq in H1. lia. }
  split.
  - intros i step Hi. unfold FormStepper.circle.
    rewrite (Hcompleted i step Hi), (Hiscurrent i step Hi). reflexivity.
  - intros i Hi. unfold FormStepper.connector.
    destruct (lookup_lt_is_Some_2 steps i ltac:(lia)) as [step Hstep].
    destruct (lookup_lt_is_Some_2 steps (S i) Hi) as [next Hnext].
    rewrite Hstep, Hnext.
    rewrite (Hcompleted _ _ Hnext), (Hcompleted _ _ Hstep), (Hiscurrent _ _ Hnext).
    f_equal.
    destruct (S i <? c)%nat eqn:E1, (i <? c)%nat eqn:E2, (S i =? c)%nat eqn:E3;
      try reflexivity;
      repeat match goal with
             | E : (_ <? _)%nat = true |- _ => apply Nat.ltb_lt in E
             | E : (_ <? _)%nat = false |- _ => apply Nat.ltb_ge in E
             | E : (_ =? _)%nat = true |- _ => apply Nat.eqb_eq in E
             | E : (_ =? _)%nat = false |- _ => apply Nat.eqb_neq in E
             end; lia.
Qed.

Lemma wizard_steps_NoDup : NoDup (Step.id <$> steps).
Proof. rewrite step_ids. apply (bool_decide_unpack _). reflexivity. Qed.

(** ** The summary *)

(** X18: the summary line of the experience, [positions[0]], never
    throws on a page that the events reach from the initial state: the
    list has a first position. On the summary itself the title and the
    company of that position, and the first name, are not empty. *)
Theorem summary_can_be_rendered (events : list Event) (br : Browser) :
  let data := formData (fst (run events (initialState, br))) in
  (exists latest rest,
      ExperienceData.positions (FormData.experience data) = latest :: rest
      /\ VerificationStatus.experience data =
           Normal (Number_toString (S (length rest)) ++ " position(s) | Latest: "
                   ++ WorkExperiencePosition.title latest ++ " at "
                   ++ WorkExperiencePosition.company latest)
      /\ (currentStep (fst (run events (initialState, br))) = verificationStatus ->
          WorkExperiencePosition.title latest <> ""
          /\ WorkExperiencePosition.company latest <> ""))
  /\ (currentStep (fst (run events (initialState, br))) = verificationStatus ->
      BasicDetails.firstName (FormData.basicDetails data) <> "").
Proof.
  intros data.
  assert (Hlists : listsNonEmpty data).
  { apply run_keeps_lists. split; simpl; lia. }
  assert (Hpass : earlierStepsPass (fst (run events (initialState, br)))).
  { apply run_keeps_passed. apply earlierStepsPass_cases. exact I. }
  apply earlierStepsPass_cases in Hpass.
  destruct Hlists as [_ Hpositions]. fold data in Hpass. split.
  - destruct (ExperienceData.positions (FormData.experience data))
      as [|latest rest] eqn:Hlist; [simpl in Hpositions; lia|].
    exists latest, rest. split; [reflexivity|]. split.
    + unfold VerificationStatus.experience. now rewrite Hlist.
    + intros Hlast. rewrite Hlast in Hpass. destruct Hpass as (_ & _ & Hexp & _).
      unfold stepPasses, ExperienceForm.validateForm in Hexp.
      rewrite validateWith_passes in Hexp.
      assert (Hreport : forall key message,
                 In (ZodIssue.mk [Key key] message)
                    (ExperienceForm.workExperienceSchema latest) -> False).
      { intros key message Hin.
        apply (Hexp (ZodIssue.mk [Key "positions"; Index 0; Key key] message)).
        unfold ExperienceForm.experienceSchema. apply In_object_cons. left.
        apply (In_listed "positions" ExperienceData.positions _ _
                 (FormData.experience data) 0 latest
                 (ZodIssue.mk [Key key] message)); [now rewrite Hlist | exact Hin]. }
      unfold ExperienceForm.workExperienceSchema in Hreport.
      split; intros Hempty.
      * apply (Hreport "title" "Job title is required"). pick 0.
        now apply In_string_field.
      * apply (Hreport "company" "Company name is required"). pick 1.
        now apply In_string_field.
  - intros Hlast. rewrite Hlast in Hpass. destruct Hpass as (Hbasic & _).
    unfold stepPasses, BasicDetailsForm.validateForm in Hbasic.
    rewrite validateWith_passes in Hbasic. intros Hempty.
    apply (Hbasic (ZodIssue.mk [Key "firstName"] "First name is required")).
    unfold BasicDetailsForm.basicDetailsSchema. pick 0. now apply In_string_field.
Qed.

(** ** Accepted files *)

Lemma select_valid (dragging : option bool) (file : File.t) (rest : list File.t) :
  FileUpload.valid (FileUpload.validateFile file) = true ->
  FileUpload.select dragging (file :: rest) =
    FileUpload.mkHandled dragging
      (Some (FormFile.mk (Some file) (Some (createObjectURL file)))) [].
Proof. intros Hvalid. unfold FileUpload.select. now rewrite Hvalid. Qed.

(** X19: a valid first file, dropped or picked on a slot that is shown,
    fills that slot with the file and its object URL, whatever the slot
    held and whatever files follow it: no toast, no other slot changed,
    step and errors as before; the next Continue reports no missing
    document for the slot. *)
Theorem accepted_file_fills_slot (slot : Slot) (gesture : Gesture)
    (file : File.t) (rest : list File.t) (value : FormFile.t)
    (st : State) (br : Browser) :
  FileUpload.valid (FileUpload.validateFile file) = true ->
  slotValue slot st = Some value ->
  exists st',
    upload slot gesture (file :: rest) st br = (st', br)
    /\ slotValue slot st' =
         Some (FormFile.mk (Some file) (Some (createObjectURL file)))
    /\ (forall other, other <> slot -> slotValue other st' = slotValue other st)
    /\ currentStep st' = currentStep st
    /\ errors st' = errors st
    /\ errors (clickContinue st') !! slotErrorKey slot = None.
Proof.
  intros Hvalid Hslot.
  set (uploaded := FormFile.mk (Some file) (Some (createObjectURL file))).
  exists (slotChange slot uploaded st).
  assert (Hupload : upload slot gesture (file :: rest) st br =
                    (slotChange slot uploaded st, br)).
  { unfold upload. rewrite Hslot.
    unfold FileUpload.handleDrop, FileUpload.handleFileChange.
    destruct gesture; rewrite select_valid by assumption; reflexivity. }
  assert (Hnew : slotValue slot (slotChange slot uploaded st) = Some uploaded
                 /\ (forall other, other <> slot ->
                       slotValue other (slotChange slot uploaded st) = slotValue other st)
                 /\ currentStep (slotChange slot uploaded st) = currentStep st
                 /\ errors (slotChange slot uploaded st) = errors st).
  { unfold slotValue in *.
    destruct slot, (currentStep st) eqn:Hstep; try discriminate Hslot.
    - simpl. rewrite Hstep. split; [reflexivity|]. split; [|auto].
      intros [] Hother; try contradiction; reflexivity.
    - apply fmap_Some in Hslot as (c & Hc & _).
      unfold slotChange, ProfessionalDetailsForm.handleCertificationChange.
      rewrite Hc. simpl. rewrite Hstep.
      rewrite list_lookup_insert_eq by (eapply lookup_lt_Some; eauto).
      split; [reflexivity|]. split; [|auto].
      intros [] Hother; try reflexivity.
      rewrite list_lookup_insert_ne by congruence. reflexivity.
    - simpl. rewrite Hstep. split; [reflexivity|]. split; [|auto].
      intros [] Hother; try contradiction; reflexivity.
    - simpl. rewrite Hstep. split; [reflexivity|]. split; [|auto].
      intros [] Hother; try contradiction; reflexivity. }
  destruct Hnew as (Hvalue & Hothers & Hstep & Herrors).
  split; [exact Hupload|]. split; [exact Hvalue|]. split; [exact Hothers|].
  split; [exact Hstep|]. split; [exact Herrors|].
  destruct (slot_documentRequired slot uploaded _ Hvalue)
    as ([isValid formatted] & Hvalidate & _ & Hpresent).
  assert (Hlookup : formatted !! slotErrorKey slot = None).
  { apply Hpresent. discriminate. }
  rewrite (clickContinue_stepValidate _ isValid formatted Hvalidate).
  destruct isValid; [|exact Hlookup].
  rewrite handleNext_cases. cbn [currentStep setStepErrors].
  destruct (currentStep (slotChange slot uploaded st)); try apply lookup_empty.
  exact Hlookup.
Qed.

(** X20: a drop or a pick without a file changes nothing. *)
Theorem no_file_no_change (slot : Slot) (gesture : Gesture) (st : State) (br : Browser) :
  upload slot gesture [] st br = (st, br).
Proof.
  unfold upload. destruct (slotValue slot st); [|reflexivity].
  destruct gesture; reflexivity.
Qed.

(** ** What a draft holds *)

Lemma replaced_holds_no_file (value : JSValue) :
  forall key, containsFile (replaced key value) = false.
Proof.
  induction value as [| | | | |items IH|props IH] using JSValue_induction; intros key;
    try (simpl; destruct (String.eqb key "file"); reflexivity).
  - change (replaced key (JSFile f))
      with (if String.eqb key "file" && true then replacer key (JSFile f)
            else JSObject []).
    unfold replacer, instanceofFile. now destruct (String.eqb key "file").
  - rewrite replaced_array. cbn [containsFile].
    generalize 0%nat. induction IH as [|x items Hx _ IH]; intros first; [reflexivity|].
    cbn [mapFrom existsb]. now rewrite Hx, IH.
  - rewrite replaced_object. cbn [containsFile].
    induction IH as [|[k x] props Hx _ IH]; [reflexivity|].
    cbn [map existsb snd] in *. now rewrite Hx, IH.
Qed.

Lemma fileRefsOf_holds_no_file (data : FormData.t) :
  containsFile (fileRefsOf data) = false.
Proof.
  assert (Href : forall document, containsFile (previewRef document) = false).
  { intros [file [preview|]]; reflexivity. }
  unfold fileRefsOf. cbn [containsFile existsb snd]. rewrite !Href. simpl.
  rewrite orb_false_r.
  induction (ProfessionalDetailsData.certifications (FormData.professionalDetails data))
    as [|c l IH]; [reflexivity|].
  cbn [map existsb]. now rewrite Href, IH.
Qed.

(** X21: Save Draft writes two keys of the storage and no other: the
    form data without its files, and the previews; no [File] is in either
    value. It logs nothing and shows one toast. *)
Theorem saved_draft_holds_no_file (st : State) (br : Browser) :
  let saved := handleSaveDraft st br in
  localStorage saved !! STORAGE_KEY =
    Some (JSON_text (ToJS.formData (withoutFiles (formData st))))
  /\ containsFile (ToJS.formData (withoutFiles (formData st))) = false
  /\ localStorage saved !! FILES_STORAGE_KEY = Some (JSON_text (fileRefsOf (formData st)))
  /\ containsFile (fileRefsOf (formData st)) = false
  /\ (forall key, key <> STORAGE_KEY -> key <> FILES_STORAGE_KEY ->
        localStorage saved !! key = localStorage br !! key)
  /\ console saved = console br
  /\ exists toast, toasts saved = (toasts br ++ [toast])%list
                   /\ Toast.title toast = "Draft saved".
Proof.
  intros saved. unfold saved, handleSaveDraft, showToast, setItem.
  cbn [localStorage toasts console]. rewrite replaced_formData.
  split. { rewrite lookup_insert_ne by discriminate. now rewrite lookup_insert_eq. }
  split. { rewrite <- replaced_formData. apply replaced_holds_no_file. }
  split. { now rewrite lookup_insert_eq. }
  split. { apply fileRefsOf_holds_no_file. }
  split. { intros key H1 H2. now rewrite !lookup_insert_ne by congruence. }
  split; [reflexivity|]. eexists. split; reflexivity.
Qed.

(** X22: there is one draft: what a later Save Draft stores replaces
    what an earlier one stored. *)
Theorem later_draft_replaces_earlier (st1 st2 : State) (br : Browser) :
  localStorage (handleSaveDraft st2 (handleSaveDraft st1 br)) =
    localStorage (handleSaveDraft st2 br).
Proof.
  unfold handleSaveDraft, showToast, setItem. cbn [localStorage toasts console].
  apply map_eq. intros key.
  destruct (decide (key = FILES_STORAGE_KEY)) as [->|H1].
  { now rewrite !lookup_insert_eq. }
  rewrite !(lookup_insert_ne _ FILES_STORAGE_KEY) by congruence.
  destruct (decide (key = STORAGE_KEY)) as [->|H2].
  { now rewrite !lookup_insert_eq. }
  rewrite !(lookup_insert_ne _ STORAGE_KEY) by congruence.
  now rewrite !lookup_insert_ne by congruence.
Qed.

(** ** What loading changes *)

Lemma assignQualificationPreview_same (url : string) (data : FormData.t) :
  mapDocuments withoutPreview (assignQualificationPreview url data) =
    mapDocuments withoutPreview data.
Proof. reflexivity. Qed.

Lemma assignBarRegistrationPreview_same (url : string) (data : FormData.t) :
  mapDocuments withoutPreview (assignBarRegistrationPreview url data) =
    mapDocuments withoutPreview data.
Proof. reflexivity. Qed.

Lemma assignIdentityPreview_same (url : string) (data : FormData.t) :
  mapDocuments withoutPreview (assignIdentityPreview url data) =
    mapDocuments withoutPreview data.
Proof. reflexivity. Qed.

Lemma alter_preview_same (url : string) (l : list CertificationData.t) (index : nat) :
  map (fun c =>
         CertificationData.mk (CertificationData.name c)
           (CertificationData.issuingBody c) (CertificationData.date c)
           (withoutPreview (CertificationData.document c)))
      (alter (certificationWithPreview url) index l) =
  map (fun c =>
         CertificationData.mk (CertificationData.name c)
           (CertificationData.issuingBody c) (CertificationData.date c)
           (withoutPreview (CertificationData.document c))) l.
Proof.
  revert index. induction l as [|c l IH]; intros [|index]; try reflexivity.
  change (alter (certificationWithPreview url) (S index) (c :: l))
    with (c :: alter (certificationWithPreview url) index l).
  cbn [map]. now rewrite IH.
Qed.

Lemma assignCertificationPreview_same (index : nat) (url : string) (data : FormData.t) :
  mapDocuments withoutPreview (assignCertificationPreview index url data) =
    mapDocuments withoutPreview data.
Proof.
  unfold mapDocuments, assignCertificationPreview, withProfessional.
  cbn [FormData.basicDetails FormData.professionalDetails FormData.experience
       FormData.identityVerification ProfessionalDetailsData.qualifications
       ProfessionalDetailsData.certifications ProfessionalDetailsData.barRegistration].
  now rewrite alter_preview_same.
Qed.

Lemma restoreFrom_same (holder : JSValue) (assign : string -> FormData.t -> FormData.t)
    (data : FormData.t) :
  (forall url, mapDocuments withoutPreview (assign url data) =
                 mapDocuments withoutPreview data) ->
  keepsAllButPreviews (restoreFrom holder assign data) data.
Proof.
  intros Hassign. unfold restoreFrom.
  destruct (get holder "preview") as [preview|]; [|reflexivity].
  destruct (truthy preview); [|reflexivity].
  destruct (preview ≫= OfJS.string_); simpl; auto.
Qed.

Lemma restoreSection_same (fileRefs : JSValue) (key : string)
    (assign : string -> FormData.t -> FormData.t) (data : FormData.t) :
  (forall url, mapDocuments withoutPreview (assign url data) =
                 mapDocuments withoutPreview data) ->
  keepsAllButPreviews (restoreSection fileRefs key assign data) data.
Proof.
  intros Hassign. unfold restoreSection.
  destruct (get fileRefs key) as [[holder|]|]; try reflexivity.
  destruct (truthy (Some holder)); [|reflexivity].
  now apply restoreFrom_same.
Qed.

Lemma andThen_same (r : Restored) (next : FormData.t -> Restored) (data : FormData.t) :
  keepsAllButPreviews r data ->
  (forall data', mapDocuments withoutPreview data' = mapDocuments withoutPreview data ->
                 keepsAllButPreviews (next data') data') ->
  keepsAllButPreviews (andThen r next) data.
Proof.
  intros Hr Hnext. destruct r as [data'| |]; simpl in *; auto.
  specialize (Hnext data' Hr). destruct (next data'); simpl in *; congruence.
Qed.

Lemma restoreEach_same (items : list JSValue) :
  forall index data, keepsAllButPreviews (restoreEach items index data) data.
Proof.
  induction items as [|cert rest IH]; intros index data; [reflexivity|].
  cbn [restoreEach]. apply andThen_same.
  - destruct (_ <? _)%nat; [|reflexivity].
    apply restoreFrom_same. intros url. apply assignCertificationPreview_same.
  - intros data' _. apply IH.
Qed.

Lemma restoreCertifications_same (fileRefs : JSValue) (data : FormData.t) :
  keepsAllButPreviews (restoreCertifications fileRefs data) data.
Proof.
  unfold restoreCertifications.
  destruct (get fileRefs "certifications") as [[list_|]|]; try reflexivity.
  destruct (truthy (Some list_)); [|reflexivity].
  destruct (get list_ "length") as [len|]; [|reflexivity].
  destruct (truthy len); [|reflexivity].
  destruct list_; try reflexivity. apply restoreEach_same.
Qed.

Lemma restorePreviews_same (fileRefs : JSValue) (parsedData : FormData.t) :
  keepsAllButPreviews (restorePreviews fileRefs parsedData) parsedData.
Proof.
  unfold restorePreviews.
  apply andThen_same; [apply restoreSection_same; intros url; apply assignQualificationPreview_same|].
  intros d1 _.
  apply andThen_same; [apply restoreSection_same; intros url; apply assignBarRegistrationPreview_same|].
  intros d2 _.
  apply andThen_same; [apply restoreCertifications_same|].
  intros d3 _. apply restoreSection_same; intros url; apply assignIdentityPreview_same.
Qed.

(** X23: whatever is stored under the key of the file references, when
    the load ends in a state, its form data is the stored form data in
    everything but the previews of the documents. *)
Theorem file_refs_touch_previews_only (st st' : State) (br br' : Browser)
    (savedData : string) (parsedJSON : JSValue) (parsedData : FormData.t) :
  present (localStorage br !! STORAGE_KEY) = Some savedData ->
  JSON_parse savedData = Some parsedJSON ->
  OfJS.formData parsedJSON = Some parsedData ->
  loadEffect st br = Some (st', br') ->
  mapDocuments withoutPreview (formData st') = mapDocuments withoutPreview parsedData.
Proof.
  intros Hsaved Hparse Htyped. unfold loadEffect.
  rewrite Hsaved, Hparse, Htyped.
  destruct (present (localStorage br !! FILES_STORAGE_KEY)) as [savedFiles|].
  - destruct (JSON_parse savedFiles) as [fileRefs|].
    + pose proof (restorePreviews_same fileRefs parsedData) as Hsame.
      destruct (restorePreviews fileRefs parsedData); intros [= <- <-];
        simpl in *; exact Hsame.
    + now intros [= <- <-].
  - now intros [= <- <-].
Qed.

(** X24: loading a draft changes at most the form data: step, direction
    and errors are kept and the storage is not written; the browser gets
    nothing, or the toast, or one line on the console. *)
Theorem load_changes_form_data_only (st st' : State) (br br' : Browser) :
  loadEffect st br = Some (st', br') ->
  currentStep st' = currentStep st
  /\ animationDirection st' = animationDirection st
  /\ errors st' = errors st
  /\ localStorage br' = localStorage br
  /\ ((st' = st /\ br' = br)
      \/ br' = showToast draftLoaded br
      \/ br' = consoleError "Error parsing saved form data:" br).
Proof.
  unfold loadEffect.
  destruct (present (localStorage br !! STORAGE_KEY)) as [savedData|];
    [|intros [= <- <-]; auto 10].
  destruct (JSON_parse savedData) as [parsedJSON|]; [|intros [= <- <-]; auto 10].
  destruct (OfJS.formData parsedJSON) as [parsedData|]; [|discriminate].
  destruct (present (localStorage br !! FILES_STORAGE_KEY)) as [savedFiles|];
    [|intros [= <- <-]; auto 10].
  destruct (JSON_parse savedFiles) as [fileRefs|]; [|intros [= <- <-]; auto 10].
  destruct (restorePreviews fileRefs parsedData); intros [= <- <-]; auto 10.
Qed.
End Coverage.

(** * The statements at sample inputs *)

#[local] Existing Instance Reference.platform.

Lemma validateFile_rejects_type_witness :
  ~ In (File.type Sample.notes) FileUpload.validTypes
  /\ FileUpload.validateFile Sample.notes =
       FileUpload.mkValidation false
         (Some "Only PDF, JPG, and PNG files are allowed").
Proof.
  assert (Hnot : ~ In (File.type Sample.notes) FileUpload.validTypes).
  { simpl. intuition discriminate. }
  split; [exact Hnot | exact (validateFile_rejects_type Sample.notes Hnot)].
Defined.

Lemma validateFile_size_witness :
  In (File.type Sample.scan) FileUpload.validTypes
  /\ FileUpload.validateFile Sample.scan = FileUpload.mkValidation true None
  /\ FileUpload.validateFile Sample.largeScan =
       FileUpload.mkValidation false (Some "File size must be less than 5MB").
Proof.
  assert (Hin : In "image/png" FileUpload.validTypes).
  { simpl. auto. }
  split; [exact Hin|]. split.
  - apply (proj2 (validateFile_size Sample.scan Hin)). simpl. lia.
  - apply (proj1 (validateFile_size Sample.largeScan Hin)). simpl. lia.
Defined.

Lemma continue_validates_then_advances_witness :
  currentStep initialState <> verificationStatus
  /\ exists (isValid : bool) (formatted : ErrorMap),
       stepValidate initialState = Some (isValid, formatted)
       /\ if isValid then
            exists (i : nat) (next : FormSteps),
              (Step.id <$> steps) !! i = Some (currentStep initialState)
              /\ (Step.id <$> steps) !! S i = Some next
              /\ clickContinue initialState =
                   mkState (formData initialState) next forward ∅
          else
            formatted <> ∅
            /\ clickContinue initialState =
                 mkState (formData initialState) (currentStep initialState)
                   (animationDirection initialState) formatted.
Proof.
  assert (Hnot : currentStep initialState <> verificationStatus).
  { simpl. discriminate. }
  split; [exact Hnot | exact (continue_validates_then_advances initialState Hnot)].
Defined.

Lemma document_needs_live_file_witness :
  slotValue identityDocument Sample.restored =
    Some (FormFile.mk None (Some "blob:passport.png"))
  /\ errors (clickContinue Sample.restored) !! slotErrorKey identityDocument =
       Some "Document is required"
  /\ currentStep (clickContinue Sample.restored) = identityVerification.
Proof.
  assert (Hslot : slotValue identityDocument Sample.restored =
                  Some (FormFile.mk None (Some "blob:passport.png"))).
  { reflexivity. }
  split; [exact Hslot|].
  destruct (document_needs_live_file identityDocument _ Sample.restored Hslot)
    as (isValid & formatted & _ & Habsent & _).
  destruct (Habsent eq_refl) as (_ & _ & Hstep & Herrors).
  split; [exact Herrors | exact Hstep].
Defined.

Lemma rejected_file_leaves_slot_witness :
  FileUpload.valid (FileUpload.validateFile Sample.notes) = false
  /\ slotValue identityDocument Sample.restored =
       Some (FormFile.mk None (Some "blob:passport.png"))
  /\ upload identityDocument drop_ [Sample.notes] Sample.restored Sample.emptyBrowser =
       (Sample.restored,
        showToast
          (FileUpload.invalidFile (Some "Only PDF, JPG, and PNG files are allowed"))
          Sample.emptyBrowser).
Proof.
  assert (Hinvalid : FileUpload.valid (FileUpload.validateFile Sample.notes) = false).
  { reflexivity. }
  assert (Hslot : slotValue identityDocument Sample.restored =
                  Some (FormFile.mk None (Some "blob:passport.png"))).
  { reflexivity. }
  split; [exact Hinvalid|]. split; [exact Hslot|].
  exact (proj1 (proj2 (proj2
           (rejected_file_leaves_slot identityDocument drop_ Sample.notes []
              _ Sample.restored Sample.emptyBrowser Hinvalid Hslot)))).
Defined.

Lemma malformed_draft_is_no_draft_witness :
  localStorage Sample.brokenDraft !! STORAGE_KEY = Some "{"
  /\ JSON_parse "{" = None
  /\ mount Sample.brokenDraft =
       Some (initialState,
             consoleError "Error parsing saved form data:" Sample.brokenDraft).
Proof.
  assert (Hsaved : localStorage Sample.brokenDraft !! STORAGE_KEY = Some "{").
  { apply lookup_singleton_eq. }
  assert (Hne : "{" <> "").
  { discriminate. }
  assert (Hparse : JSON_parse "{" = None).
  { reflexivity. }
  split; [exact Hsaved|]. split; [exact Hparse|].
  exact (proj2 (malformed_draft_is_no_draft initialState Sample.brokenDraft "{"
                  Hsaved Hne Hparse)).
Defined.

Lemma basic_details_missing_first_name_witness :
  isEmail "a@b.com" = true
  /\ BasicDetailsForm.validateForm (BasicDetails.mk "" "Doe" "a@b.com") =
       (false, {[ "firstName" := "First name is required" ]}).
Proof.
  assert (Hemail : isEmail "a@b.com" = true).
  { reflexivity. }
  split; [exact Hemail | exact (basic_details_missing_first_name Hemail)].
Defined.

Lemma experience_needs_one_position_witness :
  ExperienceForm.validateForm (ExperienceData.mk [Sample.position]) = (true, ∅)
  /\ clickContinue Sample.onExperience =
       mkState (formData Sample.onExperience) identityVerification forward ∅.
Proof.
  destruct (proj2 experience_needs_one_position
              "Associate" "Doe and Partners" "2020-01-01T00:00:00.000Z"
              "2021-01-01T00:00:00.000Z" "Contract law")
    as [Hvalid Hcontinue]; try discriminate.
  split; [exact Hvalid|].
  apply (Hcontinue Sample.onExperience); reflexivity.
Defined.

Lemma lists_never_empty_witness :
  length (ProfessionalDetailsData.certifications
            (FormData.professionalDetails initialFormData)) = 1%nat
  /\ ProfessionalDetailsForm.handleRemoveCertification 0
       (FormData.professionalDetails initialFormData) = None
  /\ ExperienceForm.handleRemovePosition 0 (FormData.experience initialFormData) = None
  /\ listsNonEmpty
       (formData (fst (run Sample.fillBasicDetails (initialState, Sample.emptyBrowser)))).
Proof.
  destruct lists_never_empty as (Hcert & Hpos & _ & Hrun).
  split; [reflexivity|].
  split; [apply Hcert; reflexivity|].
  split; [apply Hpos; reflexivity|].
  apply Hrun.
Defined.

Lemma save_then_load_restores_data_witness :
  JSON_parse "" = None
  /\ mount (handleSaveDraft Sample.withCertificate Sample.emptyBrowser) =
       Some (mkState (withoutFiles (formData Sample.withCertificate))
               basicDetails forward ∅,
             showToast draftLoaded
               (handleSaveDraft Sample.withCertificate Sample.emptyBrowser)).
Proof.
  assert (Hempty : JSON_parse "" = None).
  { reflexivity. }
  split; [exact Hempty|].
  apply (save_then_load_restores_data Sample.withCertificate Sample.emptyBrowser Hempty).
  - vm_compute. reflexivity.
  - vm_compute. reflexivity.
Defined.

(** The claim of C1 as it is written fails on the current step: a draft
    saved on the second step, with no file and no preview in any slot, is
    loaded with the same form data on the first step. *)
Lemma save_then_load_forgets_step :
  let page := run Sample.fillBasicDetails (initialState, Sample.emptyBrowser) in
  noFileSlotPopulated (formData (fst page))
  /\ currentStep (fst page) = professionalDetails
  /\ exists (st' : State) (br' : Browser),
       mount (snd page) = Some (st', br')
       /\ formData st' = formData (fst page)
       /\ currentStep st' = basicDetails
       /\ (currentStep st', formData st') <> (currentStep (fst page), formData (fst page)).
Proof.
  split; [|split].
  - vm_compute. repeat constructor.
  - reflexivity.
  - eexists _, _. split; [vm_compute; reflexivity|].
    split; [reflexivity|]. split; [reflexivity|].
    vm_compute. discriminate.
Qed.

(** ** The further properties at sample inputs *)

Lemma previous_needs_no_validation_witness :
  (Step.id <$> steps) !! 2%nat = Some (currentStep Sample.onExperience)
  /\ clickPrevious Sample.onExperience =
       mkState (formData Sample.onExperience) professionalDetails backward ∅.
Proof.
  assert (Hcurrent : (Step.id <$> steps) !! 2%nat = Some (currentStep Sample.onExperience)).
  { reflexivity. }
  split; [exact Hcurrent|].
  apply (previous_needs_no_validation Sample.onExperience 1 professionalDetails Hcurrent).
  - reflexivity.
  - simpl. discriminate.
Defined.

Lemma continue_then_previous_witness :
  stepValidate Sample.onExperience = Some (true, ∅)
  /\ clickPrevious (clickContinue Sample.onExperience) =
       mkState (formData Sample.onExperience) experience backward ∅.
Proof.
  assert (Hvalid : stepValidate Sample.onExperience = Some (true, ∅)).
  { reflexivity. }
  split; [exact Hvalid|].
  apply (continue_then_previous Sample.onExperience ∅ Hvalid). simpl. discriminate.
Defined.

Lemma verification_status_is_final_witness :
  let page := run Sample.completeApplication (initialState, Sample.emptyBrowser) in
  currentStep (fst page) = verificationStatus
  /\ run [Previous; ChangeBasicDetails BasicDetailsForm.firstName ""; SaveDraft]
       (fst page, snd page) = (fst page, snd page).
Proof.
  intros page.
  assert (Hlast : currentStep (fst page) = verificationStatus).
  { vm_compute. reflexivity. }
  split; [exact Hlast|].
  exact (verification_status_is_final _ (fst page) (snd page) Hlast).
Defined.

Lemma steps_are_passed_in_order_witness :
  let st := fst (run Sample.completeApplication (initialState, Sample.emptyBrowser)) in
  currentStep st = verificationStatus
  /\ stepPasses basicDetails (formData st) = true
  /\ stepPasses professionalDetails (formData st) = true
  /\ stepPasses experience (formData st) = true
  /\ stepPasses identityVerification (formData st) = true.
Proof.
  intros st.
  assert (Hlast : currentStep st = verificationStatus).
  { vm_compute. reflexivity. }
  split; [exact Hlast|].
  exact (proj2 (steps_are_passed_in_order Sample.completeApplication Sample.emptyBrowser)
           Hlast).
Defined.

Lemma experience_validation_witness :
  fst (ExperienceForm.validateForm (ExperienceData.mk [Sample.position])) = true.
Proof.
  apply (proj2 (experience_validation (ExperienceData.mk [Sample.position]))).
  split; [discriminate|].
  intros p [<-|[]]. repeat split; discriminate.
Defined.

Lemma position_errors_witness :
  snd (ExperienceForm.validateForm Sample.twoPositions) !! "positions.1.title" =
    Some "Job title is required"
  /\ snd (ExperienceForm.validateForm Sample.twoPositions) !! "positions.1.endDate" = None.
Proof.
  destruct (position_errors Sample.twoPositions 1 ExperienceForm.emptyPosition eq_refl)
    as (Htitle & _ & _ & _ & Hend & _).
  split; [exact Htitle | exact Hend].
Defined.

Lemma professional_field_errors_witness :
  let errors :=
    snd (ProfessionalDetailsForm.validateForm
           (FormData.professionalDetails initialFormData)) in
  errors !! "qualifications.degreeType" = Some "Degree type is required"
  /\ errors !! "certifications.0.name" = Some "Certification name is required".
Proof.
  destruct (professional_field_errors (FormData.professionalDetails initialFormData)
              0 initialCertification eq_refl)
    as (Hdegree & _ & _ & Hname & _).
  split; [exact Hdegree | exact Hname].
Defined.

Lemma professional_details_validation_witness :
  fst (ProfessionalDetailsForm.validateForm Sample.credentials) = true.
Proof.
  apply (proj2 (professional_details_validation Sample.credentials)).
  split; [repeat split; discriminate|].
  split; [discriminate|].
  split; [|repeat split; discriminate].
  intros c [<-|[]]. repeat split; discriminate.
Defined.

Lemma remove_takes_one_entry_witness :
  (1 < length (ExperienceData.positions Sample.twoPositions))%nat
  /\ exists updated,
       ExperienceForm.handleRemovePosition 0 Sample.twoPositions = Some updated
       /\ ExperienceData.positions updated = [ExperienceForm.emptyPosition].
Proof.
  assert (Hlen : (1 < length (ExperienceData.positions Sample.twoPositions))%nat).
  { simpl. lia. }
  split; [exact Hlen|].
  exact (proj2 (remove_takes_one_entry 0) Sample.twoPositions Hlen).
Defined.



Lemma current_toggle_loses_end_date_witness :
  exists checked unchecked,
    ExperienceForm.handlePositionChange 0 (ExperienceForm.current true)
      (ExperienceData.mk [Sample.position]) = Some checked
    /\ ExperienceForm.handlePositionChange 0 (ExperienceForm.current false) checked
         = Some unchecked
    /\ ExperienceData.positions unchecked =
         [ WorkExperiencePosition.mk "Associate" "Doe and Partners"
             "2020-01-01T00:00:00.000Z" "" false "Contract law" ].
Proof.
  exact (current_toggle_loses_end_date 0 (ExperienceData.mk [Sample.position])
           Sample.position eq_refl).
Defined.

Lemma generateYears_lists_every_year_witness :
  ProfessionalDetailsForm.generateYears 2024 !! 74%nat = Some "1950".
Proof.
  apply (proj1 (proj2 (generateYears_lists_every_year 2024)) 74%nat).
  vm_compute. lia.
Defined.

Lemma stepper_marks_progress_witness :
  FormStepper.circle experience steps basicDetails = FormStepper.green
  /\ FormStepper.circle experience steps experience = FormStepper.dark
  /\ FormStepper.circle experience steps verificationStatus = FormStepper.grey
  /\ FormStepper.connector experience steps 1 = Some true
  /\ FormStepper.connector experience steps 2 = Some false.
Proof.
  assert (Hdup : NoDup (Step.id <$> steps)).
  { apply (bool_decide_unpack _). vm_compute. exact I. }
  destruct (stepper_marks_progress experience steps 2
              (Step.mk experience "Experience") Hdup eq_refl eq_refl)
    as [Hcircle Hconnector].
  split; [exact (Hcircle 0%nat (Step.mk basicDetails "Basic Details") eq_refl)|].
  split; [exact (Hcircle 2%nat (Step.mk experience "Experience") eq_refl)|].
  split; [exact (Hcircle 4%nat (Step.mk verificationStatus "Verification Status") eq_refl)|].
  split; apply Hconnector; simpl; lia.
Defined.

Lemma summary_can_be_rendered_witness :
  let st := fst (run Sample.completeApplication (initialState, Sample.emptyBrowser)) in
  currentStep st = verificationStatus
  /\ BasicDetails.firstName (FormData.basicDetails (formData st)) <> "".
Proof.
  intros st.
  assert (Hlast : currentStep st = verificationStatus).
  { vm_compute. reflexivity. }
  split; [exact Hlast|].
  exact (proj2 (summary_can_be_rendered Sample.completeApplication Sample.emptyBrowser)
           Hlast).
Defined.

Lemma accepted_file_fills_slot_witness :
  FileUpload.valid (FileUpload.validateFile Sample.scan) = true
  /\ exists st',
       upload identityDocument drop_ [Sample.scan; Sample.notes] Sample.restored
         Sample.emptyBrowser = (st', Sample.emptyBrowser)
       /\ slotValue identityDocument st' =
            Some (FormFile.mk (Some Sample.scan) (Some (createObjectURL Sample.scan)))
       /\ errors (clickContinue st') !! slotErrorKey identityDocument = None.
Proof.
  assert (Hvalid : FileUpload.valid (FileUpload.validateFile Sample.scan) = true).
  { reflexivity. }
  split; [exact Hvalid|].
  destruct (accepted_file_fills_slot identityDocument drop_ Sample.scan [Sample.notes]
              _ Sample.restored Sample.emptyBrowser Hvalid eq_refl)
    as (st' & Hupload & Hslot & _ & _ & _ & Herror).
  exists st'. split; [exact Hupload|]. split; [exact Hslot | exact Herror].
Defined.

Lemma saved_draft_holds_no_file_witness :
  localStorage (handleSaveDraft Sample.withCertificate Sample.brokenDraft) !! "theme" =
    localStorage Sample.brokenDraft !! "theme".
Proof.
  apply (proj1 (proj2 (proj2 (proj2 (proj2
           (saved_draft_holds_no_file Sample.withCertificate Sample.brokenDraft))))));
    discriminate.
Defined.

Lemma file_refs_touch_previews_only_witness :
  let br := handleSaveDraft Sample.withCertificate Sample.emptyBrowser in
  exists st' br',
    loadEffect initialState br = Some (st', br')
    /\ mapDocuments withoutPreview (formData st') =
         mapDocuments withoutPreview (withoutFiles (formData Sample.withCertificate)).
Proof.
  intros br.
  destruct (loadEffect initialState br) as [[st' br']|] eqn:Hload;
    [|vm_compute in Hload; discriminate Hload].
  exists st', br'. split; [reflexivity|].
  apply (file_refs_touch_previews_only initialState st' br br'
           (JSON_text (ToJS.formData (withoutFiles (formData Sample.withCertificate))))
           (ToJS.formData (withoutFiles (formData Sample.withCertificate)))
           (withoutFiles (formData Sample.withCertificate))).
  - vm_compute. reflexivity.
  - vm_compute. reflexivity.
  - vm_compute. reflexivity.
  - exact Hload.
Defined.

Lemma load_changes_form_data_only_witness :
  exists st' br',
    loadEffect Sample.onExperience Sample.brokenDraft = Some (st', br')
    /\ currentStep st' = experience
    /\ localStorage br' = localStorage Sample.brokenDraft.
Proof.
  assert (Hload : loadEffect Sample.onExperience Sample.brokenDraft =
                  Some (Sample.onExperience,
                        consoleError "Error parsing saved form data:" Sample.brokenDraft)).
  { vm_compute. reflexivity. }
  eexists _, _. split; [exact Hload|].
  destruct (load_changes_form_data_only _ _ _ _ Hload) as (Hstep & _ & _ & Hstorage & _).
  split; [exact Hstep | exact Hstorage].
Defined.
